(** * Optical topology / ROADM connection engine

    A shallow embedding of [optical_topology_or/ot_actions.py]: the interface
    name parser, the three interface provisioners, the frequency-slot overlap
    check and the three actions (discover, build, delete), followed by the
    properties established about them.

    Conventions of the model.
    - A Python [str] is a [string] whose characters are the code points below
      256.  In that range the decimal digits known to [int], [float] and the
      regular expression class [\d] are exactly ['0'..'9'], and the white
      space stripped by [int] and [float] is 9..13, 32, 0x85 and 0xA0.
    - A Python [float] is an IEEE 754 binary64 value, [spec_float] with
      [prec = 53] and [emax = 1024]; conversions from and to decimal text are
      correctly rounded (to nearest, ties to even).
    - A Python [int] is a [Z].
    - An unset leaf of the configuration tree reads as [None]; keyed lists of
      the tree are finite maps, and [create] on a keyed list returns the entry
      that is already there when there is one.
    - An exception that leaves a function is the result [None] (or
      [Raised] for an action); a [try] block shows as a match on it. *)

From Stdlib Require Import ZArith NArith Ascii String List Bool Lia.
From Stdlib Require Import DecimalString DecimalN DecimalZ DecimalPos DecimalFacts.
From Stdlib Require Import Floats.SpecFloat.
From stdpp Require Import base option list gmap strings fin_maps fin_sets.

Local Open Scope string_scope.
Local Open Scope Z_scope.

(** ** Python built-ins used by the program *)

Module Py.

Definition is_digit (c : ascii) : bool :=
  let n := N_of_ascii c in ((48 <=? n) && (n <=? 57))%N.

(** White space as [int] and [float] strip it. *)
Definition is_space (c : ascii) : bool :=
  let n := N_of_ascii c in
  (((9 <=? n) && (n <=? 13)) || (n =? 32) || (n =? 133) || (n =? 160))%N.

Fixpoint lstrip (s : string) : string :=
  match s with
  | EmptyString => EmptyString
  | String c r => if is_space c then lstrip r else s
  end.

Fixpoint rstrip (s : string) : string :=
  match s with
  | EmptyString => EmptyString
  | String c r =>
      match rstrip r with
      | EmptyString => if is_space c then EmptyString else String c EmptyString
      | r' => String c r'
      end
  end.

Definition strip (s : string) : string := rstrip (lstrip s).

(** [s.split(sep)] for a one-character separator. *)
Fixpoint split (sep : ascii) (s : string) : list string :=
  match s with
  | EmptyString => [EmptyString]
  | String c r =>
      if Ascii.eqb c sep then EmptyString :: split sep r
      else match split sep r with
           | h :: t => String c h :: t
           | [] => [String c EmptyString]
           end
  end.

(** [s.startswith(p)] *)
Fixpoint startswith (s p : string) {struct p} : bool :=
  match p, s with
  | EmptyString, _ => true
  | String a p', String b s' => Ascii.eqb a b && startswith s' p'
  | String _ _, EmptyString => false
  end.

(** [s[n:]] *)
Fixpoint slice_from (n : nat) (s : string) : string :=
  match n, s with
  | O, _ => s
  | S n', String _ r => slice_from n' r
  | S _, EmptyString => EmptyString
  end.

(** [x in parts] for a list of strings. *)
Definition contains (x : string) (parts : list string) : bool :=
  existsb (String.eqb x) parts.

(** The longest prefix of digits, and what follows it. *)
Fixpoint span_digits (s : string) : string * string :=
  match s with
  | EmptyString => (EmptyString, EmptyString)
  | String c r =>
      if is_digit c then let '(d, rest) := span_digits r in (String c d, rest)
      else (EmptyString, s)
  end.

(** Underscores of a numeric literal: each one sits between two digits.
    [prev] is the character before [s] (NUL at the start).  The result is
    the text without its underscores. *)
Fixpoint drop_underscores (prev : ascii) (s : string) : option string :=
  match s with
  | EmptyString => if Ascii.eqb prev "_" then None else Some EmptyString
  | String c r =>
      if Ascii.eqb c "_" then
        if is_digit prev then drop_underscores c r else None
      else if Ascii.eqb prev "_" && negb (is_digit c) then None
      else String c <$> drop_underscores c r
  end.

Definition split_sign (s : string) : bool * string :=
  match s with
  | String "-" r => (true, r)
  | String "+" r => (false, r)
  | _ => (false, s)
  end.

(** The value of a non-empty string of digits. *)
Definition digits_value (s : string) : option N :=
  match s with
  | EmptyString => None
  | _ => N.of_uint <$> NilEmpty.uint_of_string s
  end.

(** [int(s)], base ten; [None] is [ValueError]. *)
Definition int (s : string) : option Z :=
  let '(neg, body) := split_sign (strip s) in
  u ← drop_underscores zero body;
  n ← digits_value u;
  Some (if neg : bool then - Z.of_N n else Z.of_N n).

(** [str(n)] and [f"{n}"] for an integer. *)
Definition str_int (n : Z) : string := NilZero.string_of_int (Z.to_int n).

(** [f"{n:02d}"]: zero padded to two characters, the sign included. *)
Definition fmt_02d (n : Z) : string :=
  let s := str_int n in
  if (String.length s <? 2)%nat then String "0" s else s.

(** [str(x)] for a leaf that may be unset. *)
Definition str_leaf (x : option string) : string := default "None" x.

(** *** binary64 *)

Definition prec : Z := 53.
Definition emax : Z := 1024.

Definition fadd : spec_float -> spec_float -> spec_float := SFadd prec emax.
Definition fsub : spec_float -> spec_float -> spec_float := SFsub prec emax.
Definition fle (x y : spec_float) : bool := SFleb x y.
Definition flt (x y : spec_float) : bool := SFltb x y.
Definition fge (x y : spec_float) : bool := SFleb y x.

(** The double nearest to [m * 10^e10], with the sign [neg]. *)
Definition float_of_decimal (neg : bool) (m : N) (e10 : Z) : spec_float :=
  match m with
  | N0 => S754_zero neg
  | Npos p =>
      if 0 <=? e10 then
        binary_normalize prec emax
          ((if neg then Z.neg p else Z.pos p) * 10 ^ e10) 0 false
      else
        SFdiv prec emax (S754_finite neg p 0)
          (S754_finite false (Z.to_pos (10 ^ (- e10))) 0)
  end.

Definition lower (c : ascii) : ascii :=
  let n := N_of_ascii c in
  if ((65 <=? n) && (n <=? 90))%N then ascii_of_N (n + 32) else c.

Fixpoint lower_string (s : string) : string :=
  match s with
  | EmptyString => EmptyString
  | String c r => String (lower c) (lower_string r)
  end.

(** The exponent part of a float literal: empty, or [e], an optional sign
    and digits up to the end of the text. *)
Definition parse_exponent (s : string) : option Z :=
  match s with
  | EmptyString => Some 0
  | String c r =>
      if Ascii.eqb c "e" || Ascii.eqb c "E" then
        let '(neg, r1) := split_sign r in
        let '(ed, r2) := span_digits r1 in
        match r2 with
        | EmptyString =>
            n ← digits_value ed;
            Some (if neg : bool then - Z.of_N n else Z.of_N n)
        | _ => None
        end
      else None
  end.

(** Digits, an optional point and digits (one digit at least), and an
    exponent: the mantissa digits and the power of ten. *)
Definition parse_decimal (s : string) : option (string * Z) :=
  let '(ip, r1) := span_digits s in
  let '(fp, r2) :=
    match r1 with
    | String "." r => span_digits r
    | _ => (EmptyString, r1)
    end in
  match ip +:+ fp with
  | EmptyString => None
  | ds =>
      e ← parse_exponent r2;
      n ← digits_value ds;
      Some (ds, e - Z.of_nat (String.length fp))
  end.

(** [float(s)]; [None] is [ValueError]. *)
Definition float (s : string) : option spec_float :=
  u ← drop_underscores zero (strip s);
  let '(neg, body) := split_sign u in
  let l := lower_string body in
  if String.eqb l "inf" || String.eqb l "infinity" then Some (S754_infinity neg)
  else if String.eqb l "nan" then Some S754_nan
  else
    '(ds, e10) ← parse_decimal body;
    n ← digits_value ds;
    Some (float_of_decimal neg n e10).

(** [round(x * 100)] for the finite value [m * 2^e], ties to even. *)
Definition cents (m : positive) (e : Z) : Z :=
  if 0 <=? e then Z.pos m * 2 ^ e * 100
  else
    let num := Z.pos m * 100 in
    let den := 2 ^ (- e) in
    let q := num / den in
    let r := num mod den in
    match 2 * r ?= den with
    | Lt => q
    | Gt => q + 1
    | Eq => if Z.even q then q else q + 1
    end.

Definition two_digits (n : Z) : string :=
  str_int (n / 10) +:+ str_int (n mod 10).

(** [f"{x:.2f}"] *)
Definition fmt_2f (x : spec_float) : string :=
  match x with
  | S754_nan => "nan"
  | S754_infinity s => if s then "-inf" else "inf"
  | S754_zero s => if s then "-0.00" else "0.00"
  | S754_finite s m e =>
      let c := cents m e in
      (if s then "-" else "") +:+ str_int (c / 100) +:+ "." +:+ two_digits (c mod 100)
  end.

(** The literal [0.05]. *)
Definition f_0_05 : spec_float := float_of_decimal false 5 (-2).

End Py.

(** ** Regular expressions of the program *)

(** [re.match(lit + r"(\d+)", p)]: group 1 and the text after the match. *)
Definition re_lit_digits (lit p : string) : option (string * string) :=
  if Py.startswith p lit then
    match Py.span_digits (Py.slice_from (String.length lit) p) with
    | (EmptyString, _) => None
    | (d, rest) => Some (d, rest)
    end
  else None.

(** [re.match(r"SRG(\d+)", p)], group 1. *)
Definition re_SRG (p : string) : option string := fst <$> re_lit_digits "SRG" p.

(** [re.match(r"DEG(\d+)-", p)], group 1: the digits are followed by a dash. *)
Definition re_DEG_dash (p : string) : option string :=
  match re_lit_digits "DEG" p with
  | Some (d, String "-" _) => Some d
  | _ => None
  end.

Fixpoint span_zeros (s : string) : string * string :=
  match s with
  | String "0" r => let '(z, rest) := span_zeros r in (String "0" z, rest)
  | _ => (EmptyString, s)
  end.

(** [re.match(r"PP0*(\d+)", p)], group 1.  The zeros are taken greedily; when
    no digit is left after them the last zero is given back to the group. *)
Definition re_PP (p : string) : option string :=
  if Py.startswith p "PP" then
    let '(zs, r) := span_zeros (Py.slice_from 2 p) in
    match Py.span_digits r with
    | (EmptyString, _) =>
        match zs with
        | EmptyString => None
        | _ => Some "0"
        end
    | (d, _) => Some d
    end
  else None.

(** ** The identifier parser *)

Module Info.
Record t := mk {
  layer : option string;
  degree_id : option Z;
  srg_id : option Z;
  pp_id : option Z;
  direction : option string;
  frequency : option string
}.
Definition empty : t := mk None None None None None None.
Definition set_layer v (i : t) :=
  mk (Some v) (degree_id i) (srg_id i) (pp_id i) (direction i) (frequency i).
Definition set_degree_id v (i : t) :=
  mk (layer i) (Some v) (srg_id i) (pp_id i) (direction i) (frequency i).
Definition set_srg_id v (i : t) :=
  mk (layer i) (degree_id i) (Some v) (pp_id i) (direction i) (frequency i).
Definition set_pp_id v (i : t) :=
  mk (layer i) (degree_id i) (srg_id i) (Some v) (direction i) (frequency i).
Definition set_direction v (i : t) :=
  mk (layer i) (degree_id i) (srg_id i) (pp_id i) (Some v) (frequency i).
Definition set_frequency v (i : t) :=
  mk (layer i) (degree_id i) (srg_id i) (pp_id i) (direction i) (Some v).
End Info.

(** One turn of the loop [for p in parts]. *)
Definition scan_part (info : Info.t) (p : string) : Info.t :=
  if Py.startswith p "DEG" then
    match Py.int (Py.slice_from 3 p) with
    | Some n => Info.set_degree_id n info
    | None => info
    end
  else if Py.startswith p "SRG" then
    match re_SRG p with
    | Some g =>
        match Py.int g with
        | Some n => Info.set_srg_id n info
        | None => info
        end
    | None => info
    end
  else if Py.startswith p "PP" then
    match re_PP p with
    | Some g =>
        match Py.int g with
        | Some n => Info.set_pp_id n info
        | None => info
        end
    | None => info
    end
  else info.

Definition layer_tags : list string := ["OMS"; "OTS"; "MC"; "NMC"].

(** [parse_if_name]; [None] would be an exception leaving the function
    ([parts[-1]] and [parts[0]] raise on an empty list). *)
Definition parse_if_name (if_name : string) : option Info.t :=
  let parts := Py.split "-" if_name in
  let info := Info.empty in
  match parts with
  | [] => Some info
  | _ =>
      let info :=
        if Py.contains "RX" parts then Info.set_direction "RX" info
        else if Py.contains "TX" parts then Info.set_direction "TX" info
        else info in
      last_tok ← last parts;
      let info :=
        match Py.float last_tok with
        | Some _ => Info.set_frequency last_tok info
        | None => info
        end in
      let info := fold_left scan_part parts info in
      prefix ← head parts;
      let info :=
        if Py.contains prefix layer_tags then Info.set_layer prefix info
        else if Py.startswith prefix "SRG" then Info.set_layer "NMC" info
        else info in
      Some info
  end.

(** ** The configuration tree *)

Module McTtp.
Record t := mk { min_freq : option string; max_freq : option string }.
End McTtp.

Module NmcCtp.
Record t := mk { frequency : option string; width : option string }.
End NmcCtp.

(** An interface.  The containers [mc_ttp] and [nmc_ctp] are there once a
    leaf of theirs has been written: [hasattr(intf, "mc_ttp")] is
    [mc_ttp <> None]. *)
Module Intf.
Record t := mk {
  type : option string;
  administrative_state : option string;
  supporting_circuit_pack_name : option string;
  supporting_port : option string;
  supporting_interface_list : list string;
  mc_ttp : option McTtp.t;
  nmc_ctp : option NmcCtp.t
}.
(** The entry [if_list.create(name)] makes: nothing set. *)
Definition new : t := mk None None None None [] None None.
End Intf.

Module Conn.
Record t := mk {
  src_if : option string;
  dst_if : option string;
  opticalControlMode : option string;
  target_output_power : option spec_float
}.
Definition new : t := mk None None None None.
End Conn.

Record Device := mkDevice {
  address : option string;
  circuit_packs : list string;
  interface : gmap string Intf.t;
  roadm_connections : gmap string Conn.t
}.

Definition set_interface (dev : Device) (ifs : gmap string Intf.t) : Device :=
  mkDevice (address dev) (circuit_packs dev) ifs (roadm_connections dev).

Definition set_roadm_connections (dev : Device) (rcs : gmap string Conn.t) : Device :=
  mkDevice (address dev) (circuit_packs dev) (interface dev) rcs.

(** ** The topology cache *)

Module TP.
Record t := mk {
  interface : option string;
  layer : option string;
  degree_id : option Z;
  srg_id : option Z;
  direction : option string;
  frequency : option string
}.
Definition new : t := mk None None None None None None.
End TP.

Module Node.
Record t := mk {
  device : option string;
  mgmt_ip : option string;
  degree : gset Z;
  srg : gset Z;
  tp : gmap string TP.t
}.
Definition new : t := mk None None ∅ ∅ ∅.
End Node.

Module TConn.
Record t := mk {
  name : option string;
  device : option string;
  src_if : option string;
  dst_if : option string
}.
Definition new : t := mk None None None None.
End TConn.

Record Topology := mkTopology {
  node : gmap string Node.t;
  connection : gmap string TConn.t
}.

(** The store: the device list in the order the store enumerates it, and the
    topology cache. *)
Record Root := mkRoot {
  devices : list (string * Device);
  topology : Topology
}.

Fixpoint lookup_device (name : string) (l : list (string * Device)) : option Device :=
  match l with
  | [] => None
  | (n, d) :: r => if String.eqb n name then Some d else lookup_device name r
  end.

Fixpoint store_device (name : string) (dev : Device) (l : list (string * Device))
  : list (string * Device) :=
  match l with
  | [] => []
  | (n, d) :: r =>
      if String.eqb n name then (n, dev) :: r else (n, d) :: store_device name dev r
  end.

(** What an action leaves behind: [output.result], or an exception. *)
Inductive outcome :=
  | Returned (result : string)
  | Raised.

(** ** The interface provisioner *)

Definition has_interface (dev : Device) (if_name : string) : bool :=
  bool_decide (is_Some (interface dev !! if_name)).

Definition mc_deg_name (degree : Z) (direction freq_str : string) : string :=
  "MC-TTP-DEG" +:+ Py.str_int degree +:+ "-" +:+ direction +:+ "-" +:+ freq_str.

Definition nmc_deg_name (degree : Z) (direction freq_str : string) : string :=
  "NMC-CTP-DEG" +:+ Py.str_int degree +:+ "-" +:+ direction +:+ "-" +:+ freq_str.

Definition nmc_srg_pp_name (pp : Z) (direction freq_str : string) : string :=
  "SRG1-PP" +:+ Py.fmt_02d pp +:+ "-" +:+ direction +:+ "-" +:+ freq_str.

(** The interface of [ensure_mc_deg] before its frequency slot is set. *)
Definition mc_deg_base (degree : Z) (direction : string) : Intf.t :=
  let deg := "DEG" +:+ Py.str_int degree in
  if String.eqb direction "RX" then
    Intf.mk (Some "openROADM-if:mediaChannelTrailTerminationPoint") (Some "inService")
      (Some (deg +:+ "-AMPRX")) (Some (deg +:+ "-AMPRX-IN"))
      ["OMS-" +:+ deg +:+ "-TTP-RX"] None None
  else
    Intf.mk (Some "openROADM-if:mediaChannelTrailTerminationPoint") (Some "inService")
      (Some (deg +:+ "-AMPTX")) (Some (deg +:+ "-AMPTX-OUT"))
      ["OMS-" +:+ deg +:+ "-TTP-TX"] None None.

Definition with_mc_ttp (intf : Intf.t) (lo hi : string) : Intf.t :=
  Intf.mk (Intf.type intf) (Intf.administrative_state intf)
    (Intf.supporting_circuit_pack_name intf) (Intf.supporting_port intf)
    (Intf.supporting_interface_list intf)
    (Some (McTtp.mk (Some lo) (Some hi))) (Intf.nmc_ctp intf).

(** [ensure_mc_deg]: the device afterwards and the returned name; [None] is
    the [ValueError] of [float(freq_str)], raised after the interface has been
    created and its first attributes written. *)
Definition ensure_mc_deg (dev : Device) (degree : Z) (direction freq_str : string)
  : Device * option string :=
  let if_name := mc_deg_name degree direction freq_str in
  let if_list := interface dev in
  if has_interface dev if_name then (dev, Some if_name)
  else
    let intf := mc_deg_base degree direction in
    match Py.float freq_str with
    | None => (set_interface dev (<[if_name := intf]> if_list), None)
    | Some f =>
        let minf := Py.fsub f Py.f_0_05 in
        let maxf := Py.fadd f Py.f_0_05 in
        let intf := with_mc_ttp intf (Py.fmt_2f minf) (Py.fmt_2f maxf) in
        (set_interface dev (<[if_name := intf]> if_list), Some if_name)
    end.

Definition nmc_deg_intf (degree : Z) (direction freq_str : string) : Intf.t :=
  let deg := "DEG" +:+ Py.str_int degree in
  let nmc := Some (NmcCtp.mk (Some freq_str) (Some "100")) in
  if String.eqb direction "RX" then
    Intf.mk (Some "openROADM-if:networkMediaChannelConnectionTerminationPoint")
      (Some "inService") (Some (deg +:+ "-AMPRX")) (Some (deg +:+ "-AMPRX-IN"))
      ["MC-TTP-" +:+ deg +:+ "-RX-" +:+ freq_str] None nmc
  else
    Intf.mk (Some "openROADM-if:networkMediaChannelConnectionTerminationPoint")
      (Some "inService") (Some (deg +:+ "-AMPTX")) (Some (deg +:+ "-AMPTX-OUT"))
      ["MC-TTP-" +:+ deg +:+ "-TX-" +:+ freq_str] None nmc.

Definition ensure_nmc_deg (dev : Device) (degree : Z) (direction freq_str : string)
  : Device * option string :=
  let if_name := nmc_deg_name degree direction freq_str in
  let if_list := interface dev in
  if has_interface dev if_name then (dev, Some if_name)
  else
    (set_interface dev (<[if_name := nmc_deg_intf degree direction freq_str]> if_list),
     Some if_name).

Definition nmc_srg_pp_intf (pp : Z) (direction freq_str : string) : Intf.t :=
  Intf.mk (Some "openROADM-if:networkMediaChannelConnectionTerminationPoint")
    (Some "inService") (Some "SRG1-WSS")
    (Some (if String.eqb direction "RX" then "SRG1-IN" +:+ Py.str_int pp
           else "SRG1-OUT" +:+ Py.str_int pp))
    [] None (Some (NmcCtp.mk (Some freq_str) (Some "100"))).

Definition ensure_nmc_srg_pp (dev : Device) (pp : Z) (direction freq_str : string)
  : Device * option string :=
  let if_name := nmc_srg_pp_name pp direction freq_str in
  let if_list := interface dev in
  if has_interface dev if_name then (dev, Some if_name)
  else
    (set_interface dev (<[if_name := nmc_srg_pp_intf pp direction freq_str]> if_list),
     Some if_name).

(** ** The frequency slot model *)

(** [not (new_max <= cur_min or new_min >= cur_max)] *)
Definition intervals_overlap (new_min new_max cur_min cur_max : spec_float) : bool :=
  negb (Py.fle new_max cur_min || Py.fge new_min cur_max).

(** The body of the loop of [_slot_overlaps] for one interface: [true] where
    the loop returns [True], [false] where it goes on. *)
Definition slot_hit (pfx : string) (new_min new_max : spec_float)
    (name : string) (intf : Intf.t) : bool :=
  if negb (Py.startswith name pfx) then false
  else
    match Intf.mc_ttp intf with
    | None => false
    | Some mc =>
        match Py.float (Py.str_leaf (McTtp.min_freq mc)),
              Py.float (Py.str_leaf (McTtp.max_freq mc)) with
        | Some cur_min, Some cur_max => intervals_overlap new_min new_max cur_min cur_max
        | _, _ => false
        end
    end.

Definition mc_prefix (degree : Z) (direction : string) : string :=
  "MC-TTP-DEG" +:+ Py.str_int degree +:+ "-" +:+ direction +:+ "-".

Definition _slot_overlaps (dev : Device) (degree : Z) (direction freq_str : string) : bool :=
  match Py.float freq_str with
  | None => false
  | Some f =>
      let new_min := Py.fsub f Py.f_0_05 in
      let new_max := Py.fadd f Py.f_0_05 in
      existsb (fun '(name, intf) =>
                 slot_hit (mc_prefix degree direction) new_min new_max name intf)
        (map_to_list (interface dev))
  end.

(** ** Action: build-connection *)

Record BuildInput := mkBuildInput {
  in_device : string;
  in_frequency : string;
  src_degree : option Z;
  dst_degree : option Z;
  dst_pp : option Z
}.

(** The destination once the input has passed the sanity checks. *)
Inductive destination :=
  | ToDegree (dst_deg : Z)
  | ToPort (dst_pp : Z).

Definition rejected_msg (freq_str : string) (deg : Z) (direction : string) : string :=
  "Rejected: frequency slot " +:+ freq_str +:+ " overlaps existing MC on DEG"
    +:+ Py.str_int deg +:+ " " +:+ direction.

(** The overlap checks of the read transaction: the rejection message, if
    any.  A device that is not in the store raises inside the [try]; the
    error is logged and the build goes on. *)
Definition overlap_check (root : Root) (device_name freq_str : string)
    (src_deg : Z) (dst : destination) : option string :=
  match lookup_device device_name (devices root) with
  | None => None
  | Some dev_r =>
      if _slot_overlaps dev_r src_deg "RX" freq_str then
        Some (rejected_msg freq_str src_deg "RX")
      else
        match dst with
        | ToDegree dst_deg =>
            if _slot_overlaps dev_r dst_deg "TX" freq_str then
              Some (rejected_msg freq_str dst_deg "TX")
            else None
        | ToPort _ => None
        end
  end.

Definition conn_name_of (src_deg : Z) (dst : destination) (freq_str : string) : string :=
  match dst with
  | ToDegree dst_deg =>
      "DEG" +:+ Py.str_int src_deg +:+ "-RX-to-DEG" +:+ Py.str_int dst_deg
        +:+ "-TX-" +:+ freq_str
  | ToPort dst_pp =>
      "DEG" +:+ Py.str_int src_deg +:+ "-RX-to-SRG1-PP" +:+ Py.fmt_02d dst_pp
        +:+ "-TX-" +:+ freq_str
  end.

Section Schema.

(** [hasattr(conn, "target_output_power")]: whether the device model declares
    the leaf. *)
Variable has_target_output_power : bool.

Definition write_connection (conn : Conn.t) (src_if_name dst_if_name : string) : Conn.t :=
  Conn.mk (Some src_if_name) (Some dst_if_name) (Some "off")
    (if has_target_output_power then Some (S754_zero false)
     else Conn.target_output_power conn).

(** The body of the write transaction on the device; [None] is an exception,
    after which the transaction is not applied. *)
Definition build_on_device (dev : Device) (src_deg : Z) (dst : destination)
    (freq_str : string) : option (Device * string) :=
  let '(dev, r) := ensure_mc_deg dev src_deg "RX" freq_str in
  _ ← r;
  let '(dev, r) := ensure_nmc_deg dev src_deg "RX" freq_str in
  src_if_name ← r;
  '(dev, dst_if_name) ←
    match dst with
    | ToDegree dst_deg =>
        let '(dev, r) := ensure_mc_deg dev dst_deg "TX" freq_str in
        _ ← r;
        let '(dev, r) := ensure_nmc_deg dev dst_deg "TX" freq_str in
        n ← r; Some (dev, n)
    | ToPort dst_pp =>
        let '(dev, r) := ensure_nmc_srg_pp dev dst_pp "TX" freq_str in
        n ← r; Some (dev, n)
    end;
  let conn_name := conn_name_of src_deg dst freq_str in
  let rc_list := roadm_connections dev in
  let conn := default Conn.new (rc_list !! conn_name) in
  let conn := write_connection conn src_if_name dst_if_name in
  Some (set_roadm_connections dev (<[conn_name := conn]> rc_list), conn_name).

(** The action once its input has passed the sanity checks: the overlap
    checks, then the write transaction. *)
Definition build_checked (root : Root) (device_name freq_str : string)
    (src_deg : Z) (dst : destination) : Root * outcome :=
  match overlap_check root device_name freq_str src_deg dst with
  | Some msg => (root, Returned msg)
  | None =>
      match lookup_device device_name (devices root) with
      | None => (root, Raised)
      | Some dev =>
          match build_on_device dev src_deg dst freq_str with
          | None => (root, Raised)
          | Some (dev', conn_name) =>
              (mkRoot (store_device device_name dev' (devices root)) (topology root),
               Returned ("Connection " +:+ conn_name +:+ " created on "
                           +:+ device_name))
          end
      end
  end.

Definition BuildConnection (root : Root) (input : BuildInput) : Root * outcome :=
  let device_name := in_device input in
  let freq_str := in_frequency input in
  match src_degree input with
  | None => (root, Returned "Error: src-degree must be provided")
  | Some src_deg =>
      match dst_degree input, dst_pp input with
      | None, None =>
          (root, Returned "Error: either dst-degree or dst-pp must be provided")
      | Some _, Some _ =>
          (root, Returned "Error: provide only one of dst-degree or dst-pp")
      | Some dst_deg, None =>
          build_checked root device_name freq_str src_deg (ToDegree dst_deg)
      | None, Some pp =>
          build_checked root device_name freq_str src_deg (ToPort pp)
      end
  end.

End Schema.

(** ** Action: delete-connection *)

Definition supporting_of (ifs : gmap string Intf.t) (if_name : string) : list string :=
  match ifs !! if_name with
  | Some intf => Intf.supporting_interface_list intf
  | None => []
  end.

Definition endpoints (rc : Conn.t) : list string :=
  [Py.str_leaf (Conn.src_if rc); Py.str_leaf (Conn.dst_if rc)].

(** [used_if] after its first loop: the endpoints of every connection of
    [rcs]. *)
Definition used_endpoints (rcs : gmap string Conn.t) : gset string :=
  list_to_set (map_to_list rcs ≫= fun kv => endpoints (snd kv)).

(** [used_if] after its second loop, which walks a copy of the set. *)
Definition used_interfaces (ifs : gmap string Intf.t) (rcs : gmap string Conn.t)
  : gset string :=
  let used_if := used_endpoints rcs in
  used_if ∪ list_to_set (elements used_if ≫= supporting_of ifs).

Definition delete_candidates (ifs : gmap string Intf.t) (src_if dst_if : string)
  : gset string :=
  {[src_if; dst_if]}
    ∪ list_to_set ([src_if; dst_if] ≫= supporting_of ifs).

(** One turn of the last loop. *)
Definition delete_unused (used_if : gset string) (ifs : gmap string Intf.t)
    (if_name : string) : gmap string Intf.t :=
  if bool_decide (if_name ∈ used_if) then ifs
  else if bool_decide (is_Some (ifs !! if_name)) then delete if_name ifs
  else ifs.

Definition delete_on_device (dev : Device) (conn_name : string) (conn : Conn.t) : Device :=
  let src_if := Py.str_leaf (Conn.src_if conn) in
  let dst_if := Py.str_leaf (Conn.dst_if conn) in
  let rcs := delete conn_name (roadm_connections dev) in
  let used_if := used_interfaces (interface dev) rcs in
  let cands := delete_candidates (interface dev) src_if dst_if in
  let ifs := fold_left (delete_unused used_if) (elements cands) (interface dev) in
  mkDevice (address dev) (circuit_packs dev) ifs rcs.

Definition DeleteConnection (root : Root) (device_name conn_name : string)
  : Root * outcome :=
  match lookup_device device_name (devices root) with
  | None => (root, Raised)
  | Some dev =>
      match roadm_connections dev !! conn_name with
      | None =>
          (root, Returned ("Connection '" +:+ conn_name +:+ "' not found on device "
                             +:+ device_name))
      | Some conn =>
          (mkRoot (store_device device_name (delete_on_device dev conn_name conn)
                     (devices root))
                  (topology root),
           Returned ("Connection '" +:+ conn_name
                       +:+ "' and associated MC/NMC interfaces "
                       +:+ "successfully deleted on device " +:+ device_name))
      end
  end.

(** ** Action: discover-topology *)

(** A loop whose body may raise. *)
Fixpoint for_each {A B : Type} (body : A -> B -> option A) (l : list B) (a : A)
  : option A :=
  match l with
  | [] => Some a
  | x :: r => a' ← body a x; for_each body r a'
  end.

(** Truth value of a leaf that holds a string. *)
Definition truthy (x : option string) : bool :=
  match x with
  | Some (String _ _) => true
  | _ => false
  end.

Definition add_degree (deg_id : Z) (n : Node.t) : Node.t :=
  Node.mk (Node.device n) (Node.mgmt_ip n)
    (if bool_decide (deg_id ∈ Node.degree n) then Node.degree n
     else {[deg_id]} ∪ Node.degree n)
    (Node.srg n) (Node.tp n).

Definition add_srg (srg_id : Z) (n : Node.t) : Node.t :=
  Node.mk (Node.device n) (Node.mgmt_ip n) (Node.degree n)
    (if bool_decide (srg_id ∈ Node.srg n) then Node.srg n
     else {[srg_id]} ∪ Node.srg n)
    (Node.tp n).

Definition set_tp (if_name : string) (tp : TP.t) (n : Node.t) : Node.t :=
  Node.mk (Node.device n) (Node.mgmt_ip n) (Node.degree n) (Node.srg n)
    (<[if_name := tp]> (Node.tp n)).

(** One circuit pack. *)
Definition scan_circuit_pack (n : Node.t) (cpname : string) : option Node.t :=
  match re_DEG_dash cpname with
  | Some g => deg_id ← Py.int g; Some (add_degree deg_id n)
  | None =>
      match re_SRG cpname with
      | Some g => srg_id ← Py.int g; Some (add_srg srg_id n)
      | None => Some n
      end
  end.

(** One interface. *)
Definition scan_interface (n : Node.t) (if_name : string) : option Node.t :=
  info ← parse_if_name if_name;
  let tp := default TP.new (Node.tp n !! if_name) in
  let tp := TP.mk (Some if_name) (TP.layer tp) (TP.degree_id tp) (TP.srg_id tp)
              (TP.direction tp) (TP.frequency tp) in
  let tp :=
    if truthy (Info.layer info) then
      TP.mk (TP.interface tp) (Info.layer info) (TP.degree_id tp) (TP.srg_id tp)
        (TP.direction tp) (TP.frequency tp)
    else tp in
  let '(n, tp) :=
    match Info.degree_id info with
    | Some deg_id =>
        (add_degree deg_id n,
         TP.mk (TP.interface tp) (TP.layer tp) (Some deg_id) (TP.srg_id tp)
           (TP.direction tp) (TP.frequency tp))
    | None => (n, tp)
    end in
  let '(n, tp) :=
    match Info.srg_id info with
    | Some srg_id =>
        (add_srg srg_id n,
         TP.mk (TP.interface tp) (TP.layer tp) (TP.degree_id tp) (Some srg_id)
           (TP.direction tp) (TP.frequency tp))
    | None => (n, tp)
    end in
  let tp :=
    if truthy (Info.direction info) then
      TP.mk (TP.interface tp) (TP.layer tp) (TP.degree_id tp) (TP.srg_id tp)
        (Info.direction info) (TP.frequency tp)
    else tp in
  let tp :=
    if truthy (Info.frequency info) then
      TP.mk (TP.interface tp) (TP.layer tp) (TP.degree_id tp) (TP.srg_id tp)
        (TP.direction tp) (Info.frequency info)
    else tp in
  Some (set_tp if_name tp n).

(** One connection of the device [dev_name]. *)
Definition mirror_connection (dev_name : string) (conns : gmap string TConn.t)
    (kv : string * Conn.t) : gmap string TConn.t :=
  let '(cname, rc) := kv in
  <[cname := TConn.mk (Some cname) (Some dev_name)
               (Some (Py.str_leaf (Conn.src_if rc)))
               (Some (Py.str_leaf (Conn.dst_if rc)))]> conns.

(** One turn of the loop over the device names; [None] is an exception. *)
Definition discover_device (root : Root) (topo : Topology) (dev_name : string)
  : option Topology :=
  match lookup_device dev_name (devices root) with
  | None => Some topo
  | Some dev =>
      let n := default Node.new (node topo !! dev_name) in
      let n := Node.mk (Some dev_name)
                 (if truthy (address dev) then address dev else Node.mgmt_ip n)
                 (Node.degree n) (Node.srg n) (Node.tp n) in
      n ← for_each scan_circuit_pack (circuit_packs dev) n;
      n ← for_each scan_interface (map fst (map_to_list (interface dev))) n;
      let conns :=
        fold_left (mirror_connection dev_name)
          (map_to_list (roadm_connections dev)) (connection topo) in
      Some (mkTopology (<[dev_name := n]> (node topo)) conns)
  end.

(** [devs = input.device or [d.name for d in root.devices.device]] *)
Definition discovered_devices (root : Root) (input_device : list string) : list string :=
  match input_device with
  | [] => map fst (devices root)
  | _ => input_device
  end.

Definition DiscoverTopology (root : Root) (input_device : list string) : Root * outcome :=
  let topo := mkTopology ∅ ∅ in
  match for_each (discover_device root) (discovered_devices root input_device) topo with
  | None => (root, Raised)
  | Some topo => (mkRoot (devices root) topo, Returned "Discovery complete")
  end.

(** ** Vocabulary of the statements *)

Fixpoint all_chars (P : ascii -> bool) (s : string) : bool :=
  match s with
  | EmptyString => true
  | String c r => P c && all_chars P r
  end.

Definition no_dash (s : string) : bool := all_chars (fun c => negb (Ascii.eqb c "-")) s.

(** A decimal frequency string: digits, then optionally a point and digits. *)
Definition is_decimal (s : string) : bool :=
  match Py.span_digits s with
  | (EmptyString, _) => false
  | (_, EmptyString) => true
  | (_, String "." r) =>
      match Py.span_digits r with
      | (_, EmptyString) => true
      | _ => false
      end
  | _ => false
  end.

Definition digit_or_dot (c : ascii) : bool := Py.is_digit c || Ascii.eqb c ".".

Definition is_direction (d : string) : Prop := d = "RX" \/ d = "TX".

Definition empty_device : Device := mkDevice None [] ∅ ∅.

(** Where the three numeric fields of a record come from. *)
Definition degree_from (parts : list string) (v : option Z) : Prop :=
  v = None
  \/ exists p n, p ∈ parts /\ Py.startswith p "DEG" = true
                 /\ Py.int (Py.slice_from 3 p) = Some n /\ v = Some n.

Definition srg_from (parts : list string) (v : option Z) : Prop :=
  v = None
  \/ exists p g n, p ∈ parts /\ re_SRG p = Some g /\ Py.int g = Some n /\ v = Some n.

Definition pp_from (parts : list string) (v : option Z) : Prop :=
  v = None
  \/ exists p g n, p ∈ parts /\ re_PP p = Some g /\ Py.int g = Some n /\ v = Some n.

(** The interface [ensure_mc_deg] creates for the center frequency [fc]. *)
Definition mc_deg_intf (degree : Z) (direction : string) (fc : spec_float) : Intf.t :=
  with_mc_ttp (mc_deg_base degree direction)
    (Py.fmt_2f (Py.fsub fc Py.f_0_05)) (Py.fmt_2f (Py.fadd fc Py.f_0_05)).

(** Every media-channel interface of [dev] on [(degree, direction)] is one
    that [ensure_mc_deg] created for some center frequency. *)
Definition created_by_ensure_mc (dev : Device) (degree : Z) (direction : string) : Prop :=
  forall name intf,
    interface dev !! name = Some intf ->
    Py.startswith name (mc_prefix degree direction) = true ->
    exists center fc,
      name = mc_deg_name degree direction center
      /\ Py.float center = Some fc
      /\ intf = mc_deg_intf degree direction fc.

(** The candidate interval around [f] meets the interval stored for the
    center [fc]: its two bounds as written with two decimals and read back. *)
Definition overlaps_stored (f fc : spec_float) : bool :=
  match Py.float (Py.fmt_2f (Py.fsub fc Py.f_0_05)),
        Py.float (Py.fmt_2f (Py.fadd fc Py.f_0_05)) with
  | Some cur_min, Some cur_max =>
      intervals_overlap (Py.fsub f Py.f_0_05) (Py.fadd f Py.f_0_05) cur_min cur_max
  | _, _ => false
  end.

(** The candidate interval around the frequency meets the slot that
    [ensure_mc_deg] stores for that same frequency. *)
Definition slot_self_overlaps (freq_str : string) : bool :=
  match Py.float freq_str with
  | Some f => overlaps_stored f f
  | None => false
  end.

(** [|f - c| < 0.1] in binary64. *)
Definition center_distance_lt (f c : spec_float) : bool :=
  Py.flt (SFabs (Py.fsub f c)) (Py.float_of_decimal false 1 (-1)).

(** Every node of the cache is keyed by a name of [names], and every mirrored
    connection belongs to a device of [names]. *)
Definition topo_within (names : list string) (topo : Topology) : Prop :=
  (forall n nd, node topo !! n = Some nd -> n ∈ names)
  /\ (forall c tc, connection topo !! c = Some tc ->
                   exists d, TConn.device tc = Some d /\ d ∈ names).

(** [x] is an endpoint of the connection being deleted, or an entry of the
    supporting-interface list of one of its endpoints. *)
Definition deletion_candidate (dev : Device) (conn : Conn.t) (x : string) : Prop :=
  exists e, e ∈ endpoints conn /\ (x = e \/ x ∈ supporting_of (interface dev) e).

(** [x] is an endpoint of a connection other than [conn_name], or an entry of
    the supporting-interface list of such an endpoint. *)
Definition still_referenced (dev : Device) (conn_name x : string) : Prop :=
  exists k rc e,
    k <> conn_name /\ roadm_connections dev !! k = Some rc
    /\ e ∈ endpoints rc /\ (x = e \/ x ∈ supporting_of (interface dev) e).

(** The device that the degree 1 to degree 2 build at "193.3" is expected to
    leave, given the address and the circuit packs it started with. *)
Definition built_1_2 (has_top : bool) (addr : option string) (cps : list string)
  : Device :=
  let mc := "openROADM-if:mediaChannelTrailTerminationPoint" in
  let nmc := "openROADM-if:networkMediaChannelConnectionTerminationPoint" in
  let slot := Some (McTtp.mk (Some "193.25") (Some "193.35")) in
  let chan := Some (NmcCtp.mk (Some "193.3") (Some "100")) in
  mkDevice addr cps
    (<["MC-TTP-DEG1-RX-193.3" :=
         Intf.mk (Some mc) (Some "inService") (Some "DEG1-AMPRX")
           (Some "DEG1-AMPRX-IN") ["OMS-DEG1-TTP-RX"] slot None]>
     (<["NMC-CTP-DEG1-RX-193.3" :=
          Intf.mk (Some nmc) (Some "inService") (Some "DEG1-AMPRX")
            (Some "DEG1-AMPRX-IN") ["MC-TTP-DEG1-RX-193.3"] None chan]>
      (<["MC-TTP-DEG2-TX-193.3" :=
           Intf.mk (Some mc) (Some "inService") (Some "DEG2-AMPTX")
             (Some "DEG2-AMPTX-OUT") ["OMS-DEG2-TTP-TX"] slot None]>
       (<["NMC-CTP-DEG2-TX-193.3" :=
            Intf.mk (Some nmc) (Some "inService") (Some "DEG2-AMPTX")
              (Some "DEG2-AMPTX-OUT") ["MC-TTP-DEG2-TX-193.3"] None chan]> ∅))))
    {["DEG1-RX-to-DEG2-TX-193.3" :=
        Conn.mk (Some "NMC-CTP-DEG1-RX-193.3") (Some "NMC-CTP-DEG2-TX-193.3")
          (Some "off") (if has_top then Some (S754_zero false) else None)]}.

(** *** What build-connection writes *)

(** The interface collection after an "ensure" operation: [v] under [k],
    unless [k] is there already. *)
Definition ensure_key (k : string) (v : Intf.t) (m : gmap string Intf.t)
  : gmap string Intf.t :=
  match m !! k with
  | Some _ => m
  | None => <[k := v]> m
  end.

(** The destination that an input names, when it gives exactly one of
    dst-degree and dst-pp. *)
Definition destination_of (input : BuildInput) : option destination :=
  match dst_degree input, dst_pp input with
  | Some dst_deg, None => Some (ToDegree dst_deg)
  | None, Some pp => Some (ToPort pp)
  | _, _ => None
  end.

(** The name of the destination interface of a connection. *)
Definition dst_if_name_of (dst : destination) (freq_str : string) : string :=
  match dst with
  | ToDegree dst_deg => nmc_deg_name dst_deg "TX" freq_str
  | ToPort pp => nmc_srg_pp_name pp "TX" freq_str
  end.

(** The names of the interfaces that a build ensures. *)
Definition build_names (src_deg : Z) (dst : destination) (freq_str : string)
  : list string :=
  [mc_deg_name src_deg "RX" freq_str; nmc_deg_name src_deg "RX" freq_str]
  ++ match dst with
     | ToDegree dst_deg =>
         [mc_deg_name dst_deg "TX" freq_str; nmc_deg_name dst_deg "TX" freq_str]
     | ToPort pp => [nmc_srg_pp_name pp "TX" freq_str]
     end.

(** The interface collection after the "ensure" calls of a build. *)
Definition built_interfaces (v1 v3 : Intf.t) (src_deg : Z) (dst : destination)
    (freq_str : string) (ifs : gmap string Intf.t) : gmap string Intf.t :=
  let ifs := ensure_key (mc_deg_name src_deg "RX" freq_str) v1 ifs in
  let ifs := ensure_key (nmc_deg_name src_deg "RX" freq_str)
               (nmc_deg_intf src_deg "RX" freq_str) ifs in
  match dst with
  | ToDegree dst_deg =>
      let ifs := ensure_key (mc_deg_name dst_deg "TX" freq_str) v3 ifs in
      ensure_key (nmc_deg_name dst_deg "TX" freq_str)
        (nmc_deg_intf dst_deg "TX" freq_str) ifs
  | ToPort pp =>
      ensure_key (nmc_srg_pp_name pp "TX" freq_str)
        (nmc_srg_pp_intf pp "TX" freq_str) ifs
  end.

(** The device a build leaves when it had to create every interface. *)
Definition built_device (has_top : bool) (dev : Device) (src_deg : Z)
    (dst : destination) (freq_str : string) (f : spec_float) : Device :=
  let ifs := <[mc_deg_name src_deg "RX" freq_str := mc_deg_intf src_deg "RX" f]>
               (interface dev) in
  let ifs := <[nmc_deg_name src_deg "RX" freq_str :=
                 nmc_deg_intf src_deg "RX" freq_str]> ifs in
  let ifs :=
    match dst with
    | ToDegree dst_deg =>
        <[nmc_deg_name dst_deg "TX" freq_str := nmc_deg_intf dst_deg "TX" freq_str]>
          (<[mc_deg_name dst_deg "TX" freq_str := mc_deg_intf dst_deg "TX" f]> ifs)
    | ToPort pp =>
        <[nmc_srg_pp_name pp "TX" freq_str := nmc_srg_pp_intf pp "TX" freq_str]> ifs
    end in
  let cn := conn_name_of src_deg dst freq_str in
  mkDevice (address dev) (circuit_packs dev) ifs
    (<[cn := write_connection has_top
               (default Conn.new (roadm_connections dev !! cn))
               (nmc_deg_name src_deg "RX" freq_str) (dst_if_name_of dst freq_str)]>
       (roadm_connections dev)).

(** No connection refers to an interface of the build, directly or through
    the supporting-interface list of an endpoint. *)
Definition unreferenced (dev : Device) (names : list string) : Prop :=
  forall k rc e,
    roadm_connections dev !! k = Some rc -> e ∈ endpoints rc ->
    (e ∉ names) /\ (forall y, y ∈ supporting_of (interface dev) e -> y ∉ names).

(** The degree or the port-pair index of a destination. *)
Definition destination_index (dst : destination) : Z :=
  match dst with ToDegree k => k | ToPort k => k end.

(** *** The cache that discover-topology leaves *)

(** The record that discover-topology writes for the connection [c] of the
    device [d]. *)
Definition mirror_of (d c : string) (rc : Conn.t) : TConn.t :=
  TConn.mk (Some c) (Some d)
    (Some (Py.str_leaf (Conn.src_if rc))) (Some (Py.str_leaf (Conn.dst_if rc))).

(** The cache entry [tc] under [c] is the mirror of a connection named [c]
    on a device of [names] that the store has. *)
Definition mirrored_from (root : Root) (names : list string) (c : string)
    (tc : TConn.t) : Prop :=
  exists d dev rc,
    d ∈ names /\ lookup_device d (devices root) = Some dev
    /\ roadm_connections dev !! c = Some rc /\ tc = mirror_of d c rc.

(** The termination point that discover-topology writes for an interface
    whose name parses to [info]. *)
Definition tp_of (if_name : string) (info : Info.t) : TP.t :=
  TP.mk (Some if_name) (Info.layer info) (Info.degree_id info) (Info.srg_id info)
    (Info.direction info) (Info.frequency info).

(** [k] is the number of a circuit pack DEG<k>-..., or the degree that the
    name of an interface of [dev] parses to. *)
Definition degree_source (dev : Device) (k : Z) : Prop :=
  (exists cp g, cp ∈ circuit_packs dev /\ re_DEG_dash cp = Some g /\ Py.int g = Some k)
  \/ (exists name info,
        is_Some (interface dev !! name) /\ parse_if_name name = Some info
        /\ Info.degree_id info = Some k).

(** [k] is the number of a circuit pack SRG<k>... that is not a DEG<n>-...
    pack, or the SRG that the name of an interface of [dev] parses to. *)
Definition srg_source (dev : Device) (k : Z) : Prop :=
  (exists cp g, cp ∈ circuit_packs dev /\ re_DEG_dash cp = None
                /\ re_SRG cp = Some g /\ Py.int g = Some k)
  \/ (exists name info,
        is_Some (interface dev !! name) /\ parse_if_name name = Some info
        /\ Info.srg_id info = Some k).

(** What discover-topology leaves in the node of the device [dev] named [d]. *)
Definition node_of (d : string) (dev : Device) (nd : Node.t) : Prop :=
  Node.device nd = Some d
  /\ Node.mgmt_ip nd = (if truthy (address dev) then address dev else None)
  /\ (forall name, is_Some (Node.tp nd !! name) <-> is_Some (interface dev !! name))
  /\ (forall name tp, Node.tp nd !! name = Some tp ->
                      exists info, parse_if_name name = Some info /\ tp = tp_of name info)
  /\ (forall k, k ∈ Node.degree nd <-> degree_source dev k)
  /\ (forall k, k ∈ Node.srg nd <-> srg_source dev k).

(** The termination points of [tps] are those of names that parse. *)
Definition tps_parsed (tps : gmap string TP.t) : Prop :=
  forall name tp, tps !! name = Some tp ->
                  exists info, parse_if_name name = Some info /\ tp = tp_of name info.

(** A node as the loop may find it before a turn for [dev]: fresh, or left
    by an earlier turn for the same device. *)
Definition node_before (dev : Device) (n : Node.t) : Prop :=
  (Node.mgmt_ip n = None
   \/ Node.mgmt_ip n = (if truthy (address dev) then address dev else None))
  /\ (forall name, is_Some (Node.tp n !! name) -> is_Some (interface dev !! name))
  /\ tps_parsed (Node.tp n)
  /\ (forall k, k ∈ Node.degree n -> degree_source dev k)
  /\ (forall k, k ∈ Node.srg n -> srg_source dev k).

(** Every node of the cache is the node of a device that the store has. *)
Definition nodes_of_store (root : Root) (topo : Topology) : Prop :=
  forall d nd, node topo !! d = Some nd ->
               exists dev, lookup_device d (devices root) = Some dev /\ node_of d dev nd.

(** * Properties *)

#[local] Arguments String.append !_ _ / : simpl nomatch.
#[local] Arguments Py.int : simpl never.
#[local] Arguments Py.float : simpl never.
#[local] Arguments Py.str_int : simpl never.
#[local] Arguments Py.fmt_02d : simpl never.

(** ** Facts about characters and strings *)

Ltac by_char c H :=
  destruct c as [[] [] [] [] [] [] [] []]; try (vm_compute in H; discriminate H).

Lemma all_chars_app P a b :
  all_chars P (a +:+ b) = all_chars P a && all_chars P b.
Proof. induction a as [|c a IH]; simpl; [done|]. by rewrite IH, andb_assoc. Qed.

Lemma all_chars_impl (P Q : ascii -> bool) s :
  (forall c, P c = true -> Q c = true) -> all_chars P s = true -> all_chars Q s = true.
Proof.
  intros HPQ. induction s as [|c s IH]; simpl; [done|].
  intros [Hc Hs]%andb_true_iff. rewrite (HPQ _ Hc). auto.
Qed.

Lemma digit_not_space c : Py.is_digit c = true -> negb (Py.is_space c) = true.
Proof. intros H. by_char c H; reflexivity. Qed.

Lemma digit_not_underscore c : Py.is_digit c = true -> negb (Ascii.eqb c "_") = true.
Proof. intros H. by_char c H; reflexivity. Qed.

Lemma digit_not_dash c : Py.is_digit c = true -> negb (Ascii.eqb c "-") = true.
Proof. intros H. by_char c H; reflexivity. Qed.

Lemma digit_uint_of_char c d :
  Py.is_digit c = true -> is_Some (uint_of_char c (Some d)).
Proof. intros H. by_char c H; simpl; eauto. Qed.

Lemma uint_of_char_digit c d d' :
  uint_of_char c (Some d) = Some d' -> Py.is_digit c = true.
Proof.
  destruct c as [[] [] [] [] [] [] [] []]; simpl; intros H;
    try discriminate H; reflexivity.
Qed.

Lemma span_digits_spec s d r :
  Py.span_digits s = (d, r) -> s = d +:+ r /\ all_chars Py.is_digit d = true.
Proof.
  revert d r. induction s as [|c s IH]; simpl; intros d r.
  - by intros [= <- <-].
  - destruct (Py.is_digit c) eqn:Hc; [|by intros [= <- <-]].
    destruct (Py.span_digits s) as [d' r']. intros [= <- <-].
    destruct (IH d' r' eq_refl) as [-> Hd]. simpl. by rewrite Hc, Hd.
Qed.

Lemma span_digits_all s :
  all_chars Py.is_digit s = true -> Py.span_digits s = (s, "").
Proof.
  induction s as [|c s IH]; simpl; [done|].
  intros [Hc Hs]%andb_true_iff. by rewrite Hc, IH.
Qed.

Lemma rstrip_id s :
  all_chars (fun c => negb (Py.is_space c)) s = true -> Py.rstrip s = s.
Proof.
  induction s as [|c s IH]; simpl; [done|].
  intros [Hc Hs]%andb_true_iff. rewrite (IH Hs).
  apply negb_true_iff in Hc. rewrite Hc. by destruct s.
Qed.

Lemma strip_id s :
  all_chars (fun c => negb (Py.is_space c)) s = true -> Py.strip s = s.
Proof.
  intros H. unfold Py.strip.
  assert (Py.lstrip s = s) as ->; [|by apply rstrip_id].
  destruct s as [|c s]; simpl in *; [done|].
  apply andb_true_iff in H as [Hc _]. apply negb_true_iff in Hc. by rewrite Hc.
Qed.

Lemma drop_underscores_id prev s :
  Ascii.eqb prev "_" = false ->
  all_chars (fun c => negb (Ascii.eqb c "_")) s = true ->
  Py.drop_underscores prev s = Some s.
Proof.
  revert prev. induction s as [|c s IH]; simpl; intros prev Hp.
  - by rewrite Hp.
  - intros [Hc Hs]%andb_true_iff. apply negb_true_iff in Hc.
    rewrite Hc, Hp. simpl. by rewrite (IH c Hc Hs).
Qed.

Lemma digits_uint_of_string s :
  all_chars Py.is_digit s = true -> is_Some (NilEmpty.uint_of_string s).
Proof.
  induction s as [|c s IH]; simpl; [eauto|].
  intros [Hc Hs]%andb_true_iff. destruct (IH Hs) as [d ->].
  by apply digit_uint_of_char.
Qed.

Lemma uint_of_string_digits s d :
  NilEmpty.uint_of_string s = Some d -> all_chars Py.is_digit s = true.
Proof.
  revert d. induction s as [|c s IH]; simpl; [done|]. intros d.
  destruct (NilEmpty.uint_of_string s) as [d'|] eqn:Hs;
    [|by destruct c as [[] [] [] [] [] [] [] []]].
  intros H. rewrite (uint_of_char_digit _ _ _ H). eauto.
Qed.

Lemma digits_value_is_Some s :
  all_chars Py.is_digit s = true -> s <> "" -> is_Some (Py.digits_value s).
Proof.
  intros H Hne. destruct (digits_uint_of_string s H) as [d Hd].
  unfold Py.digits_value. destruct s; [done|]. rewrite Hd. eauto.
Qed.

Lemma split_sign_digit c s :
  Py.is_digit c = true -> Py.split_sign (String c s) = (false, String c s).
Proof. intros H. by_char c H; reflexivity. Qed.

(** [int] reads a non-empty string of digits as its value. *)
Lemma int_digits s :
  all_chars Py.is_digit s = true -> s <> "" ->
  Py.int s = Z.of_N <$> Py.digits_value s.
Proof.
  intros H Hne. unfold Py.int.
  rewrite strip_id by (eapply all_chars_impl, H; apply digit_not_space).
  destruct s as [|c s]; [done|].
  rewrite split_sign_digit by (simpl in H; by apply andb_true_iff in H as [? _]).
  rewrite drop_underscores_id;
    [|reflexivity|eapply all_chars_impl, H; apply digit_not_underscore].
  simpl. by destruct (Py.digits_value (String c s)).
Qed.

Lemma string_of_uint_nonnil d :
  d <> Decimal.Nil ->
  NilZero.string_of_uint d = NilEmpty.string_of_uint d
  /\ NilEmpty.string_of_uint d <> "".
Proof. by destruct d. Qed.

Lemma digits_value_string_of_uint d :
  NilEmpty.string_of_uint d <> "" ->
  Py.digits_value (NilEmpty.string_of_uint d) = Some (N.of_uint d).
Proof.
  intros Hne. unfold Py.digits_value.
  destruct (NilEmpty.string_of_uint d) eqn:Hs; [done|].
  by rewrite <- Hs, NilEmpty.usu.
Qed.

Lemma str_int_nonneg n :
  0 <= n ->
  all_chars Py.is_digit (Py.str_int n) = true
  /\ Py.str_int n <> ""
  /\ Py.digits_value (Py.str_int n) = Some (Z.to_N n).
Proof.
  intros Hn. destruct n as [|p|p]; [by vm_compute| |lia].
  unfold Py.str_int. cbn [Z.to_int NilZero.string_of_int].
  destruct (string_of_uint_nonnil _ (DecimalPos.Unsigned.to_uint_nonnil p))
    as [-> Hne].
  split; [exact (uint_of_string_digits _ _ (NilEmpty.usu _))|].
  split; [done|].
  rewrite digits_value_string_of_uint by done.
  unfold N.of_uint. by rewrite DecimalPos.Unsigned.of_to.
Qed.

Lemma int_str_int n : 0 <= n -> Py.int (Py.str_int n) = Some n.
Proof.
  intros Hn. destruct (str_int_nonneg n Hn) as (Hd & Hne & Hv).
  rewrite int_digits, Hv by done. simpl. f_equal. lia.
Qed.

Lemma split_nonempty sep s : Py.split sep s <> [].
Proof.
  destruct s as [|c s]; simpl; [done|].
  destruct (Ascii.eqb c sep); [done|]. by destruct (Py.split sep s).
Qed.

Lemma split_no_dash s : no_dash s = true -> Py.split "-" s = [s].
Proof.
  induction s as [|c s IH]; simpl; [done|].
  intros [Hc Hs]%andb_true_iff. apply negb_true_iff in Hc.
  by rewrite Hc, (IH Hs).
Qed.

Lemma split_app_dash a b :
  no_dash a = true -> Py.split "-" (a +:+ String "-" b) = a :: Py.split "-" b.
Proof.
  induction a as [|c a IH]; simpl; [done|].
  intros [Hc Ha]%andb_true_iff. apply negb_true_iff in Hc.
  by rewrite Hc, (IH Ha).
Qed.

Lemma digits_no_dash s : all_chars Py.is_digit s = true -> no_dash s = true.
Proof. apply all_chars_impl, digit_not_dash. Qed.

(** *** Decimal frequency strings *)


Lemma append_empty_r s : s +:+ "" = s.
Proof.
  induction s as [|c s IH]; [done|].
  change (String c (s +:+ "") = String c s). by rewrite IH.
Qed.

Lemma is_decimal_shape f :
  is_decimal f = true ->
  exists ip fp,
    all_chars Py.is_digit ip = true /\ ip <> "" /\ all_chars Py.is_digit fp = true
    /\ (f = ip \/ f = ip +:+ String "." fp)
    /\ Py.parse_decimal f = (fun n : N => (ip +:+ fp, - Z.of_nat (String.length fp)))
                              <$> Py.digits_value (ip +:+ fp).
Proof.
  unfold is_decimal, Py.parse_decimal.
  destruct (Py.span_digits f) as [ip r1] eqn:Hsp.
  destruct (span_digits_spec _ _ _ Hsp) as [-> Hip].
  destruct ip as [|a ip]; [done|].
  destruct r1 as [|c1 r1].
  - intros _. exists (String a ip), "". rewrite append_empty_r.
    split_and!; [done|done|done|by left|].
    cbn. by destruct (Py.digits_value (String a ip)).
  - destruct c1 as [[] [] [] [] [] [] [] []]; try done.
    destruct (Py.span_digits r1) as [fp r2] eqn:Hfp.
    destruct (span_digits_spec _ _ _ Hfp) as [-> Hfpd].
    destruct r2; [|done]. intros _. exists (String a ip), fp.
    rewrite append_empty_r. split_and!; [done|done|done|by right|].
    cbn. by destruct (Py.digits_value (String a (ip +:+ fp))).
Qed.

Lemma digit_not_infnan c r :
  Py.is_digit c = true ->
  let l := Py.lower_string (String c r) in
  String.eqb l "inf" || String.eqb l "infinity" = false /\ String.eqb l "nan" = false.
Proof. intros H. by_char c H; by cbn. Qed.

(** What the parser needs to know about a decimal frequency string. *)
Lemma decimal_token f :
  is_decimal f = true ->
  no_dash f = true
  /\ is_Some (Py.float f)
  /\ String.eqb "RX" f = false /\ String.eqb "TX" f = false
  /\ (forall info, scan_part info f = info).
Proof.
  intros Hf. destruct (is_decimal_shape f Hf) as (ip & fp & Hip & Hne & Hfp & Hshape & Hpd).
  assert (all_chars digit_or_dot f = true) as Hall.
  { destruct Hshape as [-> | ->].
    - eapply all_chars_impl, Hip. intros c Hc. unfold digit_or_dot. by rewrite Hc.
    - rewrite all_chars_app. cbn.
      rewrite (all_chars_impl Py.is_digit digit_or_dot ip),
              (all_chars_impl Py.is_digit digit_or_dot fp); try done;
        intros c Hc; unfold digit_or_dot; by rewrite Hc. }
  assert (exists c r, f = String c r /\ Py.is_digit c = true) as (c & r & Hcr & Hc).
  { destruct ip as [|c ip]; [done|]. cbn in Hip. apply andb_true_iff in Hip as [Hc _].
    destruct Hshape as [-> | ->]; eauto. }
  subst f.
  assert (is_Some (Py.digits_value (ip +:+ fp))) as [n Hn].
  { apply digits_value_is_Some.
    - by rewrite all_chars_app, Hip, Hfp.
    - by destruct ip. }
  split; [|split; [|split; [|split]]].
  - eapply all_chars_impl, Hall. intros x. unfold digit_or_dot.
    intros [Hx | Hx]%orb_true_iff; [by apply digit_not_dash|].
    apply Ascii.eqb_eq in Hx. by subst x.
  - unfold Py.float. rewrite strip_id.
    2:{ eapply all_chars_impl, Hall. intros x. unfold digit_or_dot.
        intros [Hx | Hx]%orb_true_iff; [by apply digit_not_space|].
        apply Ascii.eqb_eq in Hx. by subst x. }
    rewrite drop_underscores_id; [|done|].
    2:{ eapply all_chars_impl, Hall. intros x. unfold digit_or_dot.
        intros [Hx | Hx]%orb_true_iff; [by apply digit_not_underscore|].
        apply Ascii.eqb_eq in Hx. by subst x. }
    cbn [mbind option_bind]. rewrite split_sign_digit by done.
    destruct (digit_not_infnan c r Hc) as [-> ->].
    rewrite Hpd, Hn. cbn. rewrite Hn. cbn. eauto.
  - clear -Hc. by_char c Hc; done.
  - clear -Hc. by_char c Hc; done.
  - intros info. clear -Hc. unfold scan_part. by_char c Hc; done.
Qed.

(** *** Tokens of the provisioner's names *)


Lemma scan_part_deg info sn n :
  Py.int sn = Some n -> scan_part info ("DEG" +:+ sn) = Info.set_degree_id n info.
Proof. intros H. unfold scan_part. cbn. by rewrite H. Qed.

Lemma digits_value_leading_zero d :
  d <> "" -> Py.digits_value (String "0" d) = Py.digits_value d.
Proof.
  intros Hne. unfold Py.digits_value. destruct d as [|c d]; [done|].
  cbn [NilEmpty.uint_of_string].
  by destruct (uint_of_char c (NilEmpty.uint_of_string d)).
Qed.

(** The group of [PP0*(\d+)] on a string of digits has the value of the
    whole string. *)
Lemma re_PP_digits d :
  all_chars Py.is_digit d = true -> d <> "" ->
  exists g, re_PP ("PP" +:+ d) = Some g
            /\ all_chars Py.is_digit g = true /\ g <> ""
            /\ Py.digits_value g = Py.digits_value d.
Proof.
  unfold re_PP. cbn [Py.startswith Py.slice_from String.append String.length].
  change (Ascii.eqb "P" "P") with true. cbn [andb].
  induction d as [|c d IH]; [done|]. intros Hd _.
  cbn in Hd. apply andb_true_iff in Hd as [Hc Hd].
  destruct (decide (c = "0"%char)) as [-> | Hc0].
  - cbn [span_zeros]. destruct d as [|c' d'].
    { cbn. eauto. }
    specialize (IH Hd ltac:(done)).
    destruct (span_zeros (String c' d')) as [zs r] eqn:Hz.
    destruct IH as (g & Hg & Hgd & Hgne & Hgv).
    rewrite digits_value_leading_zero by done.
    destruct (Py.span_digits r) as [[|x xs] rest].
    + destruct zs; [done|]. injection Hg as <-. eauto.
    + injection Hg as <-. eauto.
  - assert (span_zeros (String c d) = ("", String c d)) as ->.
    { clear -Hc Hc0. by_char c Hc; done. }
    rewrite span_digits_all by (cbn; by rewrite Hc, Hd).
    exists (String c d). cbn. by rewrite Hc, Hd.
Qed.

Lemma fmt_02d_nonneg n :
  0 <= n ->
  all_chars Py.is_digit (Py.fmt_02d n) = true
  /\ Py.fmt_02d n <> ""
  /\ Py.digits_value (Py.fmt_02d n) = Some (Z.to_N n).
Proof.
  intros Hn. destruct (str_int_nonneg n Hn) as (Hd & Hne & Hv).
  unfold Py.fmt_02d. destruct (String.length (Py.str_int n) <? 2)%nat; [|done].
  split_and!; [by cbn; rewrite Hd | done |].
  by rewrite digits_value_leading_zero.
Qed.

Lemma scan_part_pp info n :
  0 <= n -> scan_part info ("PP" +:+ Py.fmt_02d n) = Info.set_pp_id n info.
Proof.
  intros Hn. destruct (fmt_02d_nonneg n Hn) as (Hd & Hne & Hv).
  destruct (re_PP_digits _ Hd Hne) as (g & Hg & Hgd & Hgne & Hgv).
  unfold scan_part. cbn [Py.startswith String.append]. cbn [Ascii.eqb Bool.eqb andb].
  change (Py.startswith (String "P" (String "P" (Py.fmt_02d n))) "PP") with true.
  change (String "P" (String "P" (Py.fmt_02d n))) with ("PP" +:+ Py.fmt_02d n).
  rewrite Hg, int_digits, Hgv, Hv by done. cbn. do 2 f_equal. lia.
Qed.

Lemma split_deg_name (l1 l2 sn dir f : string) :
  no_dash l1 = true -> no_dash l2 = true -> no_dash sn = true ->
  no_dash dir = true -> no_dash f = true ->
  Py.split "-" (l1 +:+ String "-" (l2 +:+ String "-" (sn +:+ String "-" (dir +:+ String "-" f))))
  = [l1; l2; sn; dir; f].
Proof.
  intros. by rewrite !split_app_dash, split_no_dash.
Qed.

Lemma split_srg_name (l1 sn dir f : string) :
  no_dash l1 = true -> no_dash sn = true ->
  no_dash dir = true -> no_dash f = true ->
  Py.split "-" (l1 +:+ String "-" (sn +:+ String "-" (dir +:+ String "-" f)))
  = [l1; sn; dir; f].
Proof.
  intros. by rewrite !split_app_dash, split_no_dash.
Qed.

Lemma parse_mc_deg_name n dir f :
  0 <= n -> is_direction dir -> is_decimal f = true ->
  parse_if_name (mc_deg_name n dir f)
  = Some (Info.mk (Some "MC") (Some n) None None (Some dir) (Some f)).
Proof.
  intros Hn Hdir Hf.
  destruct (decimal_token f Hf) as (Hnd & [x Hx] & Hrx & Htx & Hscan).
  destruct (str_int_nonneg n Hn) as (Hd & _ & _).
  pose proof (int_str_int n Hn) as Hint.
  unfold parse_if_name, mc_deg_name.
  change ("MC-TTP-DEG" +:+ Py.str_int n +:+ "-" +:+ dir +:+ "-" +:+ f)
    with ("MC" +:+ String "-" ("TTP" +:+ String "-"
            (("DEG" +:+ Py.str_int n) +:+ String "-" (dir +:+ String "-" f)))).
  rewrite split_deg_name; try done.
  2:{ cbn. by apply digits_no_dash. }
  2:{ by destruct Hdir as [-> | ->]. }
  cbn [last head mbind option_bind fold_left]. rewrite Hx.
  rewrite (scan_part_deg _ _ _ Hint), !Hscan.
  unfold Py.contains. cbn [existsb]. rewrite Hrx, Htx, !orb_false_r.
  destruct Hdir as [-> | ->]; reflexivity.
Qed.

Lemma parse_nmc_deg_name n dir f :
  0 <= n -> is_direction dir -> is_decimal f = true ->
  parse_if_name (nmc_deg_name n dir f)
  = Some (Info.mk (Some "NMC") (Some n) None None (Some dir) (Some f)).
Proof.
  intros Hn Hdir Hf.
  destruct (decimal_token f Hf) as (Hnd & [x Hx] & Hrx & Htx & Hscan).
  destruct (str_int_nonneg n Hn) as (Hd & _ & _).
  pose proof (int_str_int n Hn) as Hint.
  unfold parse_if_name, nmc_deg_name.
  change ("NMC-CTP-DEG" +:+ Py.str_int n +:+ "-" +:+ dir +:+ "-" +:+ f)
    with ("NMC" +:+ String "-" ("CTP" +:+ String "-"
            (("DEG" +:+ Py.str_int n) +:+ String "-" (dir +:+ String "-" f)))).
  rewrite split_deg_name; try done.
  2:{ cbn. by apply digits_no_dash. }
  2:{ by destruct Hdir as [-> | ->]. }
  cbn [last head mbind option_bind fold_left]. rewrite Hx.
  rewrite (scan_part_deg _ _ _ Hint), !Hscan.
  unfold Py.contains. cbn [existsb]. rewrite Hrx, Htx, !orb_false_r.
  destruct Hdir as [-> | ->]; reflexivity.
Qed.

Lemma parse_nmc_srg_pp_name pp dir f :
  0 <= pp -> is_direction dir -> is_decimal f = true ->
  parse_if_name (nmc_srg_pp_name pp dir f)
  = Some (Info.mk (Some "NMC") None (Some 1) (Some pp) (Some dir) (Some f)).
Proof.
  intros Hn Hdir Hf.
  destruct (decimal_token f Hf) as (Hnd & [x Hx] & Hrx & Htx & Hscan).
  destruct (fmt_02d_nonneg pp Hn) as (Hd & _ & _).
  unfold parse_if_name, nmc_srg_pp_name.
  change ("SRG1-PP" +:+ Py.fmt_02d pp +:+ "-" +:+ dir +:+ "-" +:+ f)
    with ("SRG1" +:+ String "-"
            (("PP" +:+ Py.fmt_02d pp) +:+ String "-" (dir +:+ String "-" f))).
  rewrite split_srg_name; try done.
  2:{ cbn. by apply digits_no_dash. }
  2:{ by destruct Hdir as [-> | ->]. }
  cbn [last head mbind option_bind fold_left]. rewrite Hx.
  rewrite (scan_part_pp _ _ Hn), !Hscan.
  unfold Py.contains. cbn [existsb]. rewrite Hrx, Htx, !orb_false_r.
  destruct Hdir as [-> | ->]; reflexivity.
Qed.

(** *** What the provisioner returns *)

Lemma ensure_mc_deg_returns dev degree direction freq_str :
  is_Some (Py.float freq_str) ->
  snd (ensure_mc_deg dev degree direction freq_str)
  = Some (mc_deg_name degree direction freq_str).
Proof.
  intros [x Hx]. unfold ensure_mc_deg.
  destruct (has_interface dev _); [done|]. by rewrite Hx.
Qed.

Lemma ensure_nmc_deg_returns dev degree direction freq_str :
  snd (ensure_nmc_deg dev degree direction freq_str)
  = Some (nmc_deg_name degree direction freq_str).
Proof. unfold ensure_nmc_deg. by destruct (has_interface dev _). Qed.

Lemma ensure_nmc_srg_pp_returns dev pp direction freq_str :
  snd (ensure_nmc_srg_pp dev pp direction freq_str)
  = Some (nmc_srg_pp_name pp direction freq_str).
Proof. unfold ensure_nmc_srg_pp. by destruct (has_interface dev _). Qed.

(** C1, as amended: for a degree or port-pair index that is not negative, a
    direction RX or TX and a decimal frequency string (digits, optionally a
    point and digits), each of the three provisioner operations returns a
    name from which [parse_if_name] recovers exactly the degree (respectively
    SRG 1 and the port pair), the direction, the frequency string and the
    layer (MC, NMC, NMC), every other field staying unset. *)
Theorem naming_round_trip dev n dir f :
  0 <= n -> is_direction dir -> is_decimal f = true ->
  (exists name,
      snd (ensure_mc_deg dev n dir f) = Some name
      /\ parse_if_name name
         = Some (Info.mk (Some "MC") (Some n) None None (Some dir) (Some f)))
  /\ (exists name,
      snd (ensure_nmc_deg dev n dir f) = Some name
      /\ parse_if_name name
         = Some (Info.mk (Some "NMC") (Some n) None None (Some dir) (Some f)))
  /\ (exists name,
      snd (ensure_nmc_srg_pp dev n dir f) = Some name
      /\ parse_if_name name
         = Some (Info.mk (Some "NMC") None (Some 1) (Some n) (Some dir) (Some f))).
Proof.
  intros Hn Hdir Hf. split_and!.
  - exists (mc_deg_name n dir f). split; [|by apply parse_mc_deg_name].
    apply ensure_mc_deg_returns. by apply decimal_token.
  - exists (nmc_deg_name n dir f). split; [|by apply parse_nmc_deg_name].
    apply ensure_nmc_deg_returns.
  - exists (nmc_srg_pp_name n dir f). split; [|by apply parse_nmc_srg_pp_name].
    apply ensure_nmc_srg_pp_returns.
Qed.

Lemma naming_round_trip_witness :
  0 <= 3 /\ is_direction "TX" /\ is_decimal "195.0" = true
  /\ (exists name,
        snd (ensure_mc_deg empty_device 3 "TX" "195.0") = Some name
        /\ parse_if_name name
           = Some (Info.mk (Some "MC") (Some 3) None None (Some "TX") (Some "195.0")))
  /\ (exists name,
        snd (ensure_nmc_deg empty_device 3 "TX" "195.0") = Some name
        /\ parse_if_name name
           = Some (Info.mk (Some "NMC") (Some 3) None None (Some "TX") (Some "195.0")))
  /\ (exists name,
        snd (ensure_nmc_srg_pp empty_device 3 "TX" "195.0") = Some name
        /\ parse_if_name name
           = Some (Info.mk (Some "NMC") None (Some 1) (Some 3) (Some "TX")
                     (Some "195.0"))).
Proof.
  split; [lia|]. split; [by right|]. split; [reflexivity|].
  apply (naming_round_trip empty_device 3 "TX" "195.0");
    [lia | by right | reflexivity].
Defined.

(** C1 as first stated, for any degree integer, fails: a negative degree puts
    a second dash in the name, and the parser reads no degree from it. *)
Lemma naming_round_trip_negative_degree :
  ~ (forall dev n dir f,
        is_direction dir -> is_decimal f = true ->
        exists name info,
          snd (ensure_mc_deg dev n dir f) = Some name
          /\ parse_if_name name = Some info
          /\ Info.degree_id info = Some n).
Proof.
  intros H.
  destruct (H empty_device (-1) "RX" "193.3") as (name & info & Hname & Hparse & Hdeg);
    [by left | reflexivity |].
  vm_compute in Hname. injection Hname as <-.
  vm_compute in Hparse. injection Hparse as <-.
  discriminate Hdeg.
Qed.

(** *** The parser never raises, and sets a field only from a token *)

Lemma scan_part_keeps info p :
  Info.layer (scan_part info p) = Info.layer info
  /\ Info.direction (scan_part info p) = Info.direction info
  /\ Info.frequency (scan_part info p) = Info.frequency info.
Proof.
  unfold scan_part.
  repeat match goal with
         | |- context [if ?b then _ else _] => destruct b
         | |- context [match ?o with Some _ => _ | None => _ end] => destruct o
         end; done.
Qed.

Lemma scan_parts_keep parts info :
  Info.layer (fold_left scan_part parts info) = Info.layer info
  /\ Info.direction (fold_left scan_part parts info) = Info.direction info
  /\ Info.frequency (fold_left scan_part parts info) = Info.frequency info.
Proof.
  revert info. induction parts as [|p parts IH]; intros info; [done|].
  cbn [fold_left]. destruct (IH (scan_part info p)) as (-> & -> & ->).
  apply scan_part_keeps.
Qed.

Lemma scan_part_from parts p info :
  p ∈ parts ->
  degree_from parts (Info.degree_id info) ->
  srg_from parts (Info.srg_id info) ->
  pp_from parts (Info.pp_id info) ->
  degree_from parts (Info.degree_id (scan_part info p))
  /\ srg_from parts (Info.srg_id (scan_part info p))
  /\ pp_from parts (Info.pp_id (scan_part info p)).
Proof.
  intros Hp Hd Hs Hpp. unfold scan_part.
  destruct (Py.startswith p "DEG") eqn:Hdeg.
  { destruct (Py.int (Py.slice_from 3 p)) as [n|] eqn:Hn; [|done].
    split_and!; try done. right. by exists p, n. }
  destruct (Py.startswith p "SRG") eqn:Hsrg.
  { destruct (re_SRG p) as [g|] eqn:Hg; [|done].
    destruct (Py.int g) as [n|] eqn:Hn; [|done].
    split_and!; try done. right. by exists p, g, n. }
  destruct (Py.startswith p "PP") eqn:Hppx; [|done].
  destruct (re_PP p) as [g|] eqn:Hg; [|done].
  destruct (Py.int g) as [n|] eqn:Hn; [|done].
  split_and!; try done. right. by exists p, g, n.
Qed.

Lemma scan_parts_from parts ps info :
  ps ⊆ parts ->
  degree_from parts (Info.degree_id info) ->
  srg_from parts (Info.srg_id info) ->
  pp_from parts (Info.pp_id info) ->
  degree_from parts (Info.degree_id (fold_left scan_part ps info))
  /\ srg_from parts (Info.srg_id (fold_left scan_part ps info))
  /\ pp_from parts (Info.pp_id (fold_left scan_part ps info)).
Proof.
  revert info. induction ps as [|p ps IH]; intros info Hsub Hd Hs Hpp; [done|].
  cbn [fold_left].
  destruct (scan_part_from parts p info) as (Hd' & Hs' & Hpp'); try done.
  { apply Hsub. by left. }
  apply IH; try done. intros x Hx. apply Hsub. by right.
Qed.

Lemma parse_if_name_is_Some s : is_Some (parse_if_name s).
Proof.
  unfold parse_if_name. pose proof (split_nonempty "-" s) as Hne.
  destruct (Py.split "-" s) as [|p0 ps] eqn:Hparts; [done|].
  destruct (last (p0 :: ps)) eqn:E; [|by apply last_None in E].
  cbn. eauto.
Qed.

(** C7: [parse_if_name] returns a record for every input string (it never
    raises, and being a function of the name alone it reads and writes
    nothing else), and each field of the record is either unset or derived
    from a token of the name by the rule of that field. *)
Theorem parse_if_name_total (s : string) :
  exists info,
    parse_if_name s = Some info
    /\ (let parts := Py.split "-" s in
        (Info.direction info = None
         \/ (Info.direction info = Some "RX" /\ Py.contains "RX" parts = true)
         \/ (Info.direction info = Some "TX" /\ Py.contains "TX" parts = true))
        /\ (Info.frequency info = None
            \/ exists t, last parts = Some t /\ is_Some (Py.float t)
                         /\ Info.frequency info = Some t)
        /\ degree_from parts (Info.degree_id info)
        /\ srg_from parts (Info.srg_id info)
        /\ pp_from parts (Info.pp_id info)
        /\ (Info.layer info = None
            \/ exists t, head parts = Some t
                 /\ ((Py.contains t layer_tags = true /\ Info.layer info = Some t)
                     \/ (Py.startswith t "SRG" = true
                         /\ Info.layer info = Some "NMC")))).
Proof.
  unfold parse_if_name. pose proof (split_nonempty "-" s) as Hne.
  destruct (Py.split "-" s) as [|p0 ps] eqn:Hparts; [done|]. clear Hne.
  set (parts := p0 :: ps).
  assert (exists t, last parts = Some t) as [t Ht].
  { destruct (last parts) eqn:E; [eauto|]. by apply last_None in E. }
  rewrite Ht. cbn [mbind option_bind head].
  set (i1 := if Py.contains "RX" parts then _ else _).
  set (i2 := match Py.float t with Some _ => _ | None => _ end).
  set (i3 := fold_left scan_part parts i2).
  eexists. split; [reflexivity|]. cbn zeta.
  destruct (scan_parts_keep parts i2) as (Hl & Hdir & Hf). fold i3 in Hl, Hdir, Hf.
  destruct (scan_parts_from parts parts i2) as (Hd & Hs & Hpp);
    [done | subst i2 i1; repeat case_match; by left ..|]. fold i3 in Hd, Hs, Hpp.
  assert (Info.direction i2 = Info.direction i1) as Hdir2
    by (subst i2; by destruct (Py.float t)).
  assert (Info.layer i3 = None) as Hl3.
  { rewrite Hl. subst i2 i1. by repeat case_match. }
  split_and!.
  - replace (Info.direction _) with (Info.direction i1).
    2:{ rewrite <- Hdir2, <- Hdir. by repeat case_match. }
    subst i1. destruct (Py.contains "RX" parts) eqn:Hrx; [right; by left|].
    destruct (Py.contains "TX" parts) eqn:Htx; [right; by right|]. by left.
  - replace (Info.frequency _) with (Info.frequency i2).
    2:{ rewrite <- Hf. by repeat case_match. }
    subst i2. destruct (Py.float t) as [x|] eqn:Hx.
    + right. exists t. split_and!; [done | eauto | done].
    + left. subst i1. by repeat case_match.
  - by repeat case_match.
  - by repeat case_match.
  - by repeat case_match.
  - destruct (Py.contains p0 layer_tags) eqn:Htag.
    { right. exists p0. split; [done|]. by left. }
    destruct (Py.startswith p0 "SRG") eqn:Hsrg.
    { right. exists p0. split; [done|]. by right. }
    by left.
Qed.

Example parse_if_name_empty : parse_if_name "" = Some Info.empty.
Proof. reflexivity. Qed.

Example parse_if_name_malformed :
  parse_if_name "DEGx-PP-SRG-1e" = Some Info.empty.
Proof. reflexivity. Qed.

(** *** The provisioner is idempotent *)

Lemma has_interface_insert dev if_name intf :
  has_interface (set_interface dev (<[if_name := intf]> (interface dev))) if_name = true.
Proof.
  unfold has_interface. apply bool_decide_eq_true. cbn.
  rewrite lookup_insert_eq. eauto.
Qed.

Lemma ensure_mc_deg_present dev degree direction freq_str :
  has_interface dev (mc_deg_name degree direction freq_str) = true ->
  ensure_mc_deg dev degree direction freq_str
  = (dev, Some (mc_deg_name degree direction freq_str)).
Proof. intros H. unfold ensure_mc_deg. by rewrite H. Qed.

Lemma ensure_nmc_deg_present dev degree direction freq_str :
  has_interface dev (nmc_deg_name degree direction freq_str) = true ->
  ensure_nmc_deg dev degree direction freq_str
  = (dev, Some (nmc_deg_name degree direction freq_str)).
Proof. intros H. unfold ensure_nmc_deg. by rewrite H. Qed.

Lemma ensure_nmc_srg_pp_present dev pp direction freq_str :
  has_interface dev (nmc_srg_pp_name pp direction freq_str) = true ->
  ensure_nmc_srg_pp dev pp direction freq_str
  = (dev, Some (nmc_srg_pp_name pp direction freq_str)).
Proof. intros H. unfold ensure_nmc_srg_pp. by rewrite H. Qed.

Lemma ensure_mc_deg_after dev degree direction freq_str :
  has_interface (fst (ensure_mc_deg dev degree direction freq_str))
    (mc_deg_name degree direction freq_str) = true.
Proof.
  unfold ensure_mc_deg.
  destruct (has_interface dev _) eqn:H; [done|].
  destruct (Py.float freq_str); apply has_interface_insert.
Qed.

Lemma ensure_nmc_deg_after dev degree direction freq_str :
  has_interface (fst (ensure_nmc_deg dev degree direction freq_str))
    (nmc_deg_name degree direction freq_str) = true.
Proof.
  unfold ensure_nmc_deg.
  destruct (has_interface dev _) eqn:H; [done|]. apply has_interface_insert.
Qed.

Lemma ensure_nmc_srg_pp_after dev pp direction freq_str :
  has_interface (fst (ensure_nmc_srg_pp dev pp direction freq_str))
    (nmc_srg_pp_name pp direction freq_str) = true.
Proof.
  unfold ensure_nmc_srg_pp.
  destruct (has_interface dev _) eqn:H; [done|]. apply has_interface_insert.
Qed.

Lemma ensure_mc_deg_result dev degree direction freq_str :
  snd (ensure_mc_deg dev degree direction freq_str)
    = Some (mc_deg_name degree direction freq_str)
  \/ (snd (ensure_mc_deg dev degree direction freq_str) = None
      /\ Py.float freq_str = None
      /\ has_interface dev (mc_deg_name degree direction freq_str) = false).
Proof.
  unfold ensure_mc_deg.
  destruct (has_interface dev _) eqn:H; [by left|].
  destruct (Py.float freq_str); [by left | by right].
Qed.

(** C3, as amended: for each of the three "ensure" operations, the first call
    returns the interface name, a second call with the same arguments on the
    device the first call left behind returns that name again and changes
    nothing, and when an interface of the computed name already exists the
    device, with that interface's attributes, is left as it is.  For
    [ensure_mc_deg] this is for a frequency string that [float] accepts, or a
    device that has the interface already. *)
Theorem ensure_idempotent dev n direction freq_str :
  (let r := ensure_mc_deg dev n direction freq_str in
   let if_name := mc_deg_name n direction freq_str in
   (is_Some (Py.float freq_str) \/ has_interface dev if_name = true ->
    snd r = Some if_name
    /\ ensure_mc_deg (fst r) n direction freq_str = (fst r, Some if_name))
   /\ (has_interface dev if_name = true -> r = (dev, Some if_name)))
  /\ (let r := ensure_nmc_deg dev n direction freq_str in
      let if_name := nmc_deg_name n direction freq_str in
      snd r = Some if_name
      /\ ensure_nmc_deg (fst r) n direction freq_str = (fst r, Some if_name)
      /\ (has_interface dev if_name = true -> r = (dev, Some if_name)))
  /\ (let r := ensure_nmc_srg_pp dev n direction freq_str in
      let if_name := nmc_srg_pp_name n direction freq_str in
      snd r = Some if_name
      /\ ensure_nmc_srg_pp (fst r) n direction freq_str = (fst r, Some if_name)
      /\ (has_interface dev if_name = true -> r = (dev, Some if_name))).
Proof.
  cbn zeta. split_and!.
  - intros Hok. split.
    + destruct (ensure_mc_deg_result dev n direction freq_str)
        as [Hr | (_ & Hfloat & Habsent)]; [done|].
      destruct Hok as [[f Hf] | Hpresent]; congruence.
    + apply ensure_mc_deg_present, ensure_mc_deg_after.
  - apply ensure_mc_deg_present.
  - apply ensure_nmc_deg_returns.
  - apply ensure_nmc_deg_present, ensure_nmc_deg_after.
  - apply ensure_nmc_deg_present.
  - apply ensure_nmc_srg_pp_returns.
  - apply ensure_nmc_srg_pp_present, ensure_nmc_srg_pp_after.
  - apply ensure_nmc_srg_pp_present.
Qed.

Lemma ensure_idempotent_witness :
  let r := ensure_mc_deg empty_device 1 "RX" "193.3" in
  (is_Some (Py.float "193.3") \/ has_interface empty_device "MC-TTP-DEG1-RX-193.3" = true)
  /\ snd r = Some "MC-TTP-DEG1-RX-193.3"
  /\ ensure_mc_deg (fst r) 1 "RX" "193.3" = (fst r, Some "MC-TTP-DEG1-RX-193.3").
Proof.
  cbn zeta.
  assert (is_Some (Py.float "193.3")
          \/ has_interface empty_device "MC-TTP-DEG1-RX-193.3" = true) as Hok.
  { left. eexists. by vm_compute. }
  split; [exact Hok|].
  exact (proj1 (proj1 (ensure_idempotent empty_device 1 "RX" "193.3")) Hok).
Defined.

(** C3 as first stated fails: with the frequency string "193,3", which
    [float] rejects, the first call of [ensure_mc_deg] on a device without
    interfaces raises, after it has created the interface and before it
    writes the slot, and returns no name; the second call finds the interface
    and returns its name. *)
Lemma ensure_mc_deg_twice_malformed :
  let first := ensure_mc_deg empty_device 1 "RX" "193,3" in
  let second := ensure_mc_deg (fst first) 1 "RX" "193,3" in
  snd first = None
  /\ snd second = Some "MC-TTP-DEG1-RX-193,3"
  /\ snd first <> snd second
  /\ (Intf.mc_ttp <$> interface (fst first) !! "MC-TTP-DEG1-RX-193,3") = Some None.
Proof. cbn zeta. split_and!; by vm_compute. Qed.

(** *** build-connection: validation and rejection *)

Lemma build_checked_unchanged has_top root device_name freq_str src_deg dst :
  (forall c, snd (build_checked has_top root device_name freq_str src_deg dst)
             <> Returned ("Connection " +:+ c +:+ " created on " +:+ device_name)) ->
  fst (build_checked has_top root device_name freq_str src_deg dst) = root.
Proof.
  unfold build_checked.
  destruct (overlap_check root device_name freq_str src_deg dst); [done|].
  destruct (lookup_device device_name (devices root)); [|done].
  destruct (build_on_device has_top _ src_deg dst freq_str) as [[dev' c]|]; [|done].
  intros H. by destruct (H c).
Qed.

(** C4: without a source degree the result is the message of the missing
    parameter, whatever the destination fields are; with a source degree and
    no destination, or both destinations, the result is one of the two
    messages of the ambiguous or missing destination; a candidate slot that
    overlaps on the source side, or on the side of a destination degree, is
    rejected with the slot-conflict message; and whenever the result is not
    the message of a created connection, the store is the one the action
    started from: no interface and no connection has been created or changed. *)
Theorem build_validation (has_top : bool) (root : Root) (input : BuildInput) :
  (src_degree input = None ->
   BuildConnection has_top root input
   = (root, Returned "Error: src-degree must be provided"))
  /\ (is_Some (src_degree input) -> dst_degree input = None -> dst_pp input = None ->
      BuildConnection has_top root input
      = (root, Returned "Error: either dst-degree or dst-pp must be provided"))
  /\ (is_Some (src_degree input) ->
      is_Some (dst_degree input) -> is_Some (dst_pp input) ->
      BuildConnection has_top root input
      = (root, Returned "Error: provide only one of dst-degree or dst-pp"))
  /\ (forall dev src_deg,
        src_degree input = Some src_deg ->
        is_Some (dst_degree input) <-> ~ is_Some (dst_pp input) ->
        lookup_device (in_device input) (devices root) = Some dev ->
        _slot_overlaps dev src_deg "RX" (in_frequency input) = true ->
        BuildConnection has_top root input
        = (root, Returned (rejected_msg (in_frequency input) src_deg "RX")))
  /\ (forall dev src_deg dst_deg,
        src_degree input = Some src_deg ->
        dst_degree input = Some dst_deg -> dst_pp input = None ->
        lookup_device (in_device input) (devices root) = Some dev ->
        _slot_overlaps dev src_deg "RX" (in_frequency input) = false ->
        _slot_overlaps dev dst_deg "TX" (in_frequency input) = true ->
        BuildConnection has_top root input
        = (root, Returned (rejected_msg (in_frequency input) dst_deg "TX")))
  /\ ((forall c, snd (BuildConnection has_top root input)
                 <> Returned ("Connection " +:+ c +:+ " created on "
                                +:+ in_device input)) ->
      fst (BuildConnection has_top root input) = root).
Proof.
  unfold BuildConnection. split_and!.
  - by intros ->.
  - by intros [s ->] -> ->.
  - by intros [s ->] [d ->] [p ->].
  - intros dev src_deg -> Hdst Hdev Hov.
    destruct (dst_degree input) as [d|], (dst_pp input) as [p|].
    + exfalso. apply Hdst; eauto.
    + unfold build_checked, overlap_check. by rewrite Hdev, Hov.
    + unfold build_checked, overlap_check. by rewrite Hdev, Hov.
    + exfalso. destruct Hdst as [_ Hdst]. destruct Hdst as [? [=]]. by intros [? [=]].
  - intros dev src_deg dst_deg -> -> -> Hdev Hsrc Hdst.
    unfold build_checked, overlap_check. by rewrite Hdev, Hsrc, Hdst.
  - destruct (src_degree input) as [src_deg|]; [|done].
    destruct (dst_degree input) as [d|], (dst_pp input) as [p|]; try done;
      apply build_checked_unchanged.
Qed.

Example build_validation_matrix (has_top : bool) (root : Root) :
  BuildConnection has_top root (mkBuildInput "D1" "193.3" None (Some 2) (Some 3))
  = (root, Returned "Error: src-degree must be provided")
  /\ BuildConnection has_top root (mkBuildInput "D1" "193.3" (Some 1) None None)
     = (root, Returned "Error: either dst-degree or dst-pp must be provided")
  /\ BuildConnection has_top root (mkBuildInput "D1" "193.3" (Some 1) (Some 2) (Some 3))
     = (root, Returned "Error: provide only one of dst-degree or dst-pp").
Proof. done. Qed.

(** *** The device store *)

Lemma lookup_store_device name dev dev' l :
  lookup_device name l = Some dev ->
  lookup_device name (store_device name dev' l) = Some dev'.
Proof.
  induction l as [|[n d] l IH]; cbn; [done|].
  destruct (String.eqb n name) eqn:Hn; cbn; rewrite Hn; [done | exact IH].
Qed.

Lemma lookup_store_device_ne name n dev' l :
  n <> name -> lookup_device n (store_device name dev' l) = lookup_device n l.
Proof.
  intros Hne. induction l as [|[m d] l IH]; cbn; [done|].
  destruct (String.eqb m name) eqn:Hm; cbn.
  - apply String.eqb_eq in Hm. subst m.
    destruct (String.eqb name n) eqn:Hn; [|done].
    apply String.eqb_eq in Hn. congruence.
  - by rewrite IH.
Qed.

Lemma store_device_names name dev l :
  map fst (store_device name dev l) = map fst l.
Proof.
  induction l as [|[n d] l IH]; cbn; [done|].
  destruct (String.eqb n name); cbn; [done | by rewrite IH].
Qed.

(** *** build-connection: degree to degree on an empty device *)

Lemma slot_overlaps_no_interface dev degree direction freq_str :
  interface dev = ∅ -> _slot_overlaps dev degree direction freq_str = false.
Proof.
  intros H. unfold _slot_overlaps. rewrite H, map_to_list_empty.
  by destruct (Py.float freq_str).
Qed.

Lemma build_on_empty_device has_top addr cps :
  build_on_device has_top (mkDevice addr cps ∅ ∅) 1 (ToDegree 2) "193.3"
  = Some (built_1_2 has_top addr cps, "DEG1-RX-to-DEG2-TX-193.3").
Proof. destruct has_top; vm_compute; reflexivity. Qed.

(** C5: on a device with no interface and no connection, build-connection
    with source degree 1, destination degree 2 and frequency "193.3" returns
    the message that names the connection, and the device that the store
    holds afterwards has exactly the four interfaces MC-TTP-DEG1-RX-193.3 and
    MC-TTP-DEG2-TX-193.3 (slot "193.25" to "193.35"), NMC-CTP-DEG1-RX-193.3
    and NMC-CTP-DEG2-TX-193.3, and the one connection
    DEG1-RX-to-DEG2-TX-193.3 from the first NMC interface to the second, with
    control mode "off" and target output power 0 where the model has that
    leaf; its address and circuit packs, the other devices and the topology
    cache are as before. *)
Theorem build_degree_to_degree has_top root device_name dev :
  lookup_device device_name (devices root) = Some dev ->
  interface dev = ∅ ->
  roadm_connections dev = ∅ ->
  let r := BuildConnection has_top root
             (mkBuildInput device_name "193.3" (Some 1) (Some 2) None) in
  snd r = Returned ("Connection DEG1-RX-to-DEG2-TX-193.3 created on " +:+ device_name)
  /\ lookup_device device_name (devices (fst r))
     = Some (built_1_2 has_top (address dev) (circuit_packs dev))
  /\ (forall n, n <> device_name ->
                lookup_device n (devices (fst r)) = lookup_device n (devices root))
  /\ map fst (devices (fst r)) = map fst (devices root)
  /\ topology (fst r) = topology root.
Proof.
  intros Hdev Hifs Hrcs.
  assert (BuildConnection has_top root
            (mkBuildInput device_name "193.3" (Some 1) (Some 2) None)
          = (mkRoot (store_device device_name
                       (built_1_2 has_top (address dev) (circuit_packs dev))
                       (devices root))
                    (topology root),
             Returned ("Connection DEG1-RX-to-DEG2-TX-193.3 created on "
                         +:+ device_name))) as Hrun.
  { unfold BuildConnection, build_checked, overlap_check. cbn [src_degree dst_degree
      dst_pp in_device in_frequency].
    rewrite Hdev, !slot_overlaps_no_interface by done.
    destruct dev as [addr cps ifs rcs]. cbn in Hifs, Hrcs. subst ifs rcs.
    by rewrite build_on_empty_device. }
  cbn zeta. rewrite Hrun. cbn [fst snd devices topology].
  split_and!; [done | | | | done].
  - by apply (lookup_store_device _ dev).
  - intros n Hn. by apply lookup_store_device_ne.
  - apply store_device_names.
Qed.

Lemma build_degree_to_degree_witness :
  let root := mkRoot [("D0", built_1_2 true None []); ("D1", empty_device)]
                (mkTopology ∅ ∅) in
  let r := BuildConnection true root
             (mkBuildInput "D1" "193.3" (Some 1) (Some 2) None) in
  lookup_device "D1" (devices root) = Some empty_device
  /\ interface empty_device = ∅
  /\ roadm_connections empty_device = ∅
  /\ snd r = Returned ("Connection DEG1-RX-to-DEG2-TX-193.3 created on " +:+ "D1")
  /\ lookup_device "D1" (devices (fst r))
     = Some (built_1_2 true (address empty_device) (circuit_packs empty_device))
  /\ (forall n, n <> "D1" ->
                lookup_device n (devices (fst r)) = lookup_device n (devices root))
  /\ map fst (devices (fst r)) = map fst (devices root)
  /\ topology (fst r) = topology root.
Proof.
  cbn zeta. split; [reflexivity|]. split; [reflexivity|]. split; [reflexivity|].
  apply (build_degree_to_degree true
           (mkRoot [("D0", built_1_2 true None []); ("D1", empty_device)]
              (mkTopology ∅ ∅)) "D1" empty_device);
    reflexivity.
Defined.

(** *** delete-connection *)

Lemma elem_of_used_endpoints rcs x :
  x ∈ used_endpoints rcs <-> exists k rc, rcs !! k = Some rc /\ x ∈ endpoints rc.
Proof.
  unfold used_endpoints. rewrite elem_of_list_to_set, list_elem_of_bind. split.
  - intros ([k rc] & Hx & Hk%elem_of_map_to_list). eauto.
  - intros (k & rc & Hk & Hx). exists (k, rc). split; [done|].
    by apply elem_of_map_to_list.
Qed.

Lemma elem_of_used_interfaces ifs rcs x :
  x ∈ used_interfaces ifs rcs
  <-> exists k rc e, rcs !! k = Some rc /\ e ∈ endpoints rc
                     /\ (x = e \/ x ∈ supporting_of ifs e).
Proof.
  unfold used_interfaces.
  rewrite elem_of_union, elem_of_list_to_set, list_elem_of_bind. split.
  - intros [Hx | (e & Hx & He)].
    + apply elem_of_used_endpoints in Hx as (k & rc & Hk & Hx).
      exists k, rc, x. eauto.
    + apply elem_of_elements, elem_of_used_endpoints in He as (k & rc & Hk & He).
      exists k, rc, e. eauto.
  - intros (k & rc & e & Hk & He & [-> | Hx]).
    + left. apply elem_of_used_endpoints. eauto.
    + right. exists e. split; [done|].
      apply elem_of_elements, elem_of_used_endpoints. eauto.
Qed.

Lemma elem_of_delete_candidates ifs src_if dst_if x :
  x ∈ delete_candidates ifs src_if dst_if
  <-> exists e, e ∈ [src_if; dst_if] /\ (x = e \/ x ∈ supporting_of ifs e).
Proof.
  unfold delete_candidates.
  rewrite elem_of_union, elem_of_list_to_set, list_elem_of_bind. split.
  - intros [Hx | (e & Hx & He)]; [|eauto].
    exists x. split; [|by left]. set_solver.
  - intros (e & He & [-> | Hx]); [left; set_solver | right; eauto].
Qed.

Lemma lookup_delete_unused used_if ifs n (x : string) :
  delete_unused used_if ifs n !! x
  = if bool_decide (x = n /\ n ∉ used_if) then None else ifs !! x.
Proof.
  unfold delete_unused. case_bool_decide as Hu.
  - rewrite bool_decide_eq_false_2; [done | naive_solver].
  - case_bool_decide as Hs.
    + rewrite lookup_delete. case_decide; case_bool_decide; naive_solver.
    + case_bool_decide as Hx; [|done]. destruct Hx as [-> _].
      by apply eq_None_not_Some.
Qed.

Lemma lookup_fold_delete_unused used_if l ifs (x : string) :
  fold_left (delete_unused used_if) l ifs !! x
  = if bool_decide (x ∈ l /\ x ∉ used_if) then None else ifs !! x.
Proof.
  revert ifs. induction l as [|n l IH]; intros ifs; cbn [fold_left].
  - case_bool_decide; [|done]. set_solver.
  - rewrite IH, lookup_delete_unused.
    repeat case_bool_decide; try done; set_solver.
Qed.

Lemma lookup_delete_on_device dev conn_name conn (x : string) :
  interface (delete_on_device dev conn_name conn) !! x
  = if bool_decide
         (x ∈ delete_candidates (interface dev) (Py.str_leaf (Conn.src_if conn))
                (Py.str_leaf (Conn.dst_if conn))
          /\ x ∉ used_interfaces (interface dev)
                   (delete conn_name (roadm_connections dev)))
    then None else interface dev !! x.
Proof.
  unfold delete_on_device. cbn [interface].
  rewrite lookup_fold_delete_unused.
  repeat case_bool_decide; try done; set_solver.
Qed.

Lemma candidate_iff dev conn x :
  x ∈ delete_candidates (interface dev) (Py.str_leaf (Conn.src_if conn))
        (Py.str_leaf (Conn.dst_if conn))
  <-> deletion_candidate dev conn x.
Proof. apply elem_of_delete_candidates. Qed.

Lemma referenced_iff dev conn_name x :
  x ∈ used_interfaces (interface dev) (delete conn_name (roadm_connections dev))
  <-> still_referenced dev conn_name x.
Proof.
  rewrite elem_of_used_interfaces. unfold still_referenced. split.
  - intros (k & rc & e & Hk & He & Hx).
    apply lookup_delete_Some in Hk as [Hne Hk]. exists k, rc, e. eauto.
  - intros (k & rc & e & Hne & Hk & He & Hx). exists k, rc, e.
    split_and!; try done. by apply lookup_delete_Some.
Qed.

Lemma delete_on_device_spec dev conn_name conn :
  let dev' := delete_on_device dev conn_name conn in
  (forall x,
      deletion_candidate dev conn x -> ~ still_referenced dev conn_name x ->
      interface dev' !! x = None)
  /\ (forall x,
        ~ (deletion_candidate dev conn x /\ ~ still_referenced dev conn_name x) ->
        interface dev' !! x = interface dev !! x)
  /\ (forall k rc x,
        k <> conn_name -> roadm_connections dev !! k = Some rc ->
        x ∈ endpoints rc ->
        interface dev' !! x = interface dev !! x
        /\ forall y, y ∈ supporting_of (interface dev) x ->
                     interface dev' !! y = interface dev !! y).
Proof.
  intros dev'.
  assert (forall x,
             ~ (deletion_candidate dev conn x /\ ~ still_referenced dev conn_name x) ->
             interface dev' !! x = interface dev !! x) as Hkept.
  { intros x Hn. subst dev'. rewrite lookup_delete_on_device.
    rewrite bool_decide_eq_false_2; [done|].
    by rewrite candidate_iff, referenced_iff. }
  split_and!; [|done|].
  - intros x Hc Hr. subst dev'. rewrite lookup_delete_on_device.
    rewrite bool_decide_eq_true_2; [done|].
    by rewrite candidate_iff, referenced_iff.
  - intros k rc x Hne Hk Hx. split.
    + apply Hkept. intros [_ Hn]. apply Hn. exists k, rc, x. eauto.
    + intros y Hy. apply Hkept. intros [_ Hn]. apply Hn. exists k, rc, x. eauto.
Qed.



(** The store after the deletion of the connection that the degree 1 to
    degree 2 build has left: the device holds no interface and no connection
    any more. *)
Example delete_leaves_empty_device :
  let root := mkRoot [("D0", empty_device); ("D1", built_1_2 true None [])]
                (mkTopology ∅ ∅) in
  lookup_device "D1"
    (devices (fst (DeleteConnection root "D1" "DEG1-RX-to-DEG2-TX-193.3")))
  = Some empty_device.
Proof. by vm_compute. Qed.

(** The two scenarios of the delete clean-up, on the device that the degree 1
    to degree 2 build leaves: alone, the connection goes with its four
    interfaces; with a second connection on NMC-CTP-DEG1-RX-193.3, that
    interface and its supporting MC interface stay. *)
Example delete_after_build has_top addr cps :
  let dev := built_1_2 has_top addr cps in
  let conn_name := "DEG1-RX-to-DEG2-TX-193.3" in
  (forall conn, roadm_connections dev !! conn_name = Some conn ->
                delete_on_device dev conn_name conn = mkDevice addr cps ∅ ∅)
  /\ (forall conn other,
        roadm_connections dev !! conn_name = Some conn ->
        Conn.src_if other = Some "NMC-CTP-DEG1-RX-193.3" ->
        let shared :=
          set_roadm_connections dev (<["second" := other]> (roadm_connections dev)) in
        let dev' := delete_on_device shared conn_name conn in
        interface dev' !! "NMC-CTP-DEG1-RX-193.3" = interface dev !! "NMC-CTP-DEG1-RX-193.3"
        /\ is_Some (interface dev' !! "NMC-CTP-DEG1-RX-193.3")
        /\ interface dev' !! "MC-TTP-DEG1-RX-193.3" = interface dev !! "MC-TTP-DEG1-RX-193.3"
        /\ is_Some (interface dev' !! "MC-TTP-DEG1-RX-193.3")
        /\ roadm_connections dev' !! conn_name = None).
Proof.
  cbn zeta. split.
  - intros conn Hconn. destruct has_top; vm_compute in Hconn;
      injection Hconn as <-; by vm_compute.
  - intros conn other Hconn Hsrc.
    set (dev := built_1_2 has_top addr cps).
    set (shared := set_roadm_connections dev _).
    assert (roadm_connections shared !! "second" = Some other) as Hsecond.
    { subst shared. cbn. by rewrite lookup_insert_eq. }
    assert (Py.str_leaf (Conn.src_if other) ∈ endpoints other) as Hend
      by (unfold endpoints; set_solver).
    rewrite Hsrc in Hend. cbn [Py.str_leaf default] in Hend.
    assert (roadm_connections shared !! "DEG1-RX-to-DEG2-TX-193.3" = Some conn) as Hc.
    { subst shared. cbn. by rewrite lookup_insert_ne. }
    assert (supporting_of (interface shared) "NMC-CTP-DEG1-RX-193.3"
            = ["MC-TTP-DEG1-RX-193.3"]) as Hsup
      by (subst dev shared; by vm_compute).
    destruct (delete_on_device_spec shared "DEG1-RX-to-DEG2-TX-193.3" conn)
      as (_ & _ & Hshare).
    destruct (Hshare "second" other "NMC-CTP-DEG1-RX-193.3") as [Hx Hy]; try done.
    rewrite Hsup in Hy.
    specialize (Hy "MC-TTP-DEG1-RX-193.3" (list_elem_of_here _ _)).
    split_and!.
    + exact Hx.
    + rewrite Hx. subst dev shared. eexists. vm_compute. reflexivity.
    + exact Hy.
    + rewrite Hy. subst dev shared. eexists. vm_compute. reflexivity.
    + apply lookup_delete_eq.
Qed.

(** *** discover-topology *)

Lemma for_each_is_Some {A B : Type} (body : A -> B -> option A) l a :
  (forall a x, is_Some (body a x)) -> is_Some (for_each body l a).
Proof.
  intros Hbody. revert a. induction l as [|x l IH]; intros a; cbn; [eauto|].
  destruct (Hbody a x) as [a' ->]. cbn. apply IH.
Qed.

Lemma re_lit_digits_group lit p d rest :
  re_lit_digits lit p = Some (d, rest) -> is_Some (Py.int d).
Proof.
  unfold re_lit_digits. destruct (Py.startswith p lit); [|done].
  destruct (Py.span_digits _) as [d' r'] eqn:Hsp.
  destruct (span_digits_spec _ _ _ Hsp) as [_ Hd].
  destruct d' as [|c d']; [done|]. intros [= <- <-].
  rewrite int_digits by done.
  destruct (digits_value_is_Some (String c d') Hd) as [v ->]; [done|]. cbn. eauto.
Qed.

Lemma scan_circuit_pack_is_Some n cpname : is_Some (scan_circuit_pack n cpname).
Proof.
  unfold scan_circuit_pack, re_DEG_dash, re_SRG.
  destruct (re_lit_digits "DEG" cpname) as [[d [|c rest]]|] eqn:Hdeg.
  - destruct (re_lit_digits "SRG" cpname) as [[d' rest']|] eqn:Hsrg; cbn; [|eauto].
    destruct (re_lit_digits_group _ _ _ _ Hsrg) as [v ->]. cbn. eauto.
  - destruct (re_lit_digits_group _ _ _ _ Hdeg) as [v Hv].
    destruct (re_lit_digits "SRG" cpname) as [[d' rest']|] eqn:Hsrg; cbn.
    + destruct (re_lit_digits_group _ _ _ _ Hsrg) as [v' Hv'].
      destruct c as [[] [] [] [] [] [] [] []]; rewrite ?Hv, ?Hv'; cbn; eauto.
    + destruct c as [[] [] [] [] [] [] [] []]; rewrite ?Hv; cbn; eauto.
  - destruct (re_lit_digits "SRG" cpname) as [[d' rest']|] eqn:Hsrg; cbn; [|eauto].
    destruct (re_lit_digits_group _ _ _ _ Hsrg) as [v ->]. cbn. eauto.
Qed.

Lemma scan_interface_is_Some n if_name : is_Some (scan_interface n if_name).
Proof.
  unfold scan_interface.
  destruct (parse_if_name_is_Some if_name) as [info ->]. cbn.
  repeat case_match; eauto.
Qed.

Lemma discover_device_is_Some root topo dev_name :
  is_Some (discover_device root topo dev_name).
Proof.
  unfold discover_device. destruct (lookup_device dev_name (devices root)); [|eauto].
  destruct (for_each_is_Some scan_circuit_pack (circuit_packs d)
              (Node.mk (Some dev_name)
                 (if truthy (address d) then address d
                  else Node.mgmt_ip (default Node.new (node topo !! dev_name)))
                 (Node.degree (default Node.new (node topo !! dev_name)))
                 (Node.srg (default Node.new (node topo !! dev_name)))
                 (Node.tp (default Node.new (node topo !! dev_name))))
              scan_circuit_pack_is_Some) as [n1 ->].
  cbn.
  destruct (for_each_is_Some scan_interface (map fst (map_to_list (interface d))) n1
              scan_interface_is_Some) as [n2 ->].
  cbn. eauto.
Qed.

Lemma discover_returns root input_device :
  exists topo,
    for_each (discover_device root) (discovered_devices root input_device)
      (mkTopology ∅ ∅) = Some topo
    /\ DiscoverTopology root input_device
       = (mkRoot (devices root) topo, Returned "Discovery complete").
Proof.
  destruct (for_each_is_Some (discover_device root)
              (discovered_devices root input_device) (mkTopology ∅ ∅)
              (discover_device_is_Some root)) as [topo Htopo].
  exists topo. split; [done|]. unfold DiscoverTopology. by rewrite Htopo.
Qed.

(** C8: discover-topology returns, leaves the device list as it is, and a
    second run with the same device-list input on the store the first run
    left yields the same store: the same nodes, degrees, SRGs, termination
    points and mirrored connections. *)
Theorem discover_idempotent (root : Root) (input_device : list string) :
  let first := DiscoverTopology root input_device in
  snd first = Returned "Discovery complete"
  /\ devices (fst first) = devices root
  /\ DiscoverTopology (fst first) input_device = first.
Proof.
  cbn zeta. destruct (discover_returns root input_device) as (topo & Htopo & ->).
  split_and!; try done. cbn [fst].
  unfold DiscoverTopology. cbn [devices].
  change (discover_device (mkRoot (devices root) topo)) with (discover_device root).
  change (discovered_devices (mkRoot (devices root) topo) input_device)
    with (discovered_devices root input_device).
  by rewrite Htopo.
Qed.

Lemma mirror_connections_within (names : list string) dev_name l conns :
  dev_name ∈ names ->
  (forall c tc, conns !! c = Some tc ->
                exists d, TConn.device tc = Some d /\ d ∈ names) ->
  forall c tc, fold_left (mirror_connection dev_name) l conns !! c = Some tc ->
               exists d, TConn.device tc = Some d /\ d ∈ names.
Proof.
  intros Hin. revert conns. induction l as [|[cname rc] l IH]; intros conns Hc; [done|].
  cbn [fold_left]. apply IH. intros c tc. unfold mirror_connection.
  rewrite lookup_insert. case_decide; [|by apply Hc].
  intros [= <-]. cbn. eauto.
Qed.

Lemma discover_device_within (names : list string) root topo dev_name topo' :
  dev_name ∈ names -> topo_within names topo ->
  discover_device root topo dev_name = Some topo' -> topo_within names topo'.
Proof.
  intros Hin [Hnodes Hconns]. unfold discover_device.
  destruct (lookup_device dev_name (devices root)) as [dev|]; [|by intros [= <-]].
  destruct (for_each scan_circuit_pack _ _) as [n1|]; [|done]. cbn.
  destruct (for_each scan_interface _ _) as [n2|]; [|done]. cbn.
  intros [= <-]. split; cbn.
  - intros n nd. rewrite lookup_insert. case_decide; [by subst|]. apply Hnodes.
  - by apply mirror_connections_within.
Qed.

Lemma discover_devices_within (names : list string) root l topo topo' :
  l ⊆ names -> topo_within names topo ->
  for_each (discover_device root) l topo = Some topo' -> topo_within names topo'.
Proof.
  revert topo. induction l as [|x l IH]; intros topo Hsub Hw; cbn.
  - by intros [= <-].
  - destruct (discover_device root topo x) as [t1|] eqn:Hx; [|done]. cbn.
    apply IH; [set_solver|]. eapply discover_device_within; [|done..]. set_solver.
Qed.

Lemma discover_device_nodes root topo dev_name topo' :
  discover_device root topo dev_name = Some topo' ->
  forall n, is_Some (node topo' !! n)
            <-> is_Some (node topo !! n)
                \/ (n = dev_name /\ is_Some (lookup_device dev_name (devices root))).
Proof.
  unfold discover_device.
  destruct (lookup_device dev_name (devices root)) as [dev|].
  - destruct (for_each scan_circuit_pack _ _) as [n1|]; [|done]. cbn.
    destruct (for_each scan_interface _ _) as [n2|]; [|done]. cbn.
    intros [= <-] n. cbn. rewrite lookup_insert. case_decide.
    + subst. split; [right; eauto | eauto].
    + split; [by left | by intros [? | [? _]]].
  - intros [= <-] n. split; [by left|]. intros [? | [_ [? [=]]]]; done.
Qed.

Lemma discover_devices_nodes root l topo topo' :
  for_each (discover_device root) l topo = Some topo' ->
  forall n, is_Some (node topo' !! n)
            <-> is_Some (node topo !! n)
                \/ (n ∈ l /\ is_Some (lookup_device n (devices root))).
Proof.
  revert topo. induction l as [|x l IH]; intros topo; cbn.
  - intros [= <-] n. split; [by left|]. intros [? | [?%elem_of_nil _]]; done.
  - destruct (discover_device root topo x) as [t1|] eqn:Hx; [|done]. cbn.
    intros Hl n. rewrite (IH _ Hl n), (discover_device_nodes _ _ _ _ Hx n).
    split.
    + intros [[? | [-> ?]] | [? ?]]; [by left | right | right]; split; set_solver.
    + intros [? | [[-> | ?]%elem_of_cons ?]]; eauto.
Qed.

Lemma topo_within_empty names : topo_within names (mkTopology ∅ ∅).
Proof. split; intros ? ?; cbn; by rewrite lookup_empty. Qed.

(** C10: discover-topology with a non-empty device list returns, and the
    cache it leaves does not depend on the cache it found: whatever nodes and
    mirrored connections were there, of listed devices or not, are gone.  The
    new cache has a node exactly for each listed device that the store has,
    and every mirrored connection in it belongs to a listed device. *)
Theorem discover_partial (root : Root) (devs : list string) :
  devs <> [] ->
  exists topo,
    DiscoverTopology root devs
    = (mkRoot (devices root) topo, Returned "Discovery complete")
    /\ (forall old,
          DiscoverTopology (mkRoot (devices root) old) devs
          = (mkRoot (devices root) topo, Returned "Discovery complete"))
    /\ topo_within devs topo
    /\ (forall n, is_Some (node topo !! n)
                  <-> n ∈ devs /\ is_Some (lookup_device n (devices root))).
Proof.
  intros Hne. destruct (discover_returns root devs) as (topo & Htopo & Hrun).
  assert (discovered_devices root devs = devs) as Hdevs by (by destruct devs).
  rewrite Hdevs in Htopo.
  exists topo. split_and!; [done| | |].
  - intros old. unfold DiscoverTopology. cbn [devices].
    change (discover_device (mkRoot (devices root) old)) with (discover_device root).
    change (discovered_devices (mkRoot (devices root) old) devs)
      with (discovered_devices root devs).
    by rewrite Hdevs, Htopo.
  - eapply discover_devices_within; [done | apply topo_within_empty | done].
  - intros n. rewrite (discover_devices_nodes _ _ _ _ Htopo n). cbn.
    rewrite lookup_empty. split; [intros [[? [=]] | ?]; done | by right].
Qed.

Lemma discover_partial_witness :
  let old :=
    mkTopology {["D2" := Node.mk (Some "D2") None ∅ ∅ ∅]}
      {["c2" := TConn.mk (Some "c2") (Some "D2") (Some "a") (Some "b")]} in
  let root := mkRoot [("D1", built_1_2 true None []); ("D2", empty_device)] old in
  ["D1"] <> []
  /\ exists topo,
       DiscoverTopology root ["D1"]
       = (mkRoot (devices root) topo, Returned "Discovery complete")
       /\ (forall old',
             DiscoverTopology (mkRoot (devices root) old') ["D1"]
             = (mkRoot (devices root) topo, Returned "Discovery complete"))
       /\ topo_within ["D1"] topo
       /\ (forall n, is_Some (node topo !! n)
                     <-> n ∈ ["D1"] /\ is_Some (lookup_device n (devices root))).
Proof.
  cbn zeta. split; [done|].
  apply (discover_partial
           (mkRoot [("D1", built_1_2 true None []); ("D2", empty_device)]
              (mkTopology {["D2" := Node.mk (Some "D2") None ∅ ∅ ∅]}
                 {["c2" := TConn.mk (Some "c2") (Some "D2") (Some "a") (Some "b")]}))
           ["D1"]).
  done.
Defined.

(** The cached node and connection of an unlisted device are gone after a
    partial run. *)
Example discover_drops_unlisted :
  let old :=
    mkTopology {["D2" := Node.mk (Some "D2") None ∅ ∅ ∅]}
      {["c2" := TConn.mk (Some "c2") (Some "D2") (Some "a") (Some "b")]} in
  let root := mkRoot [("D1", built_1_2 true None []); ("D2", empty_device)] old in
  let topo := topology (fst (DiscoverTopology root ["D1"])) in
  node topo !! "D2" = None
  /\ connection topo !! "c2" = None
  /\ is_Some (node topo !! "D1")
  /\ (TConn.device <$> connection topo !! "DEG1-RX-to-DEG2-TX-193.3")
     = Some (Some "D1").
Proof. cbn zeta. split_and!; [by vm_compute .. | eexists; by vm_compute | by vm_compute]. Qed.

(** *** The frequency slot model *)

Lemma append_assoc (a b c : string) : (a +:+ b) +:+ c = a +:+ b +:+ c.
Proof. induction a as [|x a IH]; [done|]. cbn. by rewrite IH. Qed.

Lemma startswith_append p s : Py.startswith (p +:+ s) p = true.
Proof.
  induction p as [|x p IH]; [done|]. cbn. by rewrite Ascii.eqb_refl, IH.
Qed.

Lemma mc_deg_name_prefix degree direction freq_str :
  mc_deg_name degree direction freq_str = mc_prefix degree direction +:+ freq_str.
Proof. unfold mc_deg_name, mc_prefix. by rewrite !append_assoc. Qed.

Lemma mc_deg_name_inj degree direction c1 c2 :
  mc_deg_name degree direction c1 = mc_deg_name degree direction c2 -> c1 = c2.
Proof. rewrite !mc_deg_name_prefix. apply String.app_inj. Qed.

Lemma slot_overlaps_exists dev degree direction freq_str f :
  Py.float freq_str = Some f ->
  _slot_overlaps dev degree direction freq_str = true
  <-> exists name intf,
        interface dev !! name = Some intf
        /\ slot_hit (mc_prefix degree direction)
             (Py.fsub f Py.f_0_05) (Py.fadd f Py.f_0_05) name intf = true.
Proof.
  intros Hf. unfold _slot_overlaps. rewrite Hf, existsb_exists. split.
  - intros ([name intf] & Hin & Hhit). exists name, intf. split; [|done].
    by apply elem_of_map_to_list, list_elem_of_In.
  - intros (name & intf & Hin & Hhit). exists (name, intf). split; [|done].
    by apply list_elem_of_In, elem_of_map_to_list.
Qed.

Lemma slot_hit_created degree direction f fc center :
  slot_hit (mc_prefix degree direction) (Py.fsub f Py.f_0_05) (Py.fadd f Py.f_0_05)
    (mc_deg_name degree direction center) (mc_deg_intf degree direction fc)
  = overlaps_stored f fc.
Proof.
  unfold slot_hit. rewrite mc_deg_name_prefix, startswith_append.
  unfold mc_deg_intf, with_mc_ttp, overlaps_stored. cbn.
  by repeat case_match.
Qed.

(** On a device whose media-channel interfaces on [(degree, direction)] were
    all created by [ensure_mc_deg], the scan of [_slot_overlaps] comes down to
    the test of the candidate interval against the stored slot of one of
    them. *)
Lemma slot_overlaps_stored dev degree direction freq_str f :
  created_by_ensure_mc dev degree direction ->
  Py.float freq_str = Some f ->
  _slot_overlaps dev degree direction freq_str = true
  <-> exists center fc,
        is_Some (interface dev !! mc_deg_name degree direction center)
        /\ Py.float center = Some fc
        /\ overlaps_stored f fc = true.
Proof.
  intros Hdev Hf. rewrite (slot_overlaps_exists _ _ _ _ _ Hf). split.
  - intros (name & intf & Hin & Hhit).
    assert (Py.startswith name (mc_prefix degree direction) = true) as Hpre.
    { unfold slot_hit in Hhit. by destruct (Py.startswith name _). }
    destruct (Hdev name intf Hin Hpre) as (center & fc & -> & Hfc & ->).
    exists center, fc. split_and!; [eauto | done |].
    by rewrite <- (slot_hit_created degree direction f fc center).
  - intros (center & fc & [intf Hin] & Hfc & Hov).
    exists (mc_deg_name degree direction center), intf. split; [done|].
    destruct (Hdev _ intf Hin) as (center' & fc' & Hname & Hfc' & ->).
    { by rewrite mc_deg_name_prefix, startswith_append. }
    apply mc_deg_name_inj in Hname. subst center'.
    rewrite Hfc in Hfc'. injection Hfc' as <-.
    by rewrite slot_hit_created.
Qed.

Lemma created_by_ensure_mc_empty degree direction :
  created_by_ensure_mc empty_device degree direction.
Proof. intros name intf. cbn. by rewrite lookup_empty. Qed.

Lemma ensure_mc_deg_created dev degree direction center :
  created_by_ensure_mc dev degree direction ->
  is_Some (Py.float center) ->
  created_by_ensure_mc (fst (ensure_mc_deg dev degree direction center))
    degree direction.
Proof.
  intros Hdev [fc Hfc]. unfold ensure_mc_deg.
  destruct (has_interface dev _); [done|]. rewrite Hfc. cbn.
  intros name intf. cbn. rewrite lookup_insert. case_decide as Hname.
  - intros [= <-] _. exists center, fc. by subst name.
  - apply Hdev.
Qed.

Lemma slot_overlaps_stored_witness :
  let dev := fst (ensure_mc_deg empty_device 1 "RX" "193.3") in
  let f := S754_finite false 6801842812213002 (-45) in
  created_by_ensure_mc dev 1 "RX"
  /\ Py.float "193.32" = Some f
  /\ (_slot_overlaps dev 1 "RX" "193.32" = true
      <-> exists center fc,
            is_Some (interface dev !! mc_deg_name 1 "RX" center)
            /\ Py.float center = Some fc
            /\ overlaps_stored f fc = true).
Proof.
  cbn zeta.
  assert (created_by_ensure_mc (fst (ensure_mc_deg empty_device 1 "RX" "193.3")) 1 "RX")
    as Hdev.
  { apply ensure_mc_deg_created; [apply created_by_ensure_mc_empty|].
    eexists. by vm_compute. }
  assert (Py.float "193.32" = Some (S754_finite false 6801842812213002 (-45))) as Hf
    by (by vm_compute).
  split; [exact Hdev|]. split; [exact Hf|].
  exact (slot_overlaps_stored _ 1 "RX" "193.32" _ Hdev Hf).
Defined.

(** The distance of the centers does not decide the answer: with the media
    channel of center "193.334", stored as "193.28" to "193.38", the
    candidate "193.432" is at distance 0.098 of the center and yet
    [_slot_overlaps] is false, because its lower bound 193.382 is not below
    the stored upper bound. *)
Lemma slot_overlaps_center_distance_fails :
  ~ (forall dev degree direction freq_str f,
        created_by_ensure_mc dev degree direction ->
        Py.float freq_str = Some f ->
        _slot_overlaps dev degree direction freq_str = true
        <-> exists center fc,
              is_Some (interface dev !! mc_deg_name degree direction center)
              /\ Py.float center = Some fc
              /\ center_distance_lt f fc = true).
Proof.
  intros H.
  assert (exists f, Py.float "193.432" = Some f) as [f Hf] by (eexists; by vm_compute).
  assert (exists fc, Py.float "193.334" = Some fc) as [fc Hfc] by (eexists; by vm_compute).
  specialize (H (fst (ensure_mc_deg empty_device 1 "RX" "193.334")) 1 "RX" "193.432" f).
  destruct H as [_ H]; [|done|].
  { apply ensure_mc_deg_created; [apply created_by_ensure_mc_empty | eauto]. }
  assert (_slot_overlaps (fst (ensure_mc_deg empty_device 1 "RX" "193.334"))
            1 "RX" "193.432" = false) as Hno by (by vm_compute).
  rewrite Hno in H. discriminate H.
  exists "193.334", fc. split_and!; [eexists; by vm_compute | done |].
  vm_compute in Hf, Hfc. injection Hf as <-. injection Hfc as <-. by vm_compute.
Qed.

(** C2: the code against the claim where two slots touch.  The centers
    "193.3" and "193.4" are 1933 and 1934 tenths, 0.1 apart, so that the slot
    of the one ends where the slot of the other begins, and the claim has the
    answer false whichever of the two is the stored one.  [_slot_overlaps]
    answers true for the candidate "193.3" against the media channel that
    [ensure_mc_deg] created for "193.4", whose slot is stored as "193.35" to
    "193.45": in binary64 193.3 + 0.05 is 193.35000000000002, above the lower
    bound read back from the device.  The other way round it answers false.
    So build-connection refuses the channel at "193.3" next to the one at
    "193.4". *)
Theorem slot_overlaps_touching_slots :
  let at_193_4 := fst (ensure_mc_deg empty_device 1 "RX" "193.4") in
  let at_193_3 := fst (ensure_mc_deg empty_device 1 "RX" "193.3") in
  Py.parse_decimal "193.3" = Some ("1933", -1)
  /\ Py.parse_decimal "193.4" = Some ("1934", -1)
  /\ created_by_ensure_mc at_193_4 1 "RX"
  /\ (Intf.mc_ttp <$> interface at_193_4 !! "MC-TTP-DEG1-RX-193.4")
     = Some (Some (McTtp.mk (Some "193.35") (Some "193.45")))
  /\ _slot_overlaps at_193_4 1 "RX" "193.3" = true
  /\ _slot_overlaps at_193_3 1 "RX" "193.4" = false
  /\ snd (BuildConnection true (mkRoot [("D1", at_193_4)] (mkTopology ∅ ∅))
            (mkBuildInput "D1" "193.3" (Some 1) (Some 2) None))
     = Returned "Rejected: frequency slot 193.3 overlaps existing MC on DEG1 RX".
Proof.
  cbn zeta. split; [by vm_compute|]. split; [by vm_compute|].
  split.
  { apply ensure_mc_deg_created; [apply created_by_ensure_mc_empty|].
    eexists. by vm_compute. }
  split_and!; vm_compute; reflexivity.
Qed.

(** *** build-connection twice *)

Lemma insert_fresh_keeps dev if_name intf (k : string) i :
  has_interface dev if_name = false ->
  interface dev !! k = Some i ->
  <[if_name := intf]> (interface dev) !! k = Some i.
Proof.
  intros Hno Hk. rewrite lookup_insert_ne; [done|]. intros ->.
  apply bool_decide_eq_false in Hno. apply Hno. eauto.
Qed.

Lemma ensure_mc_deg_keeps dev degree direction freq_str (k : string) i :
  interface dev !! k = Some i ->
  interface (fst (ensure_mc_deg dev degree direction freq_str)) !! k = Some i.
Proof.
  intros Hk. unfold ensure_mc_deg.
  destruct (has_interface dev _) eqn:Hno; [done|].
  destruct (Py.float freq_str); cbn; by apply insert_fresh_keeps.
Qed.

Lemma ensure_nmc_deg_keeps dev degree direction freq_str (k : string) i :
  interface dev !! k = Some i ->
  interface (fst (ensure_nmc_deg dev degree direction freq_str)) !! k = Some i.
Proof.
  intros Hk. unfold ensure_nmc_deg.
  destruct (has_interface dev _) eqn:Hno; [done|]. cbn. by apply insert_fresh_keeps.
Qed.

Lemma ensure_nmc_srg_pp_keeps dev pp direction freq_str (k : string) i :
  interface dev !! k = Some i ->
  interface (fst (ensure_nmc_srg_pp dev pp direction freq_str)) !! k = Some i.
Proof.
  intros Hk. unfold ensure_nmc_srg_pp.
  destruct (has_interface dev _) eqn:Hno; [done|]. cbn. by apply insert_fresh_keeps.
Qed.

Lemma build_on_device_keeps has_top dev src_deg dst freq_str dev' cn (k : string) i :
  build_on_device has_top dev src_deg dst freq_str = Some (dev', cn) ->
  interface (fst (ensure_mc_deg dev src_deg "RX" freq_str)) !! k = Some i ->
  interface dev' !! k = Some i.
Proof.
  unfold build_on_device.
  destruct (ensure_mc_deg dev src_deg "RX" freq_str) as [d1 r1]. cbn [fst].
  destruct r1 as [n1|]; [|done]. cbn [mbind option_bind].
  pose proof (ensure_nmc_deg_keeps d1 src_deg "RX" freq_str k i) as H2.
  destruct (ensure_nmc_deg d1 src_deg "RX" freq_str) as [d2 r2]. cbn [fst] in H2.
  destruct r2 as [n2|]; [|done]. cbn [mbind option_bind].
  destruct dst as [dst_deg | dst_pp].
  - pose proof (ensure_mc_deg_keeps d2 dst_deg "TX" freq_str k i) as H3.
    destruct (ensure_mc_deg d2 dst_deg "TX" freq_str) as [d3 r3]. cbn [fst] in H3.
    destruct r3 as [n3|]; [|done]. cbn [mbind option_bind].
    pose proof (ensure_nmc_deg_keeps d3 dst_deg "TX" freq_str k i) as H4.
    destruct (ensure_nmc_deg d3 dst_deg "TX" freq_str) as [d4 r4]. cbn [fst] in H4.
    destruct r4 as [n4|]; [|done]. cbn. intros [= <- <-] H1. cbn. auto.
  - pose proof (ensure_nmc_srg_pp_keeps d2 dst_pp "TX" freq_str k i) as H3.
    destruct (ensure_nmc_srg_pp d2 dst_pp "TX" freq_str) as [d3 r3]. cbn [fst] in H3.
    destruct r3 as [n3|]; [|done]. cbn. intros [= <- <-] H1. cbn. auto.
Qed.

Lemma ensure_mc_deg_creates dev degree direction freq_str f :
  has_interface dev (mc_deg_name degree direction freq_str) = false ->
  Py.float freq_str = Some f ->
  interface (fst (ensure_mc_deg dev degree direction freq_str))
    !! mc_deg_name degree direction freq_str
  = Some (mc_deg_intf degree direction f).
Proof.
  intros Hno Hf. unfold ensure_mc_deg. rewrite Hno, Hf. cbn.
  by rewrite lookup_insert_eq.
Qed.

Lemma built_slot_overlaps has_top dev src_deg dst freq_str dev' cn :
  has_interface dev (mc_deg_name src_deg "RX" freq_str) = false ->
  slot_self_overlaps freq_str = true ->
  build_on_device has_top dev src_deg dst freq_str = Some (dev', cn) ->
  _slot_overlaps dev' src_deg "RX" freq_str = true.
Proof.
  intros Hno Hself Hbuild. unfold slot_self_overlaps in Hself.
  destruct (Py.float freq_str) as [f|] eqn:Hf; [|done].
  apply (slot_overlaps_exists _ _ _ _ _ Hf).
  exists (mc_deg_name src_deg "RX" freq_str), (mc_deg_intf src_deg "RX" f). split.
  - eapply build_on_device_keeps; [done|]. by apply ensure_mc_deg_creates.
  - by rewrite slot_hit_created.
Qed.

Lemma overlap_check_message root device_name freq_str src_deg dst msg c :
  overlap_check root device_name freq_str src_deg dst = Some msg ->
  msg <> "Connection " +:+ c.
Proof.
  unfold overlap_check, rejected_msg.
  destruct (lookup_device device_name (devices root)); [|done].
  destruct (_slot_overlaps _ src_deg "RX" freq_str); [by intros [= <-]|].
  destruct dst; [|done].
  destruct (_slot_overlaps _ _ "TX" freq_str); [by intros [= <-]|done].
Qed.

Lemma build_checked_twice has_top root device_name freq_str src_deg dst dev c root' :
  lookup_device device_name (devices root) = Some dev ->
  has_interface dev (mc_deg_name src_deg "RX" freq_str) = false ->
  slot_self_overlaps freq_str = true ->
  build_checked has_top root device_name freq_str src_deg dst
  = (root', Returned ("Connection " +:+ c +:+ " created on " +:+ device_name)) ->
  build_checked has_top root' device_name freq_str src_deg dst
  = (root', Returned (rejected_msg freq_str src_deg "RX")).
Proof.
  intros Hdev Hno Hself. unfold build_checked at 1.
  destruct (overlap_check root device_name freq_str src_deg dst) as [msg|] eqn:Hov.
  { intros [= _ ->].
    by apply (overlap_check_message _ _ _ _ _ _
                (c +:+ " created on " +:+ device_name)) in Hov. }
  rewrite Hdev.
  destruct (build_on_device has_top dev src_deg dst freq_str) as [[dev' cn]|] eqn:Hb;
    [|done].
  intros [= <- _]. unfold build_checked, overlap_check. cbn [devices].
  rewrite (lookup_store_device _ _ _ _ Hdev).
  by rewrite (built_slot_overlaps _ _ _ _ _ _ _ Hno Hself Hb).
Qed.

(** C9, as amended: when a build succeeds on a device that had no interface
    of the name of the source media channel (so that this invocation creates
    it), and the candidate slot meets the slot stored for that same frequency
    (written with two decimals and read back), the same build invoked again
    on the resulting store is rejected with the slot-conflict message of the
    source side, and the store stays as it is. *)
Theorem build_twice_rejected has_top root input src_deg dev c root' :
  src_degree input = Some src_deg ->
  lookup_device (in_device input) (devices root) = Some dev ->
  has_interface dev (mc_deg_name src_deg "RX" (in_frequency input)) = false ->
  slot_self_overlaps (in_frequency input) = true ->
  BuildConnection has_top root input
  = (root', Returned ("Connection " +:+ c +:+ " created on " +:+ in_device input)) ->
  BuildConnection has_top root' input
  = (root', Returned (rejected_msg (in_frequency input) src_deg "RX")).
Proof.
  intros Hsrc Hdev Hno Hself. unfold BuildConnection. rewrite Hsrc.
  destruct (dst_degree input) as [d|], (dst_pp input) as [p|]; try done;
    by apply build_checked_twice with dev.
Qed.

Lemma build_twice_rejected_witness :
  let root := mkRoot [("D1", empty_device)] (mkTopology ∅ ∅) in
  let input := mkBuildInput "D1" "193.3" (Some 1) (Some 2) None in
  let root' := mkRoot [("D1", built_1_2 true None [])] (mkTopology ∅ ∅) in
  src_degree input = Some 1
  /\ lookup_device (in_device input) (devices root) = Some empty_device
  /\ has_interface empty_device (mc_deg_name 1 "RX" (in_frequency input)) = false
  /\ slot_self_overlaps (in_frequency input) = true
  /\ BuildConnection true root input
     = (root', Returned ("Connection " +:+ "DEG1-RX-to-DEG2-TX-193.3"
                           +:+ " created on " +:+ in_device input))
  /\ BuildConnection true root' input
     = (root', Returned (rejected_msg (in_frequency input) 1 "RX")).
Proof.
  cbn zeta.
  assert (BuildConnection true (mkRoot [("D1", empty_device)] (mkTopology ∅ ∅))
            (mkBuildInput "D1" "193.3" (Some 1) (Some 2) None)
          = (mkRoot [("D1", built_1_2 true None [])] (mkTopology ∅ ∅),
             Returned ("Connection " +:+ "DEG1-RX-to-DEG2-TX-193.3"
                         +:+ " created on " +:+ "D1"))) as Hfirst
    by (by vm_compute).
  split; [reflexivity|]. split; [reflexivity|]. split; [by vm_compute|].
  split; [by vm_compute|]. split; [exact Hfirst|].
  apply (build_twice_rejected true
           (mkRoot [("D1", empty_device)] (mkTopology ∅ ∅))
           (mkBuildInput "D1" "193.3" (Some 1) (Some 2) None)
           1 empty_device "DEG1-RX-to-DEG2-TX-193.3");
    [reflexivity | reflexivity | by vm_compute | by vm_compute | exact Hfirst].
Defined.

(** C9 as first stated fails.  With the frequency "1e17" the slot stored by
    the first build is "100000000000000000.00" on both sides, the candidate
    interval does not meet it, and the second build succeeds like the first. *)
Lemma build_twice_not_always_rejected :
  ~ (forall has_top root input root' c,
        BuildConnection has_top root input
        = (root', Returned ("Connection " +:+ c +:+ " created on " +:+ in_device input)) ->
        exists msg,
          BuildConnection has_top root' input = (root', Returned msg)
          /\ Py.startswith msg "Rejected: " = true).
Proof.
  intros H.
  destruct (H true (mkRoot [("D1", empty_device)] (mkTopology ∅ ∅))
              (mkBuildInput "D1" "1e17" (Some 1) (Some 2) None)
              (fst (BuildConnection true (mkRoot [("D1", empty_device)] (mkTopology ∅ ∅))
                      (mkBuildInput "D1" "1e17" (Some 1) (Some 2) None)))
              "DEG1-RX-to-DEG2-TX-1e17")
    as (msg & Hsecond & Hrej); [by vm_compute|].
  vm_compute in Hsecond. injection Hsecond as <-. vm_compute in Hrej. discriminate Hrej.
Qed.

(** On a device that already has an interface of the name of the source media
    channel, without a slot, a build towards a port pair succeeds twice as
    well: the first invocation creates no media channel, and nothing is there
    for the second one to overlap. *)
Example build_twice_on_existing_interface :
  let dev := set_interface empty_device {["MC-TTP-DEG1-RX-193.3" := Intf.new]} in
  let root := mkRoot [("D1", dev)] (mkTopology ∅ ∅) in
  let input := mkBuildInput "D1" "193.3" (Some 1) None (Some 3) in
  let first := BuildConnection true root input in
  snd first = Returned "Connection DEG1-RX-to-SRG1-PP03-TX-193.3 created on D1"
  /\ BuildConnection true (fst first) input = first.
Proof. cbn zeta. split; by vm_compute. Qed.

(** *** A stored slot always reads back *)

Lemma span_digits_append d r :
  all_chars Py.is_digit d = true ->
  Py.span_digits (d +:+ String "." r) = (d, String "." r).
Proof.
  induction d as [|c d IH]; cbn; [done|].
  intros [Hc Hd]%andb_true_iff. by rewrite Hc, (IH Hd).
Qed.

Lemma is_decimal_point ip fp :
  all_chars Py.is_digit ip = true -> ip <> "" -> all_chars Py.is_digit fp = true ->
  is_decimal (ip +:+ String "." fp) = true.
Proof.
  intros Hip Hne Hfp. unfold is_decimal.
  rewrite span_digits_append, span_digits_all by done. by destruct ip.
Qed.

Lemma float_minus_decimal d :
  is_decimal d = true -> is_Some (Py.float (String "-" d)).
Proof.
  intros Hd.
  destruct (is_decimal_shape d Hd) as (ip & fp & Hip & Hne & Hfp & Hshape & Hpd).
  assert (all_chars digit_or_dot d = true) as Hall.
  { destruct Hshape as [-> | ->].
    - eapply all_chars_impl, Hip. intros c Hc. unfold digit_or_dot. by rewrite Hc.
    - rewrite all_chars_app. cbn.
      rewrite (all_chars_impl Py.is_digit digit_or_dot ip),
              (all_chars_impl Py.is_digit digit_or_dot fp); try done;
        intros c Hc; unfold digit_or_dot; by rewrite Hc. }
  assert (exists c r, d = String c r /\ Py.is_digit c = true) as (c & r & Hcr & Hc).
  { destruct ip as [|c ip]; [done|]. cbn in Hip. apply andb_true_iff in Hip as [Hc _].
    destruct Hshape as [-> | ->]; eauto. }
  assert (is_Some (Py.digits_value (ip +:+ fp))) as [n Hn].
  { apply digits_value_is_Some.
    - by rewrite all_chars_app, Hip, Hfp.
    - by destruct ip. }
  unfold Py.float. rewrite strip_id.
  2:{ cbn. eapply all_chars_impl, Hall. intros x. unfold digit_or_dot.
      intros [Hx | Hx]%orb_true_iff; [by apply digit_not_space|].
      apply Ascii.eqb_eq in Hx. by subst x. }
  rewrite drop_underscores_id; [|done|].
  2:{ cbn. eapply all_chars_impl, Hall. intros x. unfold digit_or_dot.
      intros [Hx | Hx]%orb_true_iff; [by apply digit_not_underscore|].
      apply Ascii.eqb_eq in Hx. by subst x. }
  cbn [mbind option_bind Py.split_sign]. subst d.
  change (Py.split_sign (String "-" (String c r))) with (true, String c r).
  cbn iota beta.
  destruct (digit_not_infnan c r Hc) as [-> ->].
  rewrite Hpd, Hn. cbn. rewrite Hn. cbn. eauto.
Qed.

Lemma cents_nonneg m e : 0 <= Py.cents m e.
Proof.
  unfold Py.cents. destruct (0 <=? e) eqn:He.
  - apply Z.leb_le in He. apply Z.mul_nonneg_nonneg; [|lia].
    apply Z.mul_nonneg_nonneg; [lia|]. by apply Z.pow_nonneg.
  - assert (0 < 2 ^ (- e)) as Hden by (apply Z.pow_pos_nonneg; lia).
    assert (0 <= Z.pos m * 100 / 2 ^ (- e)) as Hq by (apply Z.div_pos; lia).
    repeat case_match; lia.
Qed.

(** What [ensure_mc_deg] writes into a slot is text that [float] accepts. *)
Lemma float_fmt_2f x : is_Some (Py.float (Py.fmt_2f x)).
Proof.
  destruct x as [s | s | | s m e];
    [destruct s; eexists; by vm_compute | destruct s; eexists; by vm_compute
    | eexists; by vm_compute |].
  unfold Py.fmt_2f. pose proof (cents_nonneg m e) as Hc.
  set (c := Py.cents m e) in *.
  assert (0 <= c / 100) as Hq by (apply Z.div_pos; lia).
  assert (0 <= c mod 100 < 100) as Hr by (apply Z.mod_pos_bound; lia).
  destruct (str_int_nonneg _ Hq) as (Hd1 & Hne1 & _).
  assert (all_chars Py.is_digit (Py.two_digits (c mod 100)) = true) as Hd2.
  { unfold Py.two_digits. rewrite all_chars_app.
    destruct (str_int_nonneg ((c mod 100) / 10)) as (-> & _ & _);
      [apply Z.div_pos; lia|].
    destruct (str_int_nonneg ((c mod 100) mod 10)) as (-> & _ & _);
      [apply Z.mod_pos_bound; lia | done]. }
  pose proof (is_decimal_point _ _ Hd1 Hne1 Hd2) as Hdec.
  destruct s.
  - apply (float_minus_decimal _ Hdec).
  - by apply decimal_token.
Qed.

(** *** Two more runs of build-connection *)

(** A build towards a port pair: the media channel and its network media
    channel on degree 1, the network media channel of SRG1-PP03, and the
    connection between the two network media channels. *)
Example build_degree_to_port :
  let root := mkRoot [("D1", empty_device)] (mkTopology ∅ ∅) in
  let run := BuildConnection true root
               (mkBuildInput "D1" "195.0" (Some 1) None (Some 3)) in
  snd run = Returned "Connection DEG1-RX-to-SRG1-PP03-TX-195.0 created on D1"
  /\ (dom <$> (interface <$> lookup_device "D1" (devices (fst run))))
     = Some ({["MC-TTP-DEG1-RX-195.0"; "NMC-CTP-DEG1-RX-195.0"; "SRG1-PP03-TX-195.0"]}
              : gset string)
  /\ (roadm_connections <$> lookup_device "D1" (devices (fst run)))
     = Some {["DEG1-RX-to-SRG1-PP03-TX-195.0" :=
                Conn.mk (Some "NMC-CTP-DEG1-RX-195.0") (Some "SRG1-PP03-TX-195.0")
                  (Some "off") (Some (S754_zero false))]}.
Proof. cbn zeta. split_and!; vm_compute; reflexivity. Qed.

(** After the build at "193.3", a build from degree 1 at "193.32" is rejected
    and the store stays as it is. *)
Example build_conflict_rejected :
  let root := mkRoot [("D1", built_1_2 true None [])] (mkTopology ∅ ∅) in
  BuildConnection true root (mkBuildInput "D1" "193.32" (Some 1) (Some 3) None)
  = (root, Returned "Rejected: frequency slot 193.32 overlaps existing MC on DEG1 RX").
Proof. by vm_compute. Qed.

(** ** Frames, failures, round trips and the cache *)

(** *** The provisioner only adds *)

Lemma set_interface_frame dev ifs :
  roadm_connections (set_interface dev ifs) = roadm_connections dev
  /\ address (set_interface dev ifs) = address dev
  /\ circuit_packs (set_interface dev ifs) = circuit_packs dev.
Proof. done. Qed.

Lemma ensure_mc_deg_frame dev degree direction freq_str :
  let dev' := fst (ensure_mc_deg dev degree direction freq_str) in
  roadm_connections dev' = roadm_connections dev
  /\ address dev' = address dev
  /\ circuit_packs dev' = circuit_packs dev
  /\ forall k, k <> mc_deg_name degree direction freq_str ->
               interface dev' !! k = interface dev !! k.
Proof.
  cbn zeta. unfold ensure_mc_deg.
  destruct (has_interface dev _); [done|].
  destruct (Py.float freq_str); cbn; split_and!; try done;
    intros k Hk; by rewrite lookup_insert_ne.
Qed.

Lemma ensure_nmc_deg_frame dev degree direction freq_str :
  let dev' := fst (ensure_nmc_deg dev degree direction freq_str) in
  roadm_connections dev' = roadm_connections dev
  /\ address dev' = address dev
  /\ circuit_packs dev' = circuit_packs dev
  /\ forall k, k <> nmc_deg_name degree direction freq_str ->
               interface dev' !! k = interface dev !! k.
Proof.
  cbn zeta. unfold ensure_nmc_deg.
  destruct (has_interface dev _); [done|]. cbn. split_and!; try done.
  intros k Hk. by rewrite lookup_insert_ne.
Qed.

Lemma ensure_nmc_srg_pp_frame dev pp direction freq_str :
  let dev' := fst (ensure_nmc_srg_pp dev pp direction freq_str) in
  roadm_connections dev' = roadm_connections dev
  /\ address dev' = address dev
  /\ circuit_packs dev' = circuit_packs dev
  /\ forall k, k <> nmc_srg_pp_name pp direction freq_str ->
               interface dev' !! k = interface dev !! k.
Proof.
  cbn zeta. unfold ensure_nmc_srg_pp.
  destruct (has_interface dev _); [done|]. cbn. split_and!; try done.
  intros k Hk. by rewrite lookup_insert_ne.
Qed.

(** X1: none of the three "ensure" operations touches the connections, the
    address or the circuit packs of the device, changes an interface that
    exists, or writes an interface under another name than the one it
    returns; this holds as well when [ensure_mc_deg] raises. *)
Theorem ensure_only_adds dev n direction freq_str :
  (let dev' := fst (ensure_mc_deg dev n direction freq_str) in
   roadm_connections dev' = roadm_connections dev
   /\ address dev' = address dev /\ circuit_packs dev' = circuit_packs dev
   /\ (forall k i, interface dev !! k = Some i -> interface dev' !! k = Some i)
   /\ (forall k, k <> mc_deg_name n direction freq_str ->
                 interface dev' !! k = interface dev !! k))
  /\ (let dev' := fst (ensure_nmc_deg dev n direction freq_str) in
      roadm_connections dev' = roadm_connections dev
      /\ address dev' = address dev /\ circuit_packs dev' = circuit_packs dev
      /\ (forall k i, interface dev !! k = Some i -> interface dev' !! k = Some i)
      /\ (forall k, k <> nmc_deg_name n direction freq_str ->
                    interface dev' !! k = interface dev !! k))
  /\ (let dev' := fst (ensure_nmc_srg_pp dev n direction freq_str) in
      roadm_connections dev' = roadm_connections dev
      /\ address dev' = address dev /\ circuit_packs dev' = circuit_packs dev
      /\ (forall k i, interface dev !! k = Some i -> interface dev' !! k = Some i)
      /\ (forall k, k <> nmc_srg_pp_name n direction freq_str ->
                    interface dev' !! k = interface dev !! k)).
Proof.
  cbn zeta. split_and!;
    try apply ensure_mc_deg_frame; try apply ensure_nmc_deg_frame;
    try apply ensure_nmc_srg_pp_frame.
  - intros k i. apply ensure_mc_deg_keeps.
  - intros k i. apply ensure_nmc_deg_keeps.
  - intros k i. apply ensure_nmc_srg_pp_keeps.
Qed.

Lemma lookup_ensure_key_eq k v (m : gmap string Intf.t) :
  ensure_key k v m !! k = Some (default v (m !! k)).
Proof.
  unfold ensure_key. destruct (m !! k) eqn:E; [done|]. cbn. apply lookup_insert_eq.
Qed.

Lemma lookup_ensure_key_ne k v (m : gmap string Intf.t) j :
  j <> k -> ensure_key k v m !! j = m !! j.
Proof.
  intros Hne. unfold ensure_key. destruct (m !! k); [done|]. by rewrite lookup_insert_ne.
Qed.

Lemma lookup_ensure_key_keeps k v (m : gmap string Intf.t) j i :
  m !! j = Some i -> ensure_key k v m !! j = Some i.
Proof.
  intros Hj. unfold ensure_key. destruct (m !! k) eqn:E; [done|].
  rewrite lookup_insert_ne; [done|]. congruence.
Qed.

Lemma set_interface_same dev : set_interface dev (interface dev) = dev.
Proof. by destruct dev. Qed.

Lemma has_interface_lookup dev k :
  has_interface dev k = match interface dev !! k with Some _ => true | None => false end.
Proof.
  unfold has_interface. destruct (interface dev !! k) eqn:E.
  - apply bool_decide_eq_true. eauto.
  - apply bool_decide_eq_false. by intros [? ?].
Qed.

Lemma ensure_nmc_deg_eq dev degree direction freq_str :
  ensure_nmc_deg dev degree direction freq_str
  = (set_interface dev
       (ensure_key (nmc_deg_name degree direction freq_str)
          (nmc_deg_intf degree direction freq_str) (interface dev)),
     Some (nmc_deg_name degree direction freq_str)).
Proof.
  unfold ensure_nmc_deg, ensure_key. rewrite has_interface_lookup.
  destruct (interface dev !! _); [|done]. by rewrite set_interface_same.
Qed.

Lemma ensure_nmc_srg_pp_eq dev pp direction freq_str :
  ensure_nmc_srg_pp dev pp direction freq_str
  = (set_interface dev
       (ensure_key (nmc_srg_pp_name pp direction freq_str)
          (nmc_srg_pp_intf pp direction freq_str) (interface dev)),
     Some (nmc_srg_pp_name pp direction freq_str)).
Proof.
  unfold ensure_nmc_srg_pp, ensure_key. rewrite has_interface_lookup.
  destruct (interface dev !! _); [|done]. by rewrite set_interface_same.
Qed.

(** When [ensure_mc_deg] returns, it has written the interface of the
    center frequency, if any was to be written. *)
Lemma ensure_mc_deg_eq dev degree direction freq_str dev' r :
  ensure_mc_deg dev degree direction freq_str = (dev', Some r) ->
  r = mc_deg_name degree direction freq_str
  /\ exists v,
       (forall f, Py.float freq_str = Some f -> v = mc_deg_intf degree direction f)
       /\ (interface dev !! mc_deg_name degree direction freq_str = None ->
           is_Some (Py.float freq_str))
       /\ dev' = set_interface dev
                   (ensure_key (mc_deg_name degree direction freq_str) v
                      (interface dev)).
Proof.
  unfold ensure_mc_deg, ensure_key. rewrite has_interface_lookup.
  destruct (interface dev !! _) eqn:E.
  - intros [= <- <-]. split; [done|].
    exists (default Intf.new (mc_deg_intf degree direction <$> Py.float freq_str)).
    split_and!; [by intros f -> | done | by rewrite set_interface_same].
  - destruct (Py.float freq_str) as [f|] eqn:Hf; [|done].
    intros [= <- <-]. split; [done|]. exists (mc_deg_intf degree direction f).
    split_and!; [by intros ? [= <-] | eauto | done].
Qed.

Lemma build_names_src src_deg dst freq_str :
  mc_deg_name src_deg "RX" freq_str ∈ build_names src_deg dst freq_str
  /\ nmc_deg_name src_deg "RX" freq_str ∈ build_names src_deg dst freq_str
  /\ dst_if_name_of dst freq_str ∈ build_names src_deg dst freq_str.
Proof. unfold build_names. destruct dst; cbn; set_solver. Qed.

Lemma build_on_device_eq has_top dev src_deg dst freq_str dev' cn :
  build_on_device has_top dev src_deg dst freq_str = Some (dev', cn) ->
  cn = conn_name_of src_deg dst freq_str
  /\ exists v1 v3,
       (forall f, Py.float freq_str = Some f ->
                  v1 = mc_deg_intf src_deg "RX" f
                  /\ forall d, dst = ToDegree d -> v3 = mc_deg_intf d "TX" f)
       /\ (interface dev !! mc_deg_name src_deg "RX" freq_str = None ->
           is_Some (Py.float freq_str))
       /\ dev' = mkDevice (address dev) (circuit_packs dev)
                   (built_interfaces v1 v3 src_deg dst freq_str (interface dev))
                   (<[cn := write_connection has_top
                              (default Conn.new (roadm_connections dev !! cn))
                              (nmc_deg_name src_deg "RX" freq_str)
                              (dst_if_name_of dst freq_str)]>
                      (roadm_connections dev)).
Proof.
  unfold build_on_device.
  destruct (ensure_mc_deg dev src_deg "RX" freq_str) as [d1 [r1|]] eqn:E1; [|done].
  apply ensure_mc_deg_eq in E1 as (-> & v1 & Hv1 & Hf1 & ->).
  cbn [mbind option_bind]. rewrite ensure_nmc_deg_eq. cbn [mbind option_bind].
  destruct dst as [dst_deg | pp].
  - destruct (ensure_mc_deg _ dst_deg "TX" freq_str) as [d3 [r3|]] eqn:E3; [|done].
    apply ensure_mc_deg_eq in E3 as (-> & v3 & Hv3 & _ & ->).
    cbn [mbind option_bind]. rewrite ensure_nmc_deg_eq. cbn.
    intros [= <- <-]. split; [done|]. exists v1, v3. split_and!; [|done|done].
    intros f Hf. split; [by apply Hv1|]. intros d [= <-]. by apply Hv3.
  - rewrite ensure_nmc_srg_pp_eq. cbn.
    intros [= <- <-]. split; [done|]. exists v1, v1. split_and!; [|done|done].
    intros f Hf. split; [by apply Hv1|]. by intros d [=].
Qed.

Lemma built_interfaces_keeps v1 v3 src_deg dst freq_str ifs k i :
  ifs !! k = Some i -> built_interfaces v1 v3 src_deg dst freq_str ifs !! k = Some i.
Proof.
  intros Hk. unfold built_interfaces. destruct dst;
    repeat apply lookup_ensure_key_keeps; done.
Qed.

Lemma built_interfaces_other v1 v3 src_deg dst freq_str ifs k :
  k ∉ build_names src_deg dst freq_str ->
  built_interfaces v1 v3 src_deg dst freq_str ifs !! k = ifs !! k.
Proof.
  intros Hk. unfold built_interfaces, build_names in *. destruct dst; cbn in Hk;
    rewrite !lookup_ensure_key_ne; set_solver.
Qed.

Lemma built_interfaces_names v1 v3 src_deg dst freq_str ifs k :
  k ∈ build_names src_deg dst freq_str ->
  is_Some (built_interfaces v1 v3 src_deg dst freq_str ifs !! k).
Proof.
  unfold built_interfaces, build_names. destruct dst; cbn;
    rewrite ?elem_of_cons, elem_of_nil; intros Hk; destruct_or!; try done; subst k.
  all: try (rewrite lookup_ensure_key_eq; eauto; fail).
  all: try (erewrite lookup_ensure_key_keeps; [eauto|];
            rewrite lookup_ensure_key_eq; eauto; fail).
  all: try (erewrite lookup_ensure_key_keeps; [eauto|];
            erewrite lookup_ensure_key_keeps; [eauto|];
            rewrite lookup_ensure_key_eq; eauto; fail).
  all: (erewrite lookup_ensure_key_keeps; [eauto|];
        erewrite lookup_ensure_key_keeps; [eauto|];
        erewrite lookup_ensure_key_keeps; [eauto|];
        rewrite lookup_ensure_key_eq; eauto).
Qed.

Lemma string_length_append (a b : string) :
  String.length (a +:+ b) = (String.length a + String.length b)%nat.
Proof. induction a as [|x a IH]; [done|]. cbn. by rewrite IH. Qed.

Lemma append_inj_r (a b s : string) : a +:+ s = b +:+ s -> a = b.
Proof.
  revert b. induction a as [|x a IH]; intros [|y b] H; [done| | |].
  - apply (f_equal String.length) in H. cbn in H.
    rewrite string_length_append in H. lia.
  - apply (f_equal String.length) in H. cbn in H.
    rewrite string_length_append in H. lia.
  - cbn in H. injection H as -> H. f_equal. by apply IH.
Qed.

Lemma build_checked_created has_top root device_name freq_str src_deg dst root' c :
  build_checked has_top root device_name freq_str src_deg dst
  = (root', Returned ("Connection " +:+ c +:+ " created on " +:+ device_name)) ->
  exists dev dev',
    lookup_device device_name (devices root) = Some dev
    /\ build_on_device has_top dev src_deg dst freq_str = Some (dev', c)
    /\ root' = mkRoot (store_device device_name dev' (devices root)) (topology root).
Proof.
  unfold build_checked.
  destruct (overlap_check root device_name freq_str src_deg dst) as [msg|] eqn:Hov.
  { intros [= _ ->].
    by apply (overlap_check_message _ _ _ _ _ _
                (c +:+ " created on " +:+ device_name)) in Hov. }
  destruct (lookup_device device_name (devices root)) as [dev|]; [|done].
  destruct (build_on_device has_top dev src_deg dst freq_str) as [[dev' cn]|] eqn:Hb;
    [|done].
  intros [= <- Hmsg]. apply append_inj_r in Hmsg.
  subst cn. eauto.
Qed.

Lemma build_created has_top root input root' c :
  BuildConnection has_top root input
  = (root', Returned ("Connection " +:+ c +:+ " created on " +:+ in_device input)) ->
  exists src_deg dst dev dev',
    src_degree input = Some src_deg
    /\ destination_of input = Some dst
    /\ lookup_device (in_device input) (devices root) = Some dev
    /\ build_on_device has_top dev src_deg dst (in_frequency input) = Some (dev', c)
    /\ root' = mkRoot (store_device (in_device input) dev' (devices root))
                 (topology root).
Proof.
  unfold BuildConnection, destination_of.
  destruct (src_degree input) as [src_deg|]; [|done].
  destruct (dst_degree input) as [d|], (dst_pp input) as [p|]; try done;
    intros (dev & dev' & ? & ? & ?)%build_checked_created;
    eexists src_deg, _, dev, dev'; eauto.
Qed.

(** X2: whenever build-connection reports a created connection, the store
    differs only at the named device; that device keeps its address, its
    circuit packs and every interface it had, unchanged; the interfaces of the
    build (the media channel and network media channel of the source, and
    those of the destination) all exist afterwards and no other name has been
    written; the connection of the reported name goes from the source network
    media channel to the destination one, both existing, with control mode
    "off"; and every other connection is as it was. *)
Theorem build_postcondition has_top root input root' c :
  BuildConnection has_top root input
  = (root', Returned ("Connection " +:+ c +:+ " created on " +:+ in_device input)) ->
  exists src_deg dst dev dev',
    src_degree input = Some src_deg
    /\ destination_of input = Some dst
    /\ c = conn_name_of src_deg dst (in_frequency input)
    /\ lookup_device (in_device input) (devices root) = Some dev
    /\ lookup_device (in_device input) (devices root') = Some dev'
    /\ topology root' = topology root
    /\ (forall n, n <> in_device input ->
                  lookup_device n (devices root') = lookup_device n (devices root))
    /\ address dev' = address dev
    /\ circuit_packs dev' = circuit_packs dev
    /\ (forall k i, interface dev !! k = Some i -> interface dev' !! k = Some i)
    /\ (forall k, k ∉ build_names src_deg dst (in_frequency input) ->
                  interface dev' !! k = interface dev !! k)
    /\ (forall k, k ∈ build_names src_deg dst (in_frequency input) ->
                  is_Some (interface dev' !! k))
    /\ (exists conn,
          roadm_connections dev' !! c = Some conn
          /\ Conn.src_if conn = Some (nmc_deg_name src_deg "RX" (in_frequency input))
          /\ Conn.dst_if conn = Some (dst_if_name_of dst (in_frequency input))
          /\ Conn.opticalControlMode conn = Some "off"
          /\ is_Some (interface dev'
                        !! nmc_deg_name src_deg "RX" (in_frequency input))
          /\ is_Some (interface dev' !! dst_if_name_of dst (in_frequency input)))
    /\ (forall k, k <> c -> roadm_connections dev' !! k = roadm_connections dev !! k).
Proof.
  intros (src_deg & dst & dev & dev' & Hsrc & Hdst & Hdev & Hb & ->)%build_created.
  apply build_on_device_eq in Hb as (-> & v1 & v3 & _ & _ & Hdev').
  destruct (build_names_src src_deg dst (in_frequency input)) as (_ & Hn2 & Hn3).
  exists src_deg, dst, dev, dev'. subst dev'. split_and!; try done.
  - cbn [devices]. by apply lookup_store_device with dev.
  - intros n Hn. cbn [devices]. by apply lookup_store_device_ne.
  - cbn. intros k i. apply built_interfaces_keeps.
  - cbn. intros k. apply built_interfaces_other.
  - cbn. intros k. apply built_interfaces_names.
  - eexists. cbn [roadm_connections interface]. rewrite lookup_insert_eq.
    split_and!; try done; by apply built_interfaces_names.
  - intros k Hk. cbn. by rewrite lookup_insert_ne.
Qed.

Lemma build_postcondition_witness :
  let root := mkRoot [("D1", empty_device)] (mkTopology ∅ ∅) in
  let input := mkBuildInput "D1" "195.0" (Some 1) None (Some 3) in
  let root' := fst (BuildConnection false root input) in
  let c := "DEG1-RX-to-SRG1-PP03-TX-195.0" in
  BuildConnection false root input
  = (root', Returned ("Connection " +:+ c +:+ " created on " +:+ in_device input))
  /\ exists src_deg dst dev dev',
       src_degree input = Some src_deg
       /\ destination_of input = Some dst
       /\ c = conn_name_of src_deg dst (in_frequency input)
       /\ lookup_device (in_device input) (devices root) = Some dev
       /\ lookup_device (in_device input) (devices root') = Some dev'
       /\ topology root' = topology root
       /\ (forall n, n <> in_device input ->
                     lookup_device n (devices root') = lookup_device n (devices root))
       /\ address dev' = address dev
       /\ circuit_packs dev' = circuit_packs dev
       /\ (forall k i, interface dev !! k = Some i -> interface dev' !! k = Some i)
       /\ (forall k, k ∉ build_names src_deg dst (in_frequency input) ->
                     interface dev' !! k = interface dev !! k)
       /\ (forall k, k ∈ build_names src_deg dst (in_frequency input) ->
                     is_Some (interface dev' !! k))
       /\ (exists conn,
             roadm_connections dev' !! c = Some conn
             /\ Conn.src_if conn
                = Some (nmc_deg_name src_deg "RX" (in_frequency input))
             /\ Conn.dst_if conn = Some (dst_if_name_of dst (in_frequency input))
             /\ Conn.opticalControlMode conn = Some "off"
             /\ is_Some (interface dev'
                           !! nmc_deg_name src_deg "RX" (in_frequency input))
             /\ is_Some (interface dev' !! dst_if_name_of dst (in_frequency input)))
       /\ (forall k, k <> c ->
                     roadm_connections dev' !! k = roadm_connections dev !! k).
Proof.
  cbn zeta.
  assert (BuildConnection false (mkRoot [("D1", empty_device)] (mkTopology ∅ ∅))
            (mkBuildInput "D1" "195.0" (Some 1) None (Some 3))
          = (fst (BuildConnection false
                    (mkRoot [("D1", empty_device)] (mkTopology ∅ ∅))
                    (mkBuildInput "D1" "195.0" (Some 1) None (Some 3))),
             Returned ("Connection " +:+ "DEG1-RX-to-SRG1-PP03-TX-195.0"
                         +:+ " created on "
                         +:+ in_device (mkBuildInput "D1" "195.0" (Some 1) None (Some 3)))))
    as Hrun by (by vm_compute).
  split; [exact Hrun|].
  exact (build_postcondition false _ _ _ _ Hrun).
Defined.

Lemma append_same_length (a b x y : string) :
  String.length a = String.length b -> a +:+ x = b +:+ y -> a = b /\ x = y.
Proof.
  revert b. induction a as [|c a IH]; intros [|d b] Hlen H; try done.
  cbn in Hlen, H. injection H as -> H. injection Hlen as Hlen.
  destruct (IH b Hlen H) as [-> ->]. done.
Qed.

Lemma rx_tx_distinct (sa sb f : string) :
  sa +:+ "-" +:+ "RX" +:+ "-" +:+ f <> sb +:+ "-" +:+ "TX" +:+ "-" +:+ f.
Proof.
  intros H. pose proof (f_equal String.length H) as Hlen.
  rewrite !string_length_append in Hlen. cbn in Hlen.
  apply append_same_length in H as [_ H]; [|lia]. discriminate H.
Qed.

Lemma mc_deg_name_rx_tx a b f : mc_deg_name a "RX" f <> mc_deg_name b "TX" f.
Proof.
  unfold mc_deg_name. intros H. apply String.app_inj in H.
  by apply rx_tx_distinct in H.
Qed.

Lemma nmc_deg_name_rx_tx a b f : nmc_deg_name a "RX" f <> nmc_deg_name b "TX" f.
Proof.
  unfold nmc_deg_name. intros H. apply String.app_inj in H.
  by apply rx_tx_distinct in H.
Qed.

Lemma mc_nmc_distinct a d f b e g : mc_deg_name a d f <> nmc_deg_name b e g.
Proof. unfold mc_deg_name, nmc_deg_name. cbn. discriminate. Qed.

Lemma mc_srg_distinct a d f b e g : mc_deg_name a d f <> nmc_srg_pp_name b e g.
Proof. unfold mc_deg_name, nmc_srg_pp_name. cbn. discriminate. Qed.

Lemma nmc_srg_distinct a d f b e g : nmc_deg_name a d f <> nmc_srg_pp_name b e g.
Proof. unfold nmc_deg_name, nmc_srg_pp_name. cbn. discriminate. Qed.

Lemma ensure_key_fresh k v (m : gmap string Intf.t) :
  m !! k = None -> ensure_key k v m = <[k := v]> m.
Proof. intros H. unfold ensure_key. by rewrite H. Qed.

Ltac distinct_names :=
  first [ apply mc_nmc_distinct | apply mc_deg_name_rx_tx | apply nmc_deg_name_rx_tx
        | apply mc_srg_distinct | apply nmc_srg_distinct
        | let H := fresh in
          intros H; symmetry in H; revert H;
          first [ apply mc_nmc_distinct | apply mc_deg_name_rx_tx
                | apply nmc_deg_name_rx_tx | apply mc_srg_distinct
                | apply nmc_srg_distinct ] ].

Lemma built_interfaces_fresh src_deg dst freq_str f v3 (ifs : gmap string Intf.t) :
  (forall k, k ∈ build_names src_deg dst freq_str -> ifs !! k = None) ->
  (forall d, dst = ToDegree d -> v3 = mc_deg_intf d "TX" f) ->
  built_interfaces (mc_deg_intf src_deg "RX" f) v3 src_deg dst freq_str ifs
  = match dst with
    | ToDegree dst_deg =>
        <[nmc_deg_name dst_deg "TX" freq_str := nmc_deg_intf dst_deg "TX" freq_str]>
          (<[mc_deg_name dst_deg "TX" freq_str := mc_deg_intf dst_deg "TX" f]>
             (<[nmc_deg_name src_deg "RX" freq_str :=
                  nmc_deg_intf src_deg "RX" freq_str]>
                (<[mc_deg_name src_deg "RX" freq_str :=
                     mc_deg_intf src_deg "RX" f]> ifs)))
    | ToPort pp =>
        <[nmc_srg_pp_name pp "TX" freq_str := nmc_srg_pp_intf pp "TX" freq_str]>
          (<[nmc_deg_name src_deg "RX" freq_str :=
               nmc_deg_intf src_deg "RX" freq_str]>
             (<[mc_deg_name src_deg "RX" freq_str :=
                  mc_deg_intf src_deg "RX" f]> ifs))
    end.
Proof.
  intros Hfresh Hv3. unfold built_interfaces, build_names in *.
  rewrite (ensure_key_fresh (mc_deg_name src_deg "RX" freq_str) _ ifs)
    by (apply Hfresh; set_solver).
  rewrite (ensure_key_fresh (nmc_deg_name src_deg "RX" freq_str))
    by (rewrite lookup_insert_ne; [apply Hfresh; set_solver | distinct_names]).
  destruct dst as [d | p].
  - rewrite (Hv3 d eq_refl).
    rewrite (ensure_key_fresh (mc_deg_name d "TX" freq_str))
      by (rewrite !lookup_insert_ne; [apply Hfresh; set_solver | distinct_names ..]).
    rewrite (ensure_key_fresh (nmc_deg_name d "TX" freq_str))
      by (rewrite !lookup_insert_ne; [apply Hfresh; set_solver | distinct_names ..]).
    done.
  - rewrite (ensure_key_fresh (nmc_srg_pp_name p "TX" freq_str))
      by (rewrite !lookup_insert_ne; [apply Hfresh; set_solver | distinct_names ..]).
    done.
Qed.

Lemma build_on_device_fresh has_top dev src_deg dst freq_str f :
  Py.float freq_str = Some f ->
  (forall k, k ∈ build_names src_deg dst freq_str -> interface dev !! k = None) ->
  build_on_device has_top dev src_deg dst freq_str
  = Some (built_device has_top dev src_deg dst freq_str f,
          conn_name_of src_deg dst freq_str).
Proof.
  intros Hf Hfresh.
  destruct (build_on_device has_top dev src_deg dst freq_str) as [[dev' cn]|] eqn:Hb.
  - apply build_on_device_eq in Hb as (-> & v1 & v3 & Hv & _ & ->).
    destruct (Hv f Hf) as [-> Hv3]. do 2 f_equal. unfold built_device. f_equal.
    rewrite (built_interfaces_fresh _ _ _ f) by done. by destruct dst.
  - exfalso. unfold build_on_device in Hb.
    assert (interface dev !! mc_deg_name src_deg "RX" freq_str = None) as H1
      by (apply Hfresh; unfold build_names; set_solver).
    assert (ensure_mc_deg dev src_deg "RX" freq_str
            = (set_interface dev
                 (<[mc_deg_name src_deg "RX" freq_str := mc_deg_intf src_deg "RX" f]>
                    (interface dev)),
               Some (mc_deg_name src_deg "RX" freq_str))) as E1.
    { unfold ensure_mc_deg. by rewrite has_interface_lookup, H1, Hf. }
    rewrite E1 in Hb. cbn [mbind option_bind] in Hb.
    rewrite ensure_nmc_deg_eq in Hb. cbn [mbind option_bind] in Hb.
    destruct dst as [d | p].
    + destruct (ensure_mc_deg _ d "TX" freq_str) as [d3 r3] eqn:E3.
      pose proof (ensure_mc_deg_result
                    (set_interface
                       (set_interface dev
                          (<[mc_deg_name src_deg "RX" freq_str :=
                               mc_deg_intf src_deg "RX" f]> (interface dev)))
                       (ensure_key (nmc_deg_name src_deg "RX" freq_str)
                          (nmc_deg_intf src_deg "RX" freq_str)
                          (interface
                             (set_interface dev
                                (<[mc_deg_name src_deg "RX" freq_str :=
                                     mc_deg_intf src_deg "RX" f]> (interface dev))))))
                    d "TX" freq_str) as Hr.
      rewrite E3 in Hr. cbn [snd] in Hr.
      destruct Hr as [-> | (_ & Hnone & _)]; [|congruence].
      cbn [mbind option_bind] in Hb. rewrite ensure_nmc_deg_eq in Hb. done.
    + rewrite ensure_nmc_srg_pp_eq in Hb. done.
Qed.

Lemma destination_of_cases input dst :
  destination_of input = Some dst ->
  (exists d, dst = ToDegree d /\ dst_degree input = Some d /\ dst_pp input = None)
  \/ (exists p, dst = ToPort p /\ dst_degree input = None /\ dst_pp input = Some p).
Proof.
  unfold destination_of.
  destruct (dst_degree input) as [d|], (dst_pp input) as [p|]; intros [= <-]; eauto.
Qed.

Lemma build_fresh_result has_top root input src_deg dst dev f :
  src_degree input = Some src_deg ->
  destination_of input = Some dst ->
  lookup_device (in_device input) (devices root) = Some dev ->
  Py.float (in_frequency input) = Some f ->
  (forall k, k ∈ build_names src_deg dst (in_frequency input) ->
             interface dev !! k = None) ->
  _slot_overlaps dev src_deg "RX" (in_frequency input) = false ->
  (forall d, dst = ToDegree d ->
             _slot_overlaps dev d "TX" (in_frequency input) = false) ->
  BuildConnection has_top root input
  = (mkRoot (store_device (in_device input)
               (built_device has_top dev src_deg dst (in_frequency input) f)
               (devices root))
            (topology root),
     Returned ("Connection " +:+ conn_name_of src_deg dst (in_frequency input)
                 +:+ " created on " +:+ in_device input)).
Proof.
  intros Hsrc Hdst Hdev Hf Hfresh Hrx Htx.
  assert (build_checked has_top root (in_device input) (in_frequency input) src_deg dst
          = (mkRoot (store_device (in_device input)
                       (built_device has_top dev src_deg dst (in_frequency input) f)
                       (devices root))
                    (topology root),
             Returned ("Connection " +:+ conn_name_of src_deg dst (in_frequency input)
                         +:+ " created on " +:+ in_device input))) as Hchk.
  { unfold build_checked, overlap_check. rewrite Hdev, Hrx.
    rewrite (build_on_device_fresh _ _ _ _ _ f) by done.
    destruct dst as [d | p]; [|done]. by rewrite (Htx d eq_refl). }
  unfold BuildConnection. rewrite Hsrc.
  destruct (destination_of_cases _ _ Hdst)
    as [(d & -> & -> & ->) | (p & -> & -> & ->)]; exact Hchk.
Qed.

(** X3: on a device that has none of the interfaces of the build, for a
    frequency that [float] accepts and whose slot overlaps no media channel
    of the source side nor of the destination degree, build-connection
    returns the created connection, and the device that the store holds
    afterwards is the device before with the interfaces of the build added
    and the connection written.  The media channels carry the amplifier pack
    and port of their side, the OMS interface as supporting interface and the
    slot f - 0.05 to f + 0.05 written with two decimals; the network media
    channels carry the same pack and port, the media channel as supporting
    interface, the frequency string and the width "100"; on a port pair the
    network media channel carries the pack SRG1-WSS and the port SRG1-OUT<pp>.
    The other devices and the topology cache are as before. *)
Theorem build_on_fresh_names has_top root input src_deg dst dev f :
  src_degree input = Some src_deg ->
  destination_of input = Some dst ->
  lookup_device (in_device input) (devices root) = Some dev ->
  Py.float (in_frequency input) = Some f ->
  (forall k, k ∈ build_names src_deg dst (in_frequency input) ->
             interface dev !! k = None) ->
  _slot_overlaps dev src_deg "RX" (in_frequency input) = false ->
  (forall d, dst = ToDegree d ->
             _slot_overlaps dev d "TX" (in_frequency input) = false) ->
  let r := BuildConnection has_top root input in
  let freq := in_frequency input in
  let cn := conn_name_of src_deg dst freq in
  let slot := Some (McTtp.mk (Some (Py.fmt_2f (Py.fsub f Py.f_0_05)))
                      (Some (Py.fmt_2f (Py.fadd f Py.f_0_05)))) in
  let chan := Some (NmcCtp.mk (Some freq) (Some "100")) in
  let mc := Some "openROADM-if:mediaChannelTrailTerminationPoint" in
  let nmc := Some "openROADM-if:networkMediaChannelConnectionTerminationPoint" in
  let up := Some "inService" in
  let deg (n : Z) := "DEG" +:+ Py.str_int n in
  snd r = Returned ("Connection " +:+ cn +:+ " created on " +:+ in_device input)
  /\ (exists dev',
        lookup_device (in_device input) (devices (fst r)) = Some dev'
        /\ address dev' = address dev
        /\ circuit_packs dev' = circuit_packs dev
        /\ (forall k, k ∉ build_names src_deg dst freq ->
                      interface dev' !! k = interface dev !! k)
        /\ interface dev' !! mc_deg_name src_deg "RX" freq
           = Some (Intf.mk mc up (Some (deg src_deg +:+ "-AMPRX"))
                     (Some (deg src_deg +:+ "-AMPRX-IN"))
                     ["OMS-" +:+ deg src_deg +:+ "-TTP-RX"] slot None)
        /\ interface dev' !! nmc_deg_name src_deg "RX" freq
           = Some (Intf.mk nmc up (Some (deg src_deg +:+ "-AMPRX"))
                     (Some (deg src_deg +:+ "-AMPRX-IN"))
                     [mc_deg_name src_deg "RX" freq] None chan)
        /\ match dst with
           | ToDegree d =>
               interface dev' !! mc_deg_name d "TX" freq
               = Some (Intf.mk mc up (Some (deg d +:+ "-AMPTX"))
                         (Some (deg d +:+ "-AMPTX-OUT"))
                         ["OMS-" +:+ deg d +:+ "-TTP-TX"] slot None)
               /\ interface dev' !! nmc_deg_name d "TX" freq
                  = Some (Intf.mk nmc up (Some (deg d +:+ "-AMPTX"))
                            (Some (deg d +:+ "-AMPTX-OUT"))
                            [mc_deg_name d "TX" freq] None chan)
           | ToPort pp =>
               interface dev' !! nmc_srg_pp_name pp "TX" freq
               = Some (Intf.mk nmc up (Some "SRG1-WSS")
                         (Some ("SRG1-OUT" +:+ Py.str_int pp)) [] None chan)
           end
        /\ roadm_connections dev'
           = <[cn := Conn.mk (Some (nmc_deg_name src_deg "RX" freq))
                       (Some (dst_if_name_of dst freq)) (Some "off")
                       (if has_top then Some (S754_zero false)
                        else roadm_connections dev !! cn
                               ≫= Conn.target_output_power)]>
               (roadm_connections dev))
  /\ (forall n, n <> in_device input ->
                lookup_device n (devices (fst r)) = lookup_device n (devices root))
  /\ map fst (devices (fst r)) = map fst (devices root)
  /\ topology (fst r) = topology root.
Proof.
  intros Hsrc Hdst Hdev Hf Hfresh Hrx Htx. cbn zeta.
  rewrite (build_fresh_result has_top root input src_deg dst dev f) by done.
  cbn [fst snd devices topology].
  split_and!; [done | | | | done].
  - exists (built_device has_top dev src_deg dst (in_frequency input) f).
    assert (forall k i (m : gmap string Intf.t), <[k := i]> m !! k = Some i) as Heq
      by (intros; apply lookup_insert_eq).
    split_and!; [by apply (lookup_store_device _ dev) | done | done | | | | |].
    + intros k Hk. unfold build_names in Hk. unfold built_device. cbn [interface].
      destruct dst as [d | pp]; cbn [app] in Hk;
        rewrite !lookup_insert_ne; try done; intros <-; apply Hk; set_solver.
    + unfold built_device. cbn [interface].
      destruct dst as [d | pp]; rewrite !lookup_insert_ne by distinct_names;
        by rewrite Heq.
    + unfold built_device. cbn [interface].
      destruct dst as [d | pp]; rewrite !lookup_insert_ne by distinct_names;
        by rewrite Heq.
    + unfold built_device. cbn [interface]. destruct dst as [d | pp].
      * split; [rewrite lookup_insert_ne by distinct_names|]; by rewrite Heq.
      * by rewrite Heq.
    + unfold built_device. cbn [roadm_connections]. f_equal.
      unfold write_connection. f_equal. destruct has_top; [done|].
      by destruct (roadm_connections dev !! _).
  - intros n Hn. by apply lookup_store_device_ne.
  - apply store_device_names.
Qed.

Lemma build_on_fresh_names_witness :
  let dev := built_1_2 true None [] in
  let root := mkRoot [("D1", dev)] (mkTopology ∅ ∅) in
  let input := mkBuildInput "D1" "193.4" (Some 1) None (Some 3) in
  let f := S754_finite false 6804657561980109 (-45) in
  let r := BuildConnection true root input in
  let cn := conn_name_of 1 (ToPort 3) "193.4" in
  let slot := Some (McTtp.mk (Some (Py.fmt_2f (Py.fsub f Py.f_0_05)))
                      (Some (Py.fmt_2f (Py.fadd f Py.f_0_05)))) in
  let chan := Some (NmcCtp.mk (Some "193.4") (Some "100")) in
  let mc := Some "openROADM-if:mediaChannelTrailTerminationPoint" in
  let nmc := Some "openROADM-if:networkMediaChannelConnectionTerminationPoint" in
  let up := Some "inService" in
  let deg (n : Z) := "DEG" +:+ Py.str_int n in
  src_degree input = Some 1
  /\ destination_of input = Some (ToPort 3)
  /\ lookup_device (in_device input) (devices root) = Some dev
  /\ Py.float (in_frequency input) = Some f
  /\ (forall k, k ∈ build_names 1 (ToPort 3) (in_frequency input) ->
                interface dev !! k = None)
  /\ _slot_overlaps dev 1 "RX" (in_frequency input) = false
  /\ (forall d, ToPort 3 = ToDegree d ->
                _slot_overlaps dev d "TX" (in_frequency input) = false)
  /\ snd r = Returned ("Connection " +:+ cn +:+ " created on " +:+ "D1")
  /\ (exists dev',
        lookup_device "D1" (devices (fst r)) = Some dev'
        /\ address dev' = address dev
        /\ circuit_packs dev' = circuit_packs dev
        /\ (forall k, k ∉ build_names 1 (ToPort 3) "193.4" ->
                      interface dev' !! k = interface dev !! k)
        /\ interface dev' !! mc_deg_name 1 "RX" "193.4"
           = Some (Intf.mk mc up (Some (deg 1 +:+ "-AMPRX"))
                     (Some (deg 1 +:+ "-AMPRX-IN"))
                     ["OMS-" +:+ deg 1 +:+ "-TTP-RX"] slot None)
        /\ interface dev' !! nmc_deg_name 1 "RX" "193.4"
           = Some (Intf.mk nmc up (Some (deg 1 +:+ "-AMPRX"))
                     (Some (deg 1 +:+ "-AMPRX-IN"))
                     [mc_deg_name 1 "RX" "193.4"] None chan)
        /\ interface dev' !! nmc_srg_pp_name 3 "TX" "193.4"
           = Some (Intf.mk nmc up (Some "SRG1-WSS")
                     (Some ("SRG1-OUT" +:+ Py.str_int 3)) [] None chan)
        /\ roadm_connections dev'
           = <[cn := Conn.mk (Some (nmc_deg_name 1 "RX" "193.4"))
                       (Some (dst_if_name_of (ToPort 3) "193.4")) (Some "off")
                       (Some (S754_zero false))]>
               (roadm_connections dev))
  /\ (forall n, n <> "D1" ->
                lookup_device n (devices (fst r)) = lookup_device n (devices root))
  /\ map fst (devices (fst r)) = map fst (devices root)
  /\ topology (fst r) = topology root.
Proof.
  cbn zeta.
  assert (forall k, k ∈ build_names 1 (ToPort 3) "193.4" ->
                    interface (built_1_2 true None []) !! k = None) as Hfresh.
  { intros k Hk. unfold build_names in Hk. cbn [app] in Hk.
    rewrite !elem_of_cons, elem_of_nil in Hk.
    destruct Hk as [-> | [-> | [-> | []]]]; by vm_compute. }
  assert (forall d, ToPort 3 = ToDegree d ->
                    _slot_overlaps (built_1_2 true None []) d "TX" "193.4" = false)
    as Htx by (by intros d [=]).
  split; [reflexivity|]. split; [reflexivity|]. split; [reflexivity|].
  split; [by vm_compute|]. split; [exact Hfresh|]. split; [by vm_compute|].
  split; [exact Htx|].
  apply (build_on_fresh_names true
           (mkRoot [("D1", built_1_2 true None [])] (mkTopology ∅ ∅))
           (mkBuildInput "D1" "193.4" (Some 1) None (Some 3)) 1 (ToPort 3)
           (built_1_2 true None []));
    [reflexivity | reflexivity | reflexivity | by vm_compute | exact Hfresh
    | by vm_compute | exact Htx].
Defined.

(** The media channel that the build at "193.4" adds on degree 1, and the
    network media channel on port pair 3, as the store holds them. *)
Example build_on_fresh_names_run :
  let root := mkRoot [("D1", built_1_2 true None [])] (mkTopology ∅ ∅) in
  let r := BuildConnection true root (mkBuildInput "D1" "193.4" (Some 1) None (Some 3)) in
  (lookup_device "D1" (devices (fst r))
     ≫= fun dev' => interface dev' !! "MC-TTP-DEG1-RX-193.4")
  = Some (Intf.mk (Some "openROADM-if:mediaChannelTrailTerminationPoint")
            (Some "inService") (Some "DEG1-AMPRX") (Some "DEG1-AMPRX-IN")
            ["OMS-DEG1-TTP-RX"] (Some (McTtp.mk (Some "193.35") (Some "193.45"))) None)
  /\ (lookup_device "D1" (devices (fst r))
        ≫= fun dev' => interface dev' !! "SRG1-PP03-TX-193.4")
     = Some (Intf.mk (Some "openROADM-if:networkMediaChannelConnectionTerminationPoint")
               (Some "inService") (Some "SRG1-WSS") (Some "SRG1-OUT3") [] None
               (Some (NmcCtp.mk (Some "193.4") (Some "100")))).
Proof. cbn zeta. split; by vm_compute. Qed.

Lemma store_device_same name dev l :
  lookup_device name l = Some dev -> store_device name dev l = l.
Proof.
  induction l as [|[n d] l IH]; cbn; [done|].
  destruct (String.eqb n name); [by intros [= ->] | intros H; by rewrite IH].
Qed.

Lemma store_device_twice name d1 d2 l :
  store_device name d2 (store_device name d1 l) = store_device name d2 l.
Proof.
  induction l as [|[n d] l IH]; cbn; [done|].
  destruct (String.eqb n name) eqn:Hn; cbn; rewrite Hn; [done | by rewrite IH].
Qed.

Lemma interface_built_device has_top dev src_deg dst freq_str f :
  (forall k, k ∈ build_names src_deg dst freq_str -> interface dev !! k = None) ->
  interface (built_device has_top dev src_deg dst freq_str f)
  = built_interfaces (mc_deg_intf src_deg "RX" f)
      (match dst with ToDegree d => mc_deg_intf d "TX" f | ToPort _ => Intf.new end)
      src_deg dst freq_str (interface dev).
Proof.
  intros Hfresh. rewrite (built_interfaces_fresh _ _ _ f); [by destruct dst | done |].
  intros d ->. done.
Qed.

Lemma nmc_deg_intf_supporting degree direction freq_str :
  is_direction direction ->
  Intf.supporting_interface_list (nmc_deg_intf degree direction freq_str)
  = [mc_deg_name degree direction freq_str].
Proof. by intros [-> | ->]. Qed.

(** The deletion candidates of the connection a build has written on fresh
    names are the interfaces of the build. *)
Lemma candidates_built_device has_top dev src_deg dst freq_str f x :
  (forall k, k ∈ build_names src_deg dst freq_str -> interface dev !! k = None) ->
  x ∈ delete_candidates
        (interface (built_device has_top dev src_deg dst freq_str f))
        (nmc_deg_name src_deg "RX" freq_str) (dst_if_name_of dst freq_str)
  <-> x ∈ build_names src_deg dst freq_str.
Proof.
  intros Hfresh.
  assert (supporting_of (interface (built_device has_top dev src_deg dst freq_str f))
            (nmc_deg_name src_deg "RX" freq_str)
          = [mc_deg_name src_deg "RX" freq_str]) as Hs1.
  { unfold supporting_of, built_device. cbn [interface].
    destruct dst; rewrite ?lookup_insert_ne by distinct_names;
      by rewrite lookup_insert_eq. }
  assert (supporting_of (interface (built_device has_top dev src_deg dst freq_str f))
            (dst_if_name_of dst freq_str)
          = match dst with
            | ToDegree d => [mc_deg_name d "TX" freq_str]
            | ToPort _ => []
            end) as Hs2.
  { unfold supporting_of, built_device, dst_if_name_of. cbn [interface].
    destruct dst; by rewrite lookup_insert_eq. }
  rewrite elem_of_delete_candidates. unfold build_names. split.
  - intros (e & He & Hx). rewrite !elem_of_cons, elem_of_nil in He.
    destruct He as [-> | [-> | []]].
    + rewrite Hs1 in Hx. set_solver.
    + rewrite Hs2 in Hx. destruct dst; cbn [app]; set_solver.
  - intros Hx. destruct dst as [d | p]; cbn [app] in Hx;
      rewrite !elem_of_cons, elem_of_nil in Hx; destruct_or!; try done; subst x.
    + exists (nmc_deg_name src_deg "RX" freq_str). rewrite Hs1. set_solver.
    + exists (nmc_deg_name src_deg "RX" freq_str). set_solver.
    + exists (dst_if_name_of (ToDegree d) freq_str). rewrite Hs2. set_solver.
    + exists (dst_if_name_of (ToDegree d) freq_str). set_solver.
    + exists (nmc_deg_name src_deg "RX" freq_str). rewrite Hs1. set_solver.
    + exists (nmc_deg_name src_deg "RX" freq_str). set_solver.
    + exists (dst_if_name_of (ToPort p) freq_str). set_solver.
Qed.

Lemma delete_built_device has_top dev src_deg dst freq_str f :
  (forall k, k ∈ build_names src_deg dst freq_str -> interface dev !! k = None) ->
  roadm_connections dev !! conn_name_of src_deg dst freq_str = None ->
  unreferenced dev (build_names src_deg dst freq_str) ->
  delete_on_device (built_device has_top dev src_deg dst freq_str f)
    (conn_name_of src_deg dst freq_str)
    (write_connection has_top Conn.new
       (nmc_deg_name src_deg "RX" freq_str) (dst_if_name_of dst freq_str))
  = dev.
Proof.
  intros Hfresh Hcn Hunref.
  set (bd := built_device has_top dev src_deg dst freq_str f).
  set (cn := conn_name_of src_deg dst freq_str).
  set (conn := write_connection _ _ _ _).
  assert (delete cn (roadm_connections bd) = roadm_connections dev) as Hrcs.
  { subst bd. unfold built_device. cbn [roadm_connections]. fold cn.
    rewrite delete_insert_eq. by apply delete_id. }
  assert (forall x, x ∉ build_names src_deg dst freq_str ->
                    interface bd !! x = interface dev !! x) as Hother.
  { intros x Hx. subst bd. rewrite interface_built_device by done.
    by apply built_interfaces_other. }
  assert (interface (delete_on_device bd cn conn) = interface dev) as Hifs.
  { apply map_eq. intros x. rewrite lookup_delete_on_device.
    change (Py.str_leaf (Conn.src_if conn)) with (nmc_deg_name src_deg "RX" freq_str).
    change (Py.str_leaf (Conn.dst_if conn)) with (dst_if_name_of dst freq_str).
    rewrite Hrcs. case_bool_decide as Hx.
    - destruct Hx as [Hx _]. symmetry. apply Hfresh.
      by apply (candidates_built_device has_top dev src_deg dst freq_str f).
    - destruct (decide (x ∈ build_names src_deg dst freq_str)) as [Hin | Hnin];
        [|by apply Hother].
      exfalso. apply Hx. split.
      { by apply (candidates_built_device has_top dev src_deg dst freq_str f). }
      rewrite elem_of_used_interfaces. intros (k & rc & e & Hk & He & Hxe).
      destruct (Hunref k rc e Hk He) as [Hne Hsup].
      destruct Hxe as [-> | Hxe]; [done|].
      unfold supporting_of in Hxe, Hsup. rewrite (Hother e Hne) in Hxe.
      by apply (Hsup x). }
  destruct dev as [a c ifs rcs]. unfold delete_on_device in *.
  cbn [interface roadm_connections address circuit_packs] in *.
  f_equal; [exact Hifs | exact Hrcs].
Qed.

(** X4: a build on fresh names followed by the deletion of the connection it
    created gives back the store the build started from, exactly: when the
    device had none of the interfaces of the build, no connection of the
    built name, and no connection referring to those interface names, and the
    frequency passes the overlap checks, delete-connection after
    build-connection returns its deleted message on the initial store. *)
Theorem build_then_delete has_top root input src_deg dst dev f :
  src_degree input = Some src_deg ->
  destination_of input = Some dst ->
  lookup_device (in_device input) (devices root) = Some dev ->
  Py.float (in_frequency input) = Some f ->
  (forall k, k ∈ build_names src_deg dst (in_frequency input) ->
             interface dev !! k = None) ->
  _slot_overlaps dev src_deg "RX" (in_frequency input) = false ->
  (forall d, dst = ToDegree d ->
             _slot_overlaps dev d "TX" (in_frequency input) = false) ->
  roadm_connections dev !! conn_name_of src_deg dst (in_frequency input) = None ->
  unreferenced dev (build_names src_deg dst (in_frequency input)) ->
  DeleteConnection (fst (BuildConnection has_top root input)) (in_device input)
    (conn_name_of src_deg dst (in_frequency input))
  = (root,
     Returned ("Connection '" +:+ conn_name_of src_deg dst (in_frequency input)
                 +:+ "' and associated MC/NMC interfaces "
                 +:+ "successfully deleted on device " +:+ in_device input)).
Proof.
  intros Hsrc Hdst Hdev Hf Hfresh Hrx Htx Hcn Hunref.
  assert (BuildConnection has_top root input
          = (mkRoot (store_device (in_device input)
                       (built_device has_top dev src_deg dst (in_frequency input) f)
                       (devices root))
                    (topology root),
             Returned ("Connection " +:+ conn_name_of src_deg dst (in_frequency input)
                         +:+ " created on " +:+ in_device input))) as ->.
  { assert (build_checked has_top root (in_device input) (in_frequency input)
              src_deg dst
            = (mkRoot (store_device (in_device input)
                         (built_device has_top dev src_deg dst (in_frequency input) f)
                         (devices root))
                      (topology root),
               Returned ("Connection "
                           +:+ conn_name_of src_deg dst (in_frequency input)
                           +:+ " created on " +:+ in_device input))) as Hchk.
    { unfold build_checked, overlap_check. rewrite Hdev, Hrx.
      rewrite (build_on_device_fresh _ _ _ _ _ f) by done.
      destruct dst as [d | p]; [|done]. by rewrite (Htx d eq_refl). }
    unfold BuildConnection. rewrite Hsrc.
    destruct (destination_of_cases _ _ Hdst)
      as [(d & -> & -> & ->) | (p & -> & -> & ->)]; exact Hchk. }
  cbn [fst]. unfold DeleteConnection. cbn [devices topology].
  rewrite (lookup_store_device _ _ _ _ Hdev).
  assert (roadm_connections
            (built_device has_top dev src_deg dst (in_frequency input) f)
            !! conn_name_of src_deg dst (in_frequency input)
          = Some (write_connection has_top Conn.new
                    (nmc_deg_name src_deg "RX" (in_frequency input))
                    (dst_if_name_of dst (in_frequency input)))) as ->.
  { unfold built_device. cbn [roadm_connections].
    by rewrite lookup_insert_eq, Hcn. }
  rewrite delete_built_device by done.
  rewrite store_device_twice, (store_device_same _ _ _ Hdev). by destruct root.
Qed.

Lemma build_then_delete_witness :
  let root := mkRoot [("D1", built_1_2 true None [])] (mkTopology ∅ ∅) in
  let input := mkBuildInput "D1" "193.4" (Some 1) None (Some 3) in
  let dev := built_1_2 true None [] in
  let f := S754_finite false 6804657561980109 (-45) in
  src_degree input = Some 1
  /\ destination_of input = Some (ToPort 3)
  /\ lookup_device (in_device input) (devices root) = Some dev
  /\ Py.float (in_frequency input) = Some f
  /\ (forall k, k ∈ build_names 1 (ToPort 3) (in_frequency input) ->
                interface dev !! k = None)
  /\ _slot_overlaps dev 1 "RX" (in_frequency input) = false
  /\ (forall d, ToPort 3 = ToDegree d ->
                _slot_overlaps dev d "TX" (in_frequency input) = false)
  /\ roadm_connections dev !! conn_name_of 1 (ToPort 3) (in_frequency input) = None
  /\ unreferenced dev (build_names 1 (ToPort 3) (in_frequency input))
  /\ DeleteConnection (fst (BuildConnection true root input)) (in_device input)
       (conn_name_of 1 (ToPort 3) (in_frequency input))
     = (root,
        Returned ("Connection '" +:+ conn_name_of 1 (ToPort 3) (in_frequency input)
                    +:+ "' and associated MC/NMC interfaces "
                    +:+ "successfully deleted on device " +:+ in_device input)).
Proof.
  cbn zeta.
  assert (forall k, k ∈ build_names 1 (ToPort 3) "193.4" ->
                    interface (built_1_2 true None []) !! k = None) as Hfresh.
  { intros k Hk. unfold build_names in Hk. cbn [app] in Hk.
    rewrite !elem_of_cons, elem_of_nil in Hk.
    destruct Hk as [-> | [-> | [-> | []]]]; by vm_compute. }
  assert (forall d, ToPort 3 = ToDegree d ->
                    _slot_overlaps (built_1_2 true None []) d "TX" "193.4" = false)
    as Htx by (by intros d [=]).
  assert (unreferenced (built_1_2 true None []) (build_names 1 (ToPort 3) "193.4"))
    as Hunref.
  { intros k rc e Hk He. unfold built_1_2 in Hk. cbn [roadm_connections] in Hk.
    apply lookup_singleton_Some in Hk as [<- <-].
    unfold endpoints in He. cbn in He.
    rewrite !elem_of_cons, elem_of_nil in He.
    destruct He as [-> | [-> | []]]; split;
      try (intros y Hy; vm_compute in Hy;
           apply list_elem_of_singleton in Hy; subst y);
      unfold build_names; cbn [app];
      rewrite !elem_of_cons, elem_of_nil; intros H; destruct_or!; try done;
      by vm_compute in H. }
  split; [reflexivity|]. split; [reflexivity|]. split; [reflexivity|].
  split; [by vm_compute|]. split; [exact Hfresh|]. split; [by vm_compute|].
  split; [exact Htx|]. split; [by vm_compute|]. split; [exact Hunref|].
  apply (build_then_delete true
           (mkRoot [("D1", built_1_2 true None [])] (mkTopology ∅ ∅))
           (mkBuildInput "D1" "193.4" (Some 1) None (Some 3)) 1 (ToPort 3)
           (built_1_2 true None []) (S754_finite false 6804657561980109 (-45)));
    [reflexivity | reflexivity | reflexivity | by vm_compute | exact Hfresh
    | by vm_compute | exact Htx | by vm_compute | exact Hunref].
Defined.

Lemma slot_overlaps_malformed dev degree direction freq_str :
  Py.float freq_str = None -> _slot_overlaps dev degree direction freq_str = false.
Proof. intros H. unfold _slot_overlaps. by rewrite H. Qed.

Lemma build_valid_input has_top root input src_deg dst :
  src_degree input = Some src_deg ->
  destination_of input = Some dst ->
  BuildConnection has_top root input
  = build_checked has_top root (in_device input) (in_frequency input) src_deg dst.
Proof.
  intros Hsrc Hdst. unfold BuildConnection. rewrite Hsrc.
  by destruct (destination_of_cases _ _ Hdst)
    as [(d & -> & -> & ->) | (p & -> & -> & ->)].
Qed.

(** X5: build-connection on a device that is not in the store raises, with no
    result message and the store as it was: the failure of the overlap check
    is swallowed, and the write transaction then fails on the same lookup. *)
Theorem build_missing_device_raises has_top root input src_deg dst :
  src_degree input = Some src_deg ->
  destination_of input = Some dst ->
  lookup_device (in_device input) (devices root) = None ->
  BuildConnection has_top root input = (root, Raised).
Proof.
  intros Hsrc Hdst Hdev. rewrite (build_valid_input _ _ _ _ _ Hsrc Hdst).
  unfold build_checked, overlap_check. by rewrite Hdev.
Qed.

Lemma build_missing_device_raises_witness :
  let root := mkRoot [("D1", empty_device)] (mkTopology ∅ ∅) in
  let input := mkBuildInput "D2" "193.3" (Some 1) (Some 2) None in
  src_degree input = Some 1
  /\ destination_of input = Some (ToDegree 2)
  /\ lookup_device (in_device input) (devices root) = None
  /\ BuildConnection true root input = (root, Raised).
Proof.
  cbn zeta. split; [reflexivity|]. split; [reflexivity|]. split; [reflexivity|].
  apply (build_missing_device_raises true
           (mkRoot [("D1", empty_device)] (mkTopology ∅ ∅))
           (mkBuildInput "D2" "193.3" (Some 1) (Some 2) None) 1 (ToDegree 2));
    reflexivity.
Defined.

(** X6: build-connection with a frequency string that [float] rejects, on a
    device where the source media channel has to be created, raises and
    leaves the store as it was: the overlap check lets the malformed
    frequency through, and [ensure_mc_deg] fails on it inside the write
    transaction, which is not applied. *)
Theorem build_malformed_frequency_raises has_top root input src_deg dst dev :
  src_degree input = Some src_deg ->
  destination_of input = Some dst ->
  lookup_device (in_device input) (devices root) = Some dev ->
  Py.float (in_frequency input) = None ->
  interface dev !! mc_deg_name src_deg "RX" (in_frequency input) = None ->
  BuildConnection has_top root input = (root, Raised).
Proof.
  intros Hsrc Hdst Hdev Hf Hno. rewrite (build_valid_input _ _ _ _ _ Hsrc Hdst).
  unfold build_checked, overlap_check. rewrite Hdev.
  assert (build_on_device has_top dev src_deg dst (in_frequency input) = None) as ->.
  { assert (snd (ensure_mc_deg dev src_deg "RX" (in_frequency input)) = None) as He.
    { unfold ensure_mc_deg. by rewrite has_interface_lookup, Hno, Hf. }
    unfold build_on_device.
    destruct (ensure_mc_deg dev src_deg "RX" (in_frequency input)) as [d1 r1].
    cbn in He. by subst r1. }
  destruct dst; by rewrite !slot_overlaps_malformed.
Qed.

Lemma build_malformed_frequency_raises_witness :
  let root := mkRoot [("D1", empty_device)] (mkTopology ∅ ∅) in
  let input := mkBuildInput "D1" "193,3" (Some 1) (Some 2) None in
  src_degree input = Some 1
  /\ destination_of input = Some (ToDegree 2)
  /\ lookup_device (in_device input) (devices root) = Some empty_device
  /\ Py.float (in_frequency input) = None
  /\ interface empty_device !! mc_deg_name 1 "RX" (in_frequency input) = None
  /\ BuildConnection true root input = (root, Raised).
Proof.
  cbn zeta. split; [reflexivity|]. split; [reflexivity|]. split; [reflexivity|].
  split; [by vm_compute|]. split; [by vm_compute|].
  apply (build_malformed_frequency_raises true
           (mkRoot [("D1", empty_device)] (mkTopology ∅ ∅))
           (mkBuildInput "D1" "193,3" (Some 1) (Some 2) None) 1 (ToDegree 2)
           empty_device);
    [reflexivity | reflexivity | reflexivity | by vm_compute | by vm_compute].
Defined.

(** X7: delete-connection is not re-runnable: run again on the store the
    first run left, for the connection the first run deleted, it returns the
    not-found message and leaves the store as it is. *)
Theorem delete_twice root device_name conn_name dev conn :
  lookup_device device_name (devices root) = Some dev ->
  roadm_connections dev !! conn_name = Some conn ->
  let root' := fst (DeleteConnection root device_name conn_name) in
  DeleteConnection root' device_name conn_name
  = (root', Returned ("Connection '" +:+ conn_name +:+ "' not found on device "
                        +:+ device_name)).
Proof.
  intros Hdev Hconn. cbn zeta.
  assert (fst (DeleteConnection root device_name conn_name)
          = mkRoot (store_device device_name (delete_on_device dev conn_name conn)
                      (devices root))
              (topology root)) as ->.
  { unfold DeleteConnection. by rewrite Hdev, Hconn. }
  unfold DeleteConnection. cbn [devices].
  rewrite (lookup_store_device _ _ _ _ Hdev).
  unfold delete_on_device at 1. cbn [roadm_connections].
  by rewrite lookup_delete_eq.
Qed.

Lemma delete_twice_witness :
  let dev := built_1_2 true None [] in
  let root := mkRoot [("D1", dev)] (mkTopology ∅ ∅) in
  let conn_name := "DEG1-RX-to-DEG2-TX-193.3" in
  let conn := Conn.mk (Some "NMC-CTP-DEG1-RX-193.3") (Some "NMC-CTP-DEG2-TX-193.3")
                (Some "off") (Some (S754_zero false)) in
  lookup_device "D1" (devices root) = Some dev
  /\ roadm_connections dev !! conn_name = Some conn
  /\ DeleteConnection (fst (DeleteConnection root "D1" conn_name)) "D1" conn_name
     = (fst (DeleteConnection root "D1" conn_name),
        Returned ("Connection '" +:+ conn_name +:+ "' not found on device " +:+ "D1")).
Proof.
  cbn zeta. split; [reflexivity|]. split; [by vm_compute|].
  eapply (delete_twice (mkRoot [("D1", built_1_2 true None [])] (mkTopology ∅ ∅))
            "D1" "DEG1-RX-to-DEG2-TX-193.3" (built_1_2 true None []));
    [reflexivity | by vm_compute].
Defined.

(** *** The overlap check after a provisioning step *)

Lemma slot_overlaps_insert dev if_name intf degree direction freq_str :
  interface dev !! if_name = None ->
  _slot_overlaps (set_interface dev (<[if_name := intf]> (interface dev)))
    degree direction freq_str
  = _slot_overlaps dev degree direction freq_str
    || match Py.float freq_str with
       | Some f =>
           slot_hit (mc_prefix degree direction)
             (Py.fsub f Py.f_0_05) (Py.fadd f Py.f_0_05) if_name intf
       | None => false
       end.
Proof.
  intros Hno. destruct (Py.float freq_str) as [f|] eqn:Hf.
  2:{ unfold _slot_overlaps. by rewrite Hf. }
  apply eq_true_iff_eq. rewrite orb_true_iff.
  rewrite !(slot_overlaps_exists _ _ _ _ _ Hf). unfold set_interface.
  cbn [interface]. split.
  - intros (name & i & Hin & Hhit). rewrite lookup_insert in Hin.
    case_decide as Hname.
    + injection Hin as <-. subst name. by right.
    + left. eauto.
  - intros [(name & i & Hin & Hhit) | Hhit].
    + exists name, i. split; [|done]. rewrite lookup_insert_ne; [done|]. congruence.
    + exists if_name, intf. by rewrite lookup_insert_eq.
Qed.

Lemma slot_hit_no_slot pfx new_min new_max name intf :
  Intf.mc_ttp intf = None -> slot_hit pfx new_min new_max name intf = false.
Proof. intros H. unfold slot_hit. rewrite H. by destruct (negb _). Qed.

Lemma slot_overlaps_insert_no_slot dev if_name intf degree direction freq_str :
  interface dev !! if_name = None -> Intf.mc_ttp intf = None ->
  _slot_overlaps (set_interface dev (<[if_name := intf]> (interface dev)))
    degree direction freq_str
  = _slot_overlaps dev degree direction freq_str.
Proof.
  intros Hno Hslot. rewrite slot_overlaps_insert by done.
  destruct (Py.float freq_str); [|by rewrite orb_false_r].
  by rewrite slot_hit_no_slot, orb_false_r.
Qed.

(** X8: provisioning a network media channel, on a degree or on a port pair,
    never changes the answer of the overlap check, for any degree, direction
    and candidate frequency; and a media channel that [ensure_mc_deg] creates
    for the center [c] changes the answer on its own degree and direction
    exactly by the test against its stored slot. *)
Theorem slot_overlaps_after_ensure dev n direction center degree dir freq_str :
  _slot_overlaps (fst (ensure_nmc_deg dev n direction center)) degree dir freq_str
  = _slot_overlaps dev degree dir freq_str
  /\ _slot_overlaps (fst (ensure_nmc_srg_pp dev n direction center)) degree dir freq_str
     = _slot_overlaps dev degree dir freq_str
  /\ (forall fc f,
        interface dev !! mc_deg_name n direction center = None ->
        Py.float center = Some fc -> Py.float freq_str = Some f ->
        _slot_overlaps (fst (ensure_mc_deg dev n direction center))
          n direction freq_str
        = _slot_overlaps dev n direction freq_str || overlaps_stored f fc).
Proof.
  split_and!.
  - unfold ensure_nmc_deg. rewrite has_interface_lookup.
    destruct (interface dev !! _) eqn:E; [done|]. cbn [fst].
    apply slot_overlaps_insert_no_slot; [done|].
    unfold nmc_deg_intf. by destruct (String.eqb direction "RX").
  - unfold ensure_nmc_srg_pp. rewrite has_interface_lookup.
    destruct (interface dev !! _) eqn:E; [done|]. cbn [fst].
    by apply slot_overlaps_insert_no_slot.
  - intros fc f Hno Hfc Hf. unfold ensure_mc_deg.
    rewrite has_interface_lookup, Hno, Hfc. cbn [fst].
    rewrite slot_overlaps_insert, Hf by done.
    f_equal. apply (slot_hit_created n direction f fc center).
Qed.

(** *** Degrees and directions do not mix *)

Lemma startswith_cons a p b s :
  Py.startswith (String b s) (String a p) = Ascii.eqb a b && Py.startswith s p.
Proof. done. Qed.

Lemma startswith_digits_dash (s s' r r' : string) :
  all_chars Py.is_digit s = true -> all_chars Py.is_digit s' = true ->
  Py.startswith (s' +:+ String "-" r') (s +:+ String "-" r) = true ->
  s = s' /\ Py.startswith r' r = true.
Proof.
  revert s'. induction s as [|a s IH]; intros [|a' s'] Hs Hs' H.
  - change (Py.startswith (String "-" r') (String "-" r) = true) in H.
    rewrite startswith_cons in H. by apply andb_true_iff in H as [_ H].
  - change (Py.startswith (String a' (s' +:+ String "-" r')) (String "-" r) = true)
      in H.
    rewrite startswith_cons in H. apply andb_true_iff in H as [H _].
    apply Ascii.eqb_eq in H. subst a'.
    change (all_chars Py.is_digit (String "-" s')) with
      (Py.is_digit "-" && all_chars Py.is_digit s') in Hs'. done.
  - change (Py.startswith (String "-" r') (String a (s +:+ String "-" r)) = true)
      in H.
    rewrite startswith_cons in H. apply andb_true_iff in H as [H _].
    apply Ascii.eqb_eq in H. subst a.
    change (all_chars Py.is_digit (String "-" s)) with
      (Py.is_digit "-" && all_chars Py.is_digit s) in Hs. done.
  - change (Py.startswith (String a' (s' +:+ String "-" r'))
              (String a (s +:+ String "-" r)) = true) in H.
    rewrite startswith_cons in H. apply andb_true_iff in H as [Ha H].
    apply Ascii.eqb_eq in Ha. subst a'.
    change (all_chars Py.is_digit (String a s)) with
      (Py.is_digit a && all_chars Py.is_digit s) in Hs.
    change (all_chars Py.is_digit (String a s')) with
      (Py.is_digit a && all_chars Py.is_digit s') in Hs'.
    apply andb_true_iff in Hs as [_ Hs]. apply andb_true_iff in Hs' as [_ Hs'].
    destruct (IH s' Hs Hs' H) as [-> ?]. done.
Qed.

Lemma str_int_inj n m : 0 <= n -> 0 <= m -> Py.str_int n = Py.str_int m -> n = m.
Proof.
  intros Hn Hm H. pose proof (int_str_int n Hn) as En.
  rewrite H, (int_str_int m Hm) in En. congruence.
Qed.

Lemma mc_name_other_prefix d dir d' dir' center :
  0 <= d -> 0 <= d' -> is_direction dir -> is_direction dir' ->
  (d, dir) <> (d', dir') ->
  Py.startswith (mc_deg_name d' dir' center) (mc_prefix d dir) = false.
Proof.
  intros Hd Hd' Hdir Hdir' Hne.
  destruct (Py.startswith _ _) eqn:E; [|done]. exfalso. apply Hne.
  unfold mc_deg_name, mc_prefix in E. cbn in E.
  destruct (str_int_nonneg d Hd) as (Hs & _ & _).
  destruct (str_int_nonneg d' Hd') as (Hs' & _ & _).
  apply startswith_digits_dash in E as [E1 E2]; [|done..].
  apply str_int_inj in E1; [|done..]. subst d'. f_equal.
  destruct Hdir as [-> | ->], Hdir' as [-> | ->]; done.
Qed.

(** X9: the overlap check of one degree and direction does not see the media
    channels of another: whatever [ensure_mc_deg] does for the degree [d'] and
    direction [dir'], the answer of [_slot_overlaps] for a different degree
    or direction is the same before and after. *)
Theorem slots_isolated dev d dir d' dir' center freq_str :
  0 <= d -> 0 <= d' -> is_direction dir -> is_direction dir' ->
  (d, dir) <> (d', dir') ->
  _slot_overlaps (fst (ensure_mc_deg dev d' dir' center)) d dir freq_str
  = _slot_overlaps dev d dir freq_str.
Proof.
  intros Hd Hd' Hdir Hdir' Hne.
  pose proof (mc_name_other_prefix d dir d' dir' center Hd Hd' Hdir Hdir' Hne) as Hpre.
  unfold ensure_mc_deg. rewrite has_interface_lookup.
  destruct (interface dev !! _) eqn:E; [done|].
  destruct (Py.float center) as [fc|]; cbn [fst];
    rewrite slot_overlaps_insert by done;
    destruct (Py.float freq_str) as [f|]; rewrite ?orb_false_r; try done;
    unfold slot_hit; by rewrite Hpre, orb_false_r.
Qed.

Lemma slots_isolated_witness :
  let dev := built_1_2 true None [] in
  0 <= 1 /\ 0 <= 10 /\ is_direction "RX" /\ is_direction "RX"
  /\ (1, "RX") <> (10, "RX")
  /\ _slot_overlaps (fst (ensure_mc_deg dev 10 "RX" "193.3")) 1 "RX" "193.4"
     = _slot_overlaps dev 1 "RX" "193.4".
Proof.
  cbn zeta. split; [lia|]. split; [lia|]. split; [by left|]. split; [by left|].
  split; [by intros [=]|].
  apply (slots_isolated (built_1_2 true None []) 1 "RX" 10 "RX" "193.3" "193.4");
    [lia | lia | by left | by left | by intros [=]].
Defined.

(** *** What a created interface holds *)

(** X10: the slot that [ensure_mc_deg] writes is text that [float] reads
    back: for the interface it creates, [_slot_overlaps] never takes the
    branch that skips an unreadable slot, and its test on that interface is
    the interval test against the two stored bounds. *)
Theorem created_slot_reads_back dev degree direction center fc :
  interface dev !! mc_deg_name degree direction center = None ->
  Py.float center = Some fc ->
  exists intf lo hi cur_min cur_max,
    interface (fst (ensure_mc_deg dev degree direction center))
      !! mc_deg_name degree direction center = Some intf
    /\ Intf.mc_ttp intf = Some (McTtp.mk (Some lo) (Some hi))
    /\ lo = Py.fmt_2f (Py.fsub fc Py.f_0_05)
    /\ hi = Py.fmt_2f (Py.fadd fc Py.f_0_05)
    /\ Py.float lo = Some cur_min
    /\ Py.float hi = Some cur_max
    /\ forall new_min new_max,
         slot_hit (mc_prefix degree direction) new_min new_max
           (mc_deg_name degree direction center) intf
         = intervals_overlap new_min new_max cur_min cur_max.
Proof.
  intros Hno Hfc.
  destruct (float_fmt_2f (Py.fsub fc Py.f_0_05)) as [cur_min Hmin].
  destruct (float_fmt_2f (Py.fadd fc Py.f_0_05)) as [cur_max Hmax].
  exists (mc_deg_intf degree direction fc), (Py.fmt_2f (Py.fsub fc Py.f_0_05)),
    (Py.fmt_2f (Py.fadd fc Py.f_0_05)), cur_min, cur_max.
  split_and!; try done.
  - unfold ensure_mc_deg. rewrite has_interface_lookup, Hno, Hfc. cbn.
    by rewrite lookup_insert_eq.
  - intros new_min new_max. unfold slot_hit.
    rewrite mc_deg_name_prefix, startswith_append.
    unfold mc_deg_intf, with_mc_ttp.
    cbn [negb Intf.mc_ttp McTtp.min_freq McTtp.max_freq Py.str_leaf default id].
    by rewrite Hmin, Hmax.
Qed.

Lemma created_slot_reads_back_witness :
  let fc := S754_finite false 6801139124771226 (-45) in
  interface empty_device !! mc_deg_name 1 "RX" "193.3" = None
  /\ Py.float "193.3" = Some fc
  /\ exists intf lo hi cur_min cur_max,
       interface (fst (ensure_mc_deg empty_device 1 "RX" "193.3"))
         !! mc_deg_name 1 "RX" "193.3" = Some intf
       /\ Intf.mc_ttp intf = Some (McTtp.mk (Some lo) (Some hi))
       /\ lo = Py.fmt_2f (Py.fsub fc Py.f_0_05)
       /\ hi = Py.fmt_2f (Py.fadd fc Py.f_0_05)
       /\ Py.float lo = Some cur_min
       /\ Py.float hi = Some cur_max
       /\ forall new_min new_max,
            slot_hit (mc_prefix 1 "RX") new_min new_max
              (mc_deg_name 1 "RX" "193.3") intf
            = intervals_overlap new_min new_max cur_min cur_max.
Proof.
  cbn zeta. split; [by vm_compute|]. split; [by vm_compute|].
  apply (created_slot_reads_back empty_device 1 "RX" "193.3"); by vm_compute.
Defined.

(** *** Names that the provisioner writes into supporting-interface lists *)

Lemma parse_oms_name n dir :
  0 <= n -> is_direction dir ->
  parse_if_name ("OMS-" +:+ ("DEG" +:+ Py.str_int n) +:+ "-TTP-" +:+ dir)
  = Some (Info.mk (Some "OMS") (Some n) None None (Some dir) None).
Proof.
  intros Hn Hdir.
  destruct (str_int_nonneg n Hn) as (Hd & _ & _).
  pose proof (int_str_int n Hn) as Hint.
  unfold parse_if_name.
  change ("OMS-" +:+ ("DEG" +:+ Py.str_int n) +:+ "-TTP-" +:+ dir)
    with ("OMS" +:+ String "-"
            (("DEG" +:+ Py.str_int n) +:+ String "-" ("TTP" +:+ String "-" dir))).
  rewrite split_srg_name; try done.
  2:{ cbn. by apply digits_no_dash. }
  2:{ by destruct Hdir as [-> | ->]. }
  cbn [last head mbind option_bind fold_left].
  assert (Py.float dir = None) as -> by (destruct Hdir as [-> | ->]; by vm_compute).
  rewrite (scan_part_deg _ _ _ Hint).
  destruct Hdir as [-> | ->]; reflexivity.
Qed.

(** X11: the interfaces that the provisioner creates on a degree point at
    names of the same grammar.  The network media channel that
    [ensure_nmc_deg] creates for direction RX or TX lists one supporting
    interface, the very name that [ensure_mc_deg] gives to the media channel
    of the same degree, direction and frequency; and the media channel that
    [ensure_mc_deg] creates lists one supporting interface whose name
    [parse_if_name] reads as layer OMS, the same degree and direction, and no
    frequency. *)
Theorem supporting_links dev n dir freq_str :
  0 <= n -> is_direction dir ->
  (interface dev !! nmc_deg_name n dir freq_str = None ->
   exists intf,
     interface (fst (ensure_nmc_deg dev n dir freq_str))
       !! nmc_deg_name n dir freq_str = Some intf
     /\ Intf.supporting_interface_list intf = [mc_deg_name n dir freq_str])
  /\ (interface dev !! mc_deg_name n dir freq_str = None ->
      is_Some (Py.float freq_str) ->
      exists intf oms,
        interface (fst (ensure_mc_deg dev n dir freq_str))
          !! mc_deg_name n dir freq_str = Some intf
        /\ Intf.supporting_interface_list intf = [oms]
        /\ parse_if_name oms
           = Some (Info.mk (Some "OMS") (Some n) None None (Some dir) None)).
Proof.
  intros Hn Hdir. split.
  - intros Hno. exists (nmc_deg_intf n dir freq_str). split.
    + unfold ensure_nmc_deg. rewrite has_interface_lookup, Hno. cbn.
      by rewrite lookup_insert_eq.
    + by apply nmc_deg_intf_supporting.
  - intros Hno [fc Hfc].
    exists (mc_deg_intf n dir fc), ("OMS-" +:+ ("DEG" +:+ Py.str_int n) +:+ "-TTP-" +:+ dir).
    split_and!.
    + unfold ensure_mc_deg. rewrite has_interface_lookup, Hno, Hfc. cbn.
      by rewrite lookup_insert_eq.
    + by destruct Hdir as [-> | ->].
    + by apply parse_oms_name.
Qed.

Lemma supporting_links_witness :
  0 <= 2 /\ is_direction "TX"
  /\ (interface empty_device !! nmc_deg_name 2 "TX" "193.3" = None ->
      exists intf,
        interface (fst (ensure_nmc_deg empty_device 2 "TX" "193.3"))
          !! nmc_deg_name 2 "TX" "193.3" = Some intf
        /\ Intf.supporting_interface_list intf = [mc_deg_name 2 "TX" "193.3"])
  /\ (interface empty_device !! mc_deg_name 2 "TX" "193.3" = None ->
      is_Some (Py.float "193.3") ->
      exists intf oms,
        interface (fst (ensure_mc_deg empty_device 2 "TX" "193.3"))
          !! mc_deg_name 2 "TX" "193.3" = Some intf
        /\ Intf.supporting_interface_list intf = [oms]
        /\ parse_if_name oms
           = Some (Info.mk (Some "OMS") (Some 2) None None (Some "TX") None)).
Proof.
  split; [lia|]. split; [by right|].
  apply (supporting_links empty_device 2 "TX" "193.3"); [lia | by right].
Defined.

(** *** Precedence among the tokens of a name *)

Lemma scan_part_degree info p :
  Info.degree_id (scan_part info p)
  = if Py.startswith p "DEG" then
      match Py.int (Py.slice_from 3 p) with
      | Some n => Some n
      | None => Info.degree_id info
      end
    else Info.degree_id info.
Proof.
  unfold scan_part. destruct (Py.startswith p "DEG").
  - by destruct (Py.int _).
  - repeat case_match; done.
Qed.

Lemma scan_parts_degree_none l info :
  (forall q, q ∈ l -> Py.startswith q "DEG" = true ->
             Py.int (Py.slice_from 3 q) = None) ->
  Info.degree_id (fold_left scan_part l info) = Info.degree_id info.
Proof.
  revert info. induction l as [|q l IH]; intros info Hl; [done|].
  cbn [fold_left]. rewrite IH by (intros; apply Hl; set_solver).
  rewrite scan_part_degree. destruct (Py.startswith q "DEG") eqn:E; [|done].
  rewrite (Hl q); [done | set_solver | done].
Qed.

(** X12: precedence in [parse_if_name].  A token RX anywhere in the name
    gives direction RX, whether a token TX is there or not; and of several
    tokens DEG<n>, the last one whose number [int] accepts gives the degree. *)
Theorem parse_precedence (s : string) :
  exists info,
    parse_if_name s = Some info
    /\ (Py.contains "RX" (Py.split "-" s) = true -> Info.direction info = Some "RX")
    /\ (forall (l1 : list string) (p : string) (l2 : list string) n,
          Py.split "-" s = (l1 ++ p :: l2)%list ->
          Py.startswith p "DEG" = true ->
          Py.int (Py.slice_from 3 p) = Some n ->
          (forall q, q ∈ l2 -> Py.startswith q "DEG" = true ->
                     Py.int (Py.slice_from 3 q) = None) ->
          Info.degree_id info = Some n).
Proof.
  unfold parse_if_name. pose proof (split_nonempty "-" s) as Hne.
  destruct (Py.split "-" s) as [|p0 ps] eqn:Hparts; [done|]. clear Hne.
  set (parts := p0 :: ps).
  assert (exists t, last parts = Some t) as [t Ht].
  { destruct (last parts) eqn:E; [eauto|]. by apply last_None in E. }
  rewrite Ht. cbn [mbind option_bind head].
  set (i1 := if Py.contains "RX" parts then _ else _).
  set (i2 := match Py.float t with Some _ => _ | None => _ end).
  set (i3 := fold_left scan_part parts i2).
  eexists. split; [reflexivity|]. split.
  - intros Hrx.
    assert (Info.direction i3 = Some "RX") as Hdir.
    { subst i3. destruct (scan_parts_keep parts i2) as (_ & -> & _).
      subst i2 i1. rewrite Hrx. by destruct (Py.float t). }
    by repeat case_match.
  - intros l1 p l2 n Hsplit Hdeg Hint Hlast.
    assert (Info.degree_id i3 = Some n) as Hd.
    { subst i3. rewrite Hsplit, fold_left_app. cbn [fold_left].
      rewrite scan_parts_degree_none by done.
      by rewrite scan_part_degree, Hdeg, Hint. }
    by repeat case_match.
Qed.

Example parse_precedence_run :
  parse_if_name "MC-TTP-DEG1-DEG2-DEGx-TX-RX-193.3"
  = Some (Info.mk (Some "MC") (Some 2) None None (Some "RX") (Some "193.3")).
Proof. by vm_compute. Qed.

(** *** Names do not collide *)

Lemma digits_dash_inj (s s' r r' : string) :
  all_chars Py.is_digit s = true -> all_chars Py.is_digit s' = true ->
  s +:+ String "-" r = s' +:+ String "-" r' -> s = s' /\ r = r'.
Proof.
  revert s'. induction s as [|a s IH]; intros [|a' s'] Hs Hs' H.
  - by injection H as ->.
  - change (String "-" r = String a' (s' +:+ String "-" r')) in H.
    injection H as <- _. done.
  - change (String a (s +:+ String "-" r) = String "-" r') in H.
    injection H as -> _. done.
  - change (String a (s +:+ String "-" r) = String a' (s' +:+ String "-" r')) in H.
    injection H as -> H.
    change (all_chars Py.is_digit (String a' s)) with
      (Py.is_digit a' && all_chars Py.is_digit s) in Hs.
    change (all_chars Py.is_digit (String a' s')) with
      (Py.is_digit a' && all_chars Py.is_digit s') in Hs'.
    apply andb_true_iff in Hs as [_ Hs]. apply andb_true_iff in Hs' as [_ Hs'].
    by destruct (IH s' Hs Hs' H) as [-> ->].
Qed.

Lemma fmt_02d_inj n m : 0 <= n -> 0 <= m -> Py.fmt_02d n = Py.fmt_02d m -> n = m.
Proof.
  intros Hn Hm H.
  destruct (fmt_02d_nonneg n Hn) as (_ & _ & Vn).
  destruct (fmt_02d_nonneg m Hm) as (_ & _ & Vm).
  rewrite H, Vm in Vn. injection Vn as Vn. lia.
Qed.

Lemma direction_dash_inj d d' (f f' : string) :
  is_direction d -> is_direction d' ->
  d +:+ String "-" f = d' +:+ String "-" f' -> d = d' /\ f = f'.
Proof.
  intros [-> | ->] [-> | ->] H; try discriminate H; by injection H as ->.
Qed.

Lemma numbered_name_inj (s s' d d' f f' : string) :
  all_chars Py.is_digit s = true -> all_chars Py.is_digit s' = true ->
  is_direction d -> is_direction d' ->
  s +:+ "-" +:+ d +:+ "-" +:+ f = s' +:+ "-" +:+ d' +:+ "-" +:+ f' ->
  s = s' /\ d = d' /\ f = f'.
Proof.
  intros Hs Hs' Hd Hd' H.
  apply (digits_dash_inj _ _ _ _ Hs Hs') in H as [-> H].
  by apply (direction_dash_inj _ _ _ _ Hd Hd') in H as [-> ->].
Qed.

(** X13: the provisioner gives distinct interfaces distinct names.  For
    indices that are not negative and directions RX or TX, and for any
    frequency strings, each of the three naming schemes determines its index,
    direction and frequency string, and no name of one scheme is a name of
    another. *)
Theorem interface_names_distinct (n n' : Z) (d d' f f' : string) :
  0 <= n -> 0 <= n' -> is_direction d -> is_direction d' ->
  (mc_deg_name n d f = mc_deg_name n' d' f' -> n = n' /\ d = d' /\ f = f')
  /\ (nmc_deg_name n d f = nmc_deg_name n' d' f' -> n = n' /\ d = d' /\ f = f')
  /\ (nmc_srg_pp_name n d f = nmc_srg_pp_name n' d' f' -> n = n' /\ d = d' /\ f = f')
  /\ mc_deg_name n d f <> nmc_deg_name n' d' f'
  /\ mc_deg_name n d f <> nmc_srg_pp_name n' d' f'
  /\ nmc_deg_name n d f <> nmc_srg_pp_name n' d' f'.
Proof.
  intros Hn Hn' Hd Hd'.
  destruct (str_int_nonneg n Hn) as (Hs & _ & _).
  destruct (str_int_nonneg n' Hn') as (Hs' & _ & _).
  destruct (fmt_02d_nonneg n Hn) as (Hp & _ & _).
  destruct (fmt_02d_nonneg n' Hn') as (Hp' & _ & _).
  split_and!.
  - unfold mc_deg_name. intros H%String.app_inj.
    apply numbered_name_inj in H as (H & -> & ->); try done.
    by apply str_int_inj in H as ->.
  - unfold nmc_deg_name. intros H%String.app_inj.
    apply numbered_name_inj in H as (H & -> & ->); try done.
    by apply str_int_inj in H as ->.
  - unfold nmc_srg_pp_name. intros H%String.app_inj.
    apply numbered_name_inj in H as (H & -> & ->); try done.
    by apply fmt_02d_inj in H as ->.
  - apply mc_nmc_distinct.
  - apply mc_srg_distinct.
  - apply nmc_srg_distinct.
Qed.

Lemma interface_names_distinct_witness :
  0 <= 1 /\ 0 <= 1 /\ is_direction "RX" /\ is_direction "RX"
  /\ (mc_deg_name 1 "RX" "193.3" = mc_deg_name 1 "RX" "193.3" ->
      1 = 1 /\ "RX" = "RX" /\ "193.3" = "193.3")
  /\ (nmc_deg_name 1 "RX" "193.3" = nmc_deg_name 1 "RX" "193.3" ->
      1 = 1 /\ "RX" = "RX" /\ "193.3" = "193.3")
  /\ (nmc_srg_pp_name 1 "RX" "193.3" = nmc_srg_pp_name 1 "RX" "193.3" ->
      1 = 1 /\ "RX" = "RX" /\ "193.3" = "193.3")
  /\ mc_deg_name 1 "RX" "193.3" <> nmc_deg_name 1 "RX" "193.3"
  /\ mc_deg_name 1 "RX" "193.3" <> nmc_srg_pp_name 1 "RX" "193.3"
  /\ nmc_deg_name 1 "RX" "193.3" <> nmc_srg_pp_name 1 "RX" "193.3".
Proof.
  split; [lia|]. split; [lia|]. split; [by left|]. split; [by left|].
  apply (interface_names_distinct 1 1 "RX" "RX" "193.3" "193.3");
    [lia | lia | by left | by left].
Defined.

(** X14: build-connection gives distinct requests distinct connection
    names.  For a source degree and a destination index that are not
    negative, the connection name determines the source degree, the kind and
    index of the destination, and the frequency string. *)
Theorem conn_names_distinct (s s' : Z) (dst dst' : destination) (f f' : string) :
  0 <= s -> 0 <= s' -> 0 <= destination_index dst -> 0 <= destination_index dst' ->
  conn_name_of s dst f = conn_name_of s' dst' f' ->
  s = s' /\ dst = dst' /\ f = f'.
Proof.
  intros Hs Hs' Hk Hk' H.
  destruct (str_int_nonneg s Hs) as (Ds & _ & _).
  destruct (str_int_nonneg s' Hs') as (Ds' & _ & _).
  assert (forall (a b x y : string),
            all_chars Py.is_digit a = true -> all_chars Py.is_digit b = true ->
            a +:+ "-TX-" +:+ x = b +:+ "-TX-" +:+ y -> a = b /\ x = y) as Htx.
  { intros a b x y Ha Hb E.
    apply (digits_dash_inj _ _ _ _ Ha Hb) in E as [-> E]. by injection E as ->. }
  destruct dst as [k|k], dst' as [k'|k']; cbn [destination_index] in Hk, Hk';
    unfold conn_name_of in H; apply String.app_inj in H;
    apply (digits_dash_inj _ _ _ _ Ds Ds') in H as [E H];
    apply (str_int_inj _ _ Hs Hs') in E as ->; try discriminate H.
  - apply (String.app_inj "RX-to-DEG") in H.
    destruct (str_int_nonneg k Hk) as (Dk & _ & _).
    destruct (str_int_nonneg k' Hk') as (Dk' & _ & _).
    apply Htx in H as [E ->]; try done.
    by apply str_int_inj in E as ->.
  - apply (String.app_inj "RX-to-SRG1-PP") in H.
    destruct (fmt_02d_nonneg k Hk) as (Dk & _ & _).
    destruct (fmt_02d_nonneg k' Hk') as (Dk' & _ & _).
    apply Htx in H as [E ->]; try done.
    by apply fmt_02d_inj in E as ->.
Qed.

Lemma conn_names_distinct_witness :
  0 <= 1 /\ 0 <= 1 /\ 0 <= destination_index (ToPort 4)
  /\ 0 <= destination_index (ToPort 4)
  /\ conn_name_of 1 (ToPort 4) "193.3" = conn_name_of 1 (ToPort 4) "193.3"
  /\ (1 = 1 /\ ToPort 4 = ToPort 4 /\ "193.3" = "193.3").
Proof.
  split; [lia|]. split; [lia|]. split; [cbn; lia|]. split; [cbn; lia|].
  split; [reflexivity|].
  apply (conn_names_distinct 1 1 (ToPort 4) (ToPort 4) "193.3" "193.3");
    [lia | lia | cbn; lia | cbn; lia | reflexivity].
Defined.

(** *** delete-connection only removes *)

(** X15: delete-connection only removes, and only on the named device.
    Whatever it returns, the topology cache, the device names and every other
    device are as before; on the named device the address and the circuit
    packs are as before, every interface that is left is an interface that
    was there, unchanged, every connection of another name is unchanged, and
    no connection of the given name is left. *)
Theorem delete_only_removes (root : Root) (device_name conn_name : string) :
  let root' := fst (DeleteConnection root device_name conn_name) in
  topology root' = topology root
  /\ map fst (devices root') = map fst (devices root)
  /\ (forall n, n <> device_name ->
                lookup_device n (devices root') = lookup_device n (devices root))
  /\ (forall dev,
        lookup_device device_name (devices root) = Some dev ->
        exists dev',
          lookup_device device_name (devices root') = Some dev'
          /\ address dev' = address dev
          /\ circuit_packs dev' = circuit_packs dev
          /\ (forall x i, interface dev' !! x = Some i -> interface dev !! x = Some i)
          /\ (forall k, k <> conn_name ->
                        roadm_connections dev' !! k = roadm_connections dev !! k)
          /\ roadm_connections dev' !! conn_name = None).
Proof.
  cbn zeta. unfold DeleteConnection.
  destruct (lookup_device device_name (devices root)) as [dev|] eqn:Hdev;
    [|by split_and!].
  destruct (roadm_connections dev !! conn_name) as [conn|] eqn:Hconn; cbn [fst].
  - cbn [topology devices]. split_and!; [done | apply store_device_names | |].
    + intros n Hn. by apply lookup_store_device_ne.
    + intros ? [= <-]. exists (delete_on_device dev conn_name conn).
      split_and!; [by eapply lookup_store_device | done | done | | |].
      * intros x i. rewrite lookup_delete_on_device. by case_bool_decide.
      * intros k Hk. cbn. by rewrite lookup_delete_ne.
      * cbn. by rewrite lookup_delete_eq.
  - split_and!; try done. intros ? [= <-]. exists dev. by split_and!.
Qed.

(** *** discover-topology: the mirrored connections *)

Lemma mirror_connections_from root (names : list string) d dev l conns :
  d ∈ names -> lookup_device d (devices root) = Some dev ->
  (forall kv, kv ∈ l -> roadm_connections dev !! kv.1 = Some kv.2) ->
  (forall c tc, conns !! c = Some tc -> mirrored_from root names c tc) ->
  forall c tc, fold_left (mirror_connection d) l conns !! c = Some tc ->
               mirrored_from root names c tc.
Proof.
  intros Hin Hdev. revert conns.
  induction l as [|[cname rc] l IH]; intros conns Hl Hc; [done|].
  cbn [fold_left]. apply IH; [intros; apply Hl; set_solver|].
  intros c tc. unfold mirror_connection.
  rewrite lookup_insert. case_decide; [|by apply Hc].
  intros [= <-]. subst c. exists d, dev, rc. split_and!; try done.
  apply (Hl (cname, rc)). set_solver.
Qed.

Lemma mirror_connections_names d l conns c :
  is_Some (fold_left (mirror_connection d) l conns !! c)
  <-> is_Some (conns !! c) \/ c ∈ l.*1.
Proof.
  revert conns. induction l as [|[cname rc] l IH]; intros conns; cbn [fold_left].
  - cbn. set_solver.
  - rewrite IH. unfold mirror_connection. rewrite lookup_insert. cbn [fmap list_fmap fst].
    case_decide.
    + subst. split; [intros _; right; set_solver | intros _; left; eauto].
    + set_solver.
Qed.

Lemma discover_device_connections root (names : list string) topo d topo' :
  d ∈ names ->
  discover_device root topo d = Some topo' ->
  (forall c tc, connection topo !! c = Some tc -> mirrored_from root names c tc) ->
  forall c tc, connection topo' !! c = Some tc -> mirrored_from root names c tc.
Proof.
  intros Hin. unfold discover_device.
  destruct (lookup_device d (devices root)) as [dev|] eqn:Hdev; [|by intros [= <-]].
  destruct (for_each scan_circuit_pack _ _) as [n1|]; [|done]. cbn.
  destruct (for_each scan_interface _ _) as [n2|]; [|done]. cbn.
  intros [= <-] Hc. cbn [connection].
  eapply mirror_connections_from; try done.
  intros [k rc] Hk. by apply elem_of_map_to_list in Hk.
Qed.

Lemma discover_device_connection_names root topo d topo' c :
  discover_device root topo d = Some topo' ->
  is_Some (connection topo' !! c)
  <-> is_Some (connection topo !! c)
      \/ exists dev, lookup_device d (devices root) = Some dev
                     /\ is_Some (roadm_connections dev !! c).
Proof.
  unfold discover_device.
  destruct (lookup_device d (devices root)) as [dev|] eqn:Hdev.
  - destruct (for_each scan_circuit_pack _ _) as [n1|]; [|done]. cbn.
    destruct (for_each scan_interface _ _) as [n2|]; [|done]. cbn.
    intros [= <-]. cbn [connection]. rewrite mirror_connections_names.
    assert (c ∈ (map_to_list (roadm_connections dev)).*1
            <-> is_Some (roadm_connections dev !! c)) as ->.
    { rewrite list_elem_of_fmap. split.
      - intros ([k rc] & -> & Hk%elem_of_map_to_list). eauto.
      - intros [rc Hrc]. exists (c, rc). split; [done|]. by apply elem_of_map_to_list. }
    split; (intros [?|?]; [by left|right]); [eauto|].
    by destruct H as (? & [= <-] & ?).
  - intros [= <-]. split; [by left|]. by intros [?|(? & [=] & _)].
Qed.

Lemma discover_devices_connections root (names : list string) l topo topo' :
  l ⊆ names ->
  for_each (discover_device root) l topo = Some topo' ->
  (forall c tc, connection topo !! c = Some tc -> mirrored_from root names c tc) ->
  forall c tc, connection topo' !! c = Some tc -> mirrored_from root names c tc.
Proof.
  revert topo. induction l as [|x l IH]; intros topo Hsub; cbn.
  - by intros [= <-].
  - destruct (discover_device root topo x) as [t1|] eqn:Hx; [|done]. cbn.
    intros Hl Hc. apply (IH t1); [set_solver | done |].
    eapply discover_device_connections; [|done..]. set_solver.
Qed.

Lemma discover_devices_connection_names root l topo topo' c :
  for_each (discover_device root) l topo = Some topo' ->
  is_Some (connection topo' !! c)
  <-> is_Some (connection topo !! c)
      \/ exists d dev, d ∈ l /\ lookup_device d (devices root) = Some dev
                       /\ is_Some (roadm_connections dev !! c).
Proof.
  revert topo. induction l as [|x l IH]; intros topo; cbn.
  - intros [= <-]. split; [by left|]. intros [?|(? & ? & ?%elem_of_nil & _)]; done.
  - destruct (discover_device root topo x) as [t1|] eqn:Hx; [|done]. cbn.
    intros Hl. rewrite (IH _ Hl), (discover_device_connection_names _ _ _ _ c Hx).
    split.
    + intros [[?|(dev & ? & ?)]|(d & dev & ? & ? & ?)]; [by left|right..].
      * exists x, dev. split_and!; [set_solver|done..].
      * exists d, dev. split_and!; [set_solver|done..].
    + intros [?|(d & dev & [->|?]%elem_of_cons & ? & ?)]; eauto 10.
Qed.

(** X16: the connections of the cache after discover-topology.  Every entry
    is the mirror of a connection of that name on a discovered device that the
    store has: its name, the device, and the two interface leaves as [str]
    gives them.  And the name of every connection of every such device is a
    key of the cache. *)
Theorem discover_connections (root : Root) (input_device : list string) :
  let devs := discovered_devices root input_device in
  let topo := topology (fst (DiscoverTopology root input_device)) in
  (forall c tc, connection topo !! c = Some tc -> mirrored_from root devs c tc)
  /\ (forall c, is_Some (connection topo !! c)
                <-> exists d dev, d ∈ devs /\ lookup_device d (devices root) = Some dev
                                  /\ is_Some (roadm_connections dev !! c)).
Proof.
  cbn zeta. destruct (discover_returns root input_device) as (topo & Htopo & ->).
  cbn [fst topology]. split.
  - eapply discover_devices_connections; [done | apply Htopo |].
    intros c tc. cbn. by rewrite lookup_empty.
  - intros c. rewrite (discover_devices_connection_names _ _ _ _ c Htopo). cbn.
    rewrite lookup_empty. split; [|by right].
    intros [[? [=]]|?]; done.
Qed.

(** *** discover-topology: nodes, degrees, SRGs and termination points *)

Lemma contains_nonempty t l :
  Py.contains t l = true -> Forall (fun x => x <> "") l -> truthy (Some t) = true.
Proof.
  unfold Py.contains. rewrite existsb_exists. intros (x & Hx & Heq) Hall.
  apply String.eqb_eq in Heq. subst x.
  rewrite Forall_forall in Hall. apply list_elem_of_In in Hx.
  specialize (Hall _ Hx). by destruct t.
Qed.

Lemma parse_fields_truthy s info :
  parse_if_name s = Some info ->
  (Info.layer info = None \/ truthy (Info.layer info) = true)
  /\ (Info.direction info = None \/ truthy (Info.direction info) = true)
  /\ (Info.frequency info = None \/ truthy (Info.frequency info) = true).
Proof.
  unfold parse_if_name. pose proof (split_nonempty "-" s) as Hne.
  destruct (Py.split "-" s) as [|p0 ps] eqn:Hparts; [done|]. clear Hne.
  set (parts := p0 :: ps).
  destruct (last parts) as [t|] eqn:Ht; [|done]. cbn [mbind option_bind head].
  set (i1 := if Py.contains "RX" parts then _ else _).
  set (i2 := match Py.float t with Some _ => _ | None => _ end).
  set (i3 := fold_left scan_part parts i2).
  destruct (scan_parts_keep parts i2) as (Hl & Hdir & Hf). fold i3 in Hl, Hdir, Hf.
  assert (Info.layer i3 = None) as Hl3.
  { rewrite Hl. subst i2 i1. by repeat case_match. }
  assert (Info.direction i3 = None \/ truthy (Info.direction i3) = true) as Hd3.
  { rewrite Hdir. subst i2 i1. repeat case_match; cbn; auto. }
  assert (Info.frequency i3 = None \/ truthy (Info.frequency i3) = true) as Hf3.
  { rewrite Hf. subst i2. destruct (Py.float t) eqn:Hfl.
    - right. destruct t; [by vm_compute in Hfl | reflexivity].
    - left. subst i1. by repeat case_match. }
  change (head parts) with (Some p0). cbn [mbind option_bind].
  destruct (Py.contains p0 layer_tags) eqn:Htag.
  { intros [= <-]. split_and!; [right | exact Hd3 | exact Hf3].
    apply (contains_nonempty _ _ Htag). by repeat constructor. }
  destruct (Py.startswith p0 "SRG"); intros [= <-];
    (split_and!; [|exact Hd3|exact Hf3]); cbn; auto.
Qed.

Lemma elem_of_add (k x : Z) (X : gset Z) :
  k ∈ (if bool_decide (x ∈ X) then X else {[x]} ∪ X) <-> k ∈ X \/ x = k.
Proof. case_bool_decide; set_solver. Qed.

Lemma scan_interface_spec n name n' :
  scan_interface n name = Some n' ->
  exists info,
    parse_if_name name = Some info
    /\ Node.device n' = Node.device n
    /\ Node.mgmt_ip n' = Node.mgmt_ip n
    /\ (forall k, k ∈ Node.degree n' <-> k ∈ Node.degree n \/ Info.degree_id info = Some k)
    /\ (forall k, k ∈ Node.srg n' <-> k ∈ Node.srg n \/ Info.srg_id info = Some k)
    /\ (forall x, x <> name -> Node.tp n' !! x = Node.tp n !! x)
    /\ is_Some (Node.tp n' !! name)
    /\ (Node.tp n !! name = None \/ Node.tp n !! name = Some (tp_of name info) ->
        Node.tp n' !! name = Some (tp_of name info)).
Proof.
  intros Hs. unfold scan_interface in Hs.
  destruct (parse_if_name name) as [info|] eqn:Hp; [|done].
  destruct (parse_fields_truthy _ _ Hp) as (Hl & Hd & Hf).
  cbn [mbind option_bind] in Hs. exists info. split; [done|].
  destruct info as [ly dg sg pp dr fr]. cbn [Info.layer Info.degree_id Info.srg_id
    Info.direction Info.frequency] in *.
  assert (forall A (x : option A) (k : A), (Some k = x) <-> x = Some k) as Hsym
    by (intros; split; congruence).
  destruct dg as [dg|], sg as [sg|]; injection Hs as <-;
    cbn [set_tp add_degree add_srg Node.device Node.mgmt_ip Node.degree Node.srg Node.tp];
    (split_and!; try done;
     [ intros k; rewrite ?elem_of_add; try (split; [tauto | intros [?|?]; [tauto | try done]]);
       try (split; [intros [?|?]; [by left | right; congruence]
                   | intros [?|?]; [by left | right; congruence]])
     | intros k; rewrite ?elem_of_add; try (split; [tauto | intros [?|?]; [tauto | try done]]);
       try (split; [intros [?|?]; [by left | right; congruence]
                   | intros [?|?]; [by left | right; congruence]])
     | by intros x Hx; rewrite lookup_insert_ne
     | rewrite lookup_insert_eq; eauto
     | intros Hold; rewrite lookup_insert_eq; f_equal; unfold tp_of;
       cbn [Info.layer Info.degree_id Info.srg_id Info.direction Info.frequency];
       destruct Hold as [-> | ->]; cbn [default tp_of TP.interface TP.layer TP.degree_id
         TP.srg_id TP.direction TP.frequency Info.layer Info.degree_id Info.srg_id
         Info.direction Info.frequency];
       destruct Hl as [-> | ->], Hd as [-> | ->], Hf as [-> | ->]; reflexivity ]).
Qed.

Lemma scan_circuit_pack_spec n cp n' :
  scan_circuit_pack n cp = Some n' ->
  Node.device n' = Node.device n
  /\ Node.mgmt_ip n' = Node.mgmt_ip n
  /\ Node.tp n' = Node.tp n
  /\ (forall k, k ∈ Node.degree n'
                <-> k ∈ Node.degree n
                    \/ exists g, re_DEG_dash cp = Some g /\ Py.int g = Some k)
  /\ (forall k, k ∈ Node.srg n'
                <-> k ∈ Node.srg n
                    \/ exists g, re_DEG_dash cp = None /\ re_SRG cp = Some g
                                 /\ Py.int g = Some k).
Proof.
  unfold scan_circuit_pack.
  destruct (re_DEG_dash cp) as [g|].
  - destruct (Py.int g) as [x|] eqn:Hx; [|done]. intros [= <-].
    cbn [add_degree Node.device Node.mgmt_ip Node.degree Node.srg Node.tp].
    split_and!; try done.
    + intros k. rewrite elem_of_add. split.
      * intros [?| <-]; [by left | right; eauto].
      * intros [?|(g' & [= <-] & Hg')]; [by left | right; congruence].
    + intros k. split; [by left | by intros [?|(? & [=] & _)]].
  - destruct (re_SRG cp) as [g|].
    + destruct (Py.int g) as [x|] eqn:Hx; [|done]. intros [= <-].
      cbn [add_srg Node.device Node.mgmt_ip Node.degree Node.srg Node.tp].
      split_and!; try done.
      * intros k. split; [by left | by intros [?|(? & [=] & _)]].
      * intros k. rewrite elem_of_add. split.
        -- intros [?| <-]; [by left | right; eauto].
        -- intros [?|(g' & _ & [= <-] & Hg')]; [by left | right; congruence].
    + intros [= <-]. split_and!; try done.
      * intros k. split; [by left | by intros [?|(? & [=] & _)]].
      * intros k. split; [by left | by intros [?|(? & _ & [=] & _)]].
Qed.

Lemma scan_circuit_packs_spec cps n n' :
  for_each scan_circuit_pack cps n = Some n' ->
  Node.device n' = Node.device n
  /\ Node.mgmt_ip n' = Node.mgmt_ip n
  /\ Node.tp n' = Node.tp n
  /\ (forall k, k ∈ Node.degree n'
                <-> k ∈ Node.degree n
                    \/ exists cp g, cp ∈ cps /\ re_DEG_dash cp = Some g
                                    /\ Py.int g = Some k)
  /\ (forall k, k ∈ Node.srg n'
                <-> k ∈ Node.srg n
                    \/ exists cp g, cp ∈ cps /\ re_DEG_dash cp = None
                                    /\ re_SRG cp = Some g /\ Py.int g = Some k).
Proof.
  revert n. induction cps as [|cp cps IH]; intros n; cbn [for_each].
  - intros [= <-]. split_and!; try done; intros k; (split; [by left|]);
      intros [?|(? & ? & ?%elem_of_nil & _)]; done.
  - destruct (scan_circuit_pack n cp) as [n1|] eqn:H1; [|done]. cbn [mbind option_bind].
    intros Hn'. destruct (IH _ Hn') as (-> & -> & -> & Hd & Hs).
    destruct (scan_circuit_pack_spec _ _ _ H1) as (-> & -> & -> & Hd1 & Hs1).
    split_and!; try done.
    + intros k. rewrite Hd, Hd1. split.
      * intros [[?|(g & ? & ?)]|(cp' & g & ? & ? & ?)]; [by left|right..].
        -- exists cp, g. split_and!; [set_solver|done..].
        -- exists cp', g. split_and!; [set_solver|done..].
      * intros [?|(cp' & g & [->|?]%elem_of_cons & ? & ?)]; eauto 10.
    + intros k. rewrite Hs, Hs1. split.
      * intros [[?|(g & ? & ? & ?)]|(cp' & g & ? & ? & ? & ?)]; [by left|right..].
        -- exists cp, g. split_and!; [set_solver|done..].
        -- exists cp', g. split_and!; [set_solver|done..].
      * intros [?|(cp' & g & [->|?]%elem_of_cons & ? & ? & ?)]; eauto 10.
Qed.

Lemma scan_interfaces_spec names n n' :
  for_each scan_interface names n = Some n' ->
  tps_parsed (Node.tp n) ->
  Node.device n' = Node.device n
  /\ Node.mgmt_ip n' = Node.mgmt_ip n
  /\ (forall k, k ∈ Node.degree n'
                <-> k ∈ Node.degree n
                    \/ exists name info, name ∈ names /\ parse_if_name name = Some info
                                         /\ Info.degree_id info = Some k)
  /\ (forall k, k ∈ Node.srg n'
                <-> k ∈ Node.srg n
                    \/ exists name info, name ∈ names /\ parse_if_name name = Some info
                                         /\ Info.srg_id info = Some k)
  /\ (forall x, is_Some (Node.tp n' !! x) <-> is_Some (Node.tp n !! x) \/ x ∈ names)
  /\ tps_parsed (Node.tp n').
Proof.
  revert n. induction names as [|name names IH]; intros n; cbn [for_each].
  - intros [= <-] Hp. split_and!; try done.
    + intros k; (split; [by left|]); intros [?|(? & ? & ?%elem_of_nil & _)]; done.
    + intros k; (split; [by left|]); intros [?|(? & ? & ?%elem_of_nil & _)]; done.
    + intros x. split; [by left|]. by intros [?|?%elem_of_nil].
  - destruct (scan_interface n name) as [n1|] eqn:H1; [|done]. cbn [mbind option_bind].
    intros Hn' Hp.
    destruct (scan_interface_spec _ _ _ H1)
      as (info & Hinfo & Hdev1 & Hip1 & Hd1 & Hs1 & Hne1 & Hin1 & Hnew1).
    assert (tps_parsed (Node.tp n1)) as Hp1.
    { intros x tp Hx. destruct (decide (x = name)) as [->|Hxn].
      - exists info. split; [done|].
        assert (Node.tp n1 !! name = Some (tp_of name info)) as Heq; [|congruence].
        apply Hnew1. destruct (Node.tp n !! name) as [tp0|] eqn:Hold; [right|by left].
        destruct (Hp _ _ Hold) as (info0 & ? & ->). congruence.
      - rewrite Hne1 in Hx by done. by apply Hp. }
    destruct (IH _ Hn' Hp1) as (-> & -> & Hd & Hs & Hdom & Hp').
    split_and!; try done.
    + intros k. rewrite Hd, Hd1. split.
      * intros [[?|?]|(x & i & ? & ? & ?)]; [by left|right..].
        -- exists name, info. split_and!; [set_solver|done..].
        -- exists x, i. split_and!; [set_solver|done..].
      * intros [?|(x & i & [->|?]%elem_of_cons & ? & ?)]; [by left; left | |eauto 10].
        left; right. congruence.
    + intros k. rewrite Hs, Hs1. split.
      * intros [[?|?]|(x & i & ? & ? & ?)]; [by left|right..].
        -- exists name, info. split_and!; [set_solver|done..].
        -- exists x, i. split_and!; [set_solver|done..].
      * intros [?|(x & i & [->|?]%elem_of_cons & ? & ?)]; [by left; left | |eauto 10].
        left; right. congruence.
    + intros x. rewrite Hdom. destruct (decide (x = name)) as [->|Hxn].
      * split; [intros _; right; set_solver | intros _; by left].
      * rewrite Hne1 by done. set_solver.
Qed.

Lemma node_before_new dev : node_before dev Node.new.
Proof.
  split_and!; cbn; [by left | | | set_solver..].
  - intros name. rewrite lookup_empty. by intros [? [=]].
  - intros name tp. by rewrite lookup_empty.
Qed.

Lemma node_before_of d dev nd : node_of d dev nd -> node_before dev nd.
Proof.
  intros (_ & Hip & Hdom & Hp & Hd & Hs).
  split_and!; [by right | by intros name; rewrite Hdom | done
              | by intros k; rewrite Hd | by intros k; rewrite Hs].
Qed.

Lemma elem_of_interface_names (ifs : gmap string Intf.t) name :
  name ∈ map fst (map_to_list ifs) <-> is_Some (ifs !! name).
Proof.
  change (map fst (map_to_list ifs)) with ((map_to_list ifs).*1).
  rewrite list_elem_of_fmap. split.
  - intros ([k v] & -> & Hk%elem_of_map_to_list). eauto.
  - intros [v Hv]. exists (name, v). split; [done|]. by apply elem_of_map_to_list.
Qed.

Lemma discover_device_node root topo d dev topo' :
  lookup_device d (devices root) = Some dev ->
  discover_device root topo d = Some topo' ->
  node_before dev (default Node.new (node topo !! d)) ->
  exists nd, node topo' = <[d := nd]> (node topo) /\ node_of d dev nd.
Proof.
  intros Hdev. unfold discover_device. rewrite Hdev.
  set (n := default Node.new (node topo !! d)).
  destruct (for_each scan_circuit_pack _ _) as [n1|] eqn:H1; [|done].
  cbn [mbind option_bind].
  destruct (for_each scan_interface _ _) as [n2|] eqn:H2; [|done].
  cbn [mbind option_bind]. intros [= <-] (Hip & Hdom & Hp & Hd & Hs).
  exists n2. split; [done|].
  destruct (scan_circuit_packs_spec _ _ _ H1) as (Hdev1 & Hip1 & Htp1 & Hd1 & Hs1).
  cbn [Node.device Node.mgmt_ip Node.degree Node.srg Node.tp] in *.
  destruct (scan_interfaces_spec _ _ _ H2) as (Hdev2 & Hip2 & Hd2 & Hs2 & Hdom2 & Hp2).
  { by rewrite Htp1. }
  split_and!.
  - by rewrite Hdev2, Hdev1.
  - rewrite Hip2, Hip1. destruct (truthy (address dev)); [done|].
    by destruct Hip as [-> | ->].
  - intros name. rewrite Hdom2, Htp1, elem_of_interface_names. split; [|by right].
    intros [?|?]; [by apply Hdom | done].
  - done.
  - intros k. rewrite Hd2, Hd1. unfold degree_source. split.
    + intros [[?|?]|(name & info & ?%elem_of_interface_names & ? & ?)];
        [by apply Hd | by left | right; eauto].
    + intros [?|(name & info & ?%elem_of_interface_names & ? & ?)];
        [left; by right | right; eauto].
  - intros k. rewrite Hs2, Hs1. unfold srg_source. split.
    + intros [[?|?]|(name & info & ?%elem_of_interface_names & ? & ?)];
        [by apply Hs | by left | right; eauto].
    + intros [?|(name & info & ?%elem_of_interface_names & ? & ?)];
        [left; by right | right; eauto].
Qed.

Lemma discover_device_nodes_of_store root topo d topo' :
  discover_device root topo d = Some topo' ->
  nodes_of_store root topo -> nodes_of_store root topo'.
Proof.
  intros Hrun Hinv.
  destruct (lookup_device d (devices root)) as [dev|] eqn:Hdev.
  - destruct (discover_device_node _ _ _ _ _ Hdev Hrun) as (nd & Hnodes & Hnd).
    { destruct (node topo !! d) as [n0|] eqn:Hn0; cbn [default].
      - destruct (Hinv _ _ Hn0) as (dev0 & Hdev0 & Hok).
        assert (dev0 = dev) as -> by congruence. by eapply node_before_of.
      - apply node_before_new. }
    intros x nx. rewrite Hnodes, lookup_insert. case_decide.
    + subst x. intros [= <-]. eauto.
    + apply Hinv.
  - unfold discover_device in Hrun. rewrite Hdev in Hrun. by injection Hrun as <-.
Qed.

Lemma discover_devices_nodes_of_store root l topo topo' :
  for_each (discover_device root) l topo = Some topo' ->
  nodes_of_store root topo -> nodes_of_store root topo'.
Proof.
  revert topo. induction l as [|x l IH]; intros topo; cbn [for_each].
  - by intros [= <-].
  - destruct (discover_device root topo x) as [t1|] eqn:Hx; [|done].
    cbn [mbind option_bind]. intros Hl Hinv. apply (IH _ Hl).
    by eapply discover_device_nodes_of_store.
Qed.

Lemma discover_node root input_device d dev :
  d ∈ discovered_devices root input_device ->
  lookup_device d (devices root) = Some dev ->
  exists nd,
    node (topology (fst (DiscoverTopology root input_device))) !! d = Some nd
    /\ node_of d dev nd.
Proof.
  intros Hin Hdev.
  destruct (discover_returns root input_device) as (topo & Htopo & ->).
  cbn [fst topology].
  assert (is_Some (node topo !! d)) as [nd Hnd].
  { rewrite (discover_devices_nodes _ _ _ _ Htopo d). right. eauto. }
  exists nd. split; [done|].
  destruct (discover_devices_nodes_of_store _ _ _ _ Htopo) with (d := d) (nd := nd)
    as (dev' & Hdev' & Hok); [|done|].
  { intros x nx. cbn. by rewrite lookup_empty. }
  by assert (dev' = dev) as -> by congruence.
Qed.

(** X17: the node that discover-topology leaves for a discovered device that
    the store has.  It carries the device name, the address as management
    address when the address is a non-empty string (no management address
    otherwise), and one termination point per interface of the device and no
    other: the one of an interface name holds the name and the layer, degree,
    SRG, direction and frequency that [parse_if_name] gives for it. *)
Theorem discover_termination_points (root : Root) (input_device : list string)
    (d : string) (dev : Device) :
  d ∈ discovered_devices root input_device ->
  lookup_device d (devices root) = Some dev ->
  exists nd,
    node (topology (fst (DiscoverTopology root input_device))) !! d = Some nd
    /\ Node.device nd = Some d
    /\ Node.mgmt_ip nd = (if truthy (address dev) then address dev else None)
    /\ (forall name,
          Node.tp nd !! name
          = (interface dev !! name ≫= fun _ => tp_of name <$> parse_if_name name)).
Proof.
  intros Hin Hdev.
  destruct (discover_node root input_device d dev Hin Hdev)
    as (nd & Hnd & Hname & Hip & Hdom & Hp & _ & _).
  exists nd. split_and!; try done.
  intros name. destruct (interface dev !! name) as [intf|] eqn:Hintf; cbn.
  - destruct (proj2 (Hdom name)) as [tp Htp]; [by rewrite Hintf|].
    destruct (Hp _ _ Htp) as (info & -> & ->). by rewrite Htp.
  - destruct (Node.tp nd !! name) as [tp|] eqn:Htp; [|done].
    destruct (proj1 (Hdom name)) as [? ?]; [eauto | congruence].
Qed.

Lemma discover_termination_points_witness :
  let root :=
    mkRoot [("D1", built_1_2 true (Some "10.0.0.1") ["DEG1-AMP"; "SRG1-WSS"])]
      (mkTopology ∅ ∅) in
  let dev := built_1_2 true (Some "10.0.0.1") ["DEG1-AMP"; "SRG1-WSS"] in
  "D1" ∈ discovered_devices root []
  /\ lookup_device "D1" (devices root) = Some dev
  /\ exists nd,
       node (topology (fst (DiscoverTopology root []))) !! "D1" = Some nd
       /\ Node.device nd = Some "D1"
       /\ Node.mgmt_ip nd = (if truthy (address dev) then address dev else None)
       /\ (forall name,
             Node.tp nd !! name
             = (interface dev !! name ≫= fun _ => tp_of name <$> parse_if_name name)).
Proof.
  cbn zeta. split; [cbn; set_solver|]. split; [reflexivity|].
  apply (discover_termination_points
           (mkRoot [("D1", built_1_2 true (Some "10.0.0.1") ["DEG1-AMP"; "SRG1-WSS"])]
              (mkTopology ∅ ∅)) [] "D1"
           (built_1_2 true (Some "10.0.0.1") ["DEG1-AMP"; "SRG1-WSS"]));
    [cbn; set_solver | reflexivity].
Defined.

(** X18: the degrees and SRGs that discover-topology leaves on the node of a
    discovered device.  The degree entries are exactly the numbers of the
    circuit packs named DEG<n>-... and the degrees that the interface names
    parse to; the SRG entries are exactly the numbers of the circuit packs
    named SRG<n>... and the SRGs that the interface names parse to.  So the
    degree and the SRG of every termination point of the node are entries of
    the node. *)
Theorem discover_degrees_and_srgs (root : Root) (input_device : list string)
    (d : string) (dev : Device) :
  d ∈ discovered_devices root input_device ->
  lookup_device d (devices root) = Some dev ->
  exists nd,
    node (topology (fst (DiscoverTopology root input_device))) !! d = Some nd
    /\ (forall k, k ∈ Node.degree nd <-> degree_source dev k)
    /\ (forall k, k ∈ Node.srg nd <-> srg_source dev k)
    /\ (forall name tp,
          Node.tp nd !! name = Some tp ->
          (forall k, TP.degree_id tp = Some k -> k ∈ Node.degree nd)
          /\ (forall k, TP.srg_id tp = Some k -> k ∈ Node.srg nd)).
Proof.
  intros Hin Hdev.
  destruct (discover_node root input_device d dev Hin Hdev)
    as (nd & Hnd & _ & _ & Hdom & Hp & Hd & Hs).
  exists nd. split_and!; try done.
  intros name tp Htp.
  assert (is_Some (interface dev !! name)) as Hintf by (apply Hdom; eauto).
  destruct (Hp _ _ Htp) as (info & Hinfo & ->). cbn [tp_of TP.degree_id TP.srg_id].
  split; intros k Hk; [apply Hd | apply Hs]; right; by exists name, info.
Qed.

Lemma discover_degrees_and_srgs_witness :
  let root :=
    mkRoot [("D1", built_1_2 true None ["DEG3-AMP"; "SRG2-WSS"])] (mkTopology ∅ ∅) in
  let dev := built_1_2 true None ["DEG3-AMP"; "SRG2-WSS"] in
  "D1" ∈ discovered_devices root ["D1"]
  /\ lookup_device "D1" (devices root) = Some dev
  /\ exists nd,
       node (topology (fst (DiscoverTopology root ["D1"]))) !! "D1" = Some nd
       /\ (forall k, k ∈ Node.degree nd <-> degree_source dev k)
       /\ (forall k, k ∈ Node.srg nd <-> srg_source dev k)
       /\ (forall name tp,
             Node.tp nd !! name = Some tp ->
             (forall k, TP.degree_id tp = Some k -> k ∈ Node.degree nd)
             /\ (forall k, TP.srg_id tp = Some k -> k ∈ Node.srg nd)).
Proof.
  cbn zeta. split; [cbn; set_solver|]. split; [reflexivity|].
  apply (discover_degrees_and_srgs
           (mkRoot [("D1", built_1_2 true None ["DEG3-AMP"; "SRG2-WSS"])]
              (mkTopology ∅ ∅)) ["D1"] "D1"
           (built_1_2 true None ["DEG3-AMP"; "SRG2-WSS"]));
    [cbn; set_solver | reflexivity].
Defined.

(** The node discovered for the device that the degree 1 to degree 2 build
    leaves: the degrees 1 and 2 of the interface names and 3 of a circuit
    pack, the SRG of a circuit pack, and the termination point of the source
    network media channel. *)
Example discover_after_build :
  let root :=
    mkRoot [("D1", built_1_2 true (Some "10.0.0.1") ["DEG3-AMP"; "SRG2-WSS"; "FAN"])]
      (mkTopology ∅ ∅) in
  let topo := topology (fst (DiscoverTopology root [])) in
  (Node.degree <$> node topo !! "D1") = Some ({[1; 2; 3]} : gset Z)
  /\ (Node.srg <$> node topo !! "D1") = Some ({[2]} : gset Z)
  /\ (node topo !! "D1" ≫= fun nd => Node.tp nd !! "NMC-CTP-DEG1-RX-193.3")
     = Some (TP.mk (Some "NMC-CTP-DEG1-RX-193.3") (Some "NMC") (Some 1) None
               (Some "RX") (Some "193.3")).
Proof. cbn zeta. split_and!; by vm_compute. Qed.
